(** * KYC MCP server: a shallow embedding of [server.js] and its properties

    The server is a single JavaScript module.  Its asynchronous functions are
    embedded as programs of a small effect monad [Prog]: the synchronous
    stretches of the code are ordinary Rocq terms, and every [await] of the
    source is a node of the program at which the function is suspended.  Two
    interpreters give programs a meaning: [run] executes one call to
    completion against an environment that answers the network requests, and
    [Loop.step] interleaves several calls the way the JavaScript event loop
    does, resuming one suspended call at a time. *)

From Stdlib Require Import ZArith QArith String Ascii List Lia Bool DecimalString.
From stdpp Require Import base option gmap strings list.

Local Open Scope string_scope.
Local Open Scope Z_scope.
Local Open Scope list_scope.

(** ** JavaScript values the code relies on *)

Module Js.

(** A value that is [undefined] or a string is truthy when it is a
    non-empty string. *)
Definition truthy (v : option string) : bool :=
  match v with
  | Some s => negb (String.eqb s "")
  | None => false
  end.

(** [a || b] on such values. *)
Definition or_else (a b : option string) : option string :=
  if truthy a then a else b.

(** A number is truthy when it is not zero ([undefined] is falsy). *)
Definition truthy_num (v : option Z) : bool :=
  match v with
  | Some n => negb (n =? 0)
  | None => false
  end.

(** Interpolation in a template literal. *)
Definition show (v : option string) : string :=
  match v with
  | Some s => s
  | None => "undefined"
  end.

Definition showZ (n : Z) : string := NilZero.string_of_int (Z.to_int n).

Definition showNum (v : option Z) : string :=
  match v with
  | Some n => showZ n
  | None => "undefined"
  end.

(** [s.startsWith(p)] *)
Fixpoint startsWith (p s : string) : bool :=
  match p, s with
  | EmptyString, _ => true
  | String a p', String b s' => Ascii.eqb a b && startsWith p' s'
  | String _ _, EmptyString => false
  end.

Fixpoint drop (n : nat) (s : string) : string :=
  match n, s with
  | O, _ => s
  | S n', String _ s' => drop n' s'
  | S _, EmptyString => EmptyString
  end.

(** [s.includes(p)] *)
Fixpoint includes (p s : string) : bool :=
  startsWith p s ||
  match s with
  | EmptyString => false
  | String _ s' => includes p s'
  end.

(** [s.replace(p, r)] with a string pattern: the first occurrence of [p],
    searched from the left, is replaced. *)
Fixpoint replace (p r s : string) : string :=
  if startsWith p s then r +:+ drop (String.length p) s
  else match s with
       | EmptyString => EmptyString
       | String a s' => String a (replace p r s')
       end.

Definition lower (a : ascii) : ascii :=
  let n := nat_of_ascii a in
  if ((65 <=? n) && (n <=? 90))%nat then ascii_of_nat (n + 32) else a.

(** [s.toLowerCase()], on the ASCII letters. *)
Fixpoint toLowerCase (s : string) : string :=
  match s with
  | EmptyString => EmptyString
  | String a s' => String (lower a) (toLowerCase s')
  end.

Definition hexdigit (n : nat) : ascii :=
  if (n <? 10)%nat then ascii_of_nat (48 + n) else ascii_of_nat (55 + n).

Definition unreserved (a : ascii) : bool :=
  let n := nat_of_ascii a in
  ((65 <=? n) && (n <=? 90) || (97 <=? n) && (n <=? 122) ||
   (48 <=? n) && (n <=? 57))%nat
  || existsb (Ascii.eqb a)
       ["-"; "_"; "."; "!"; "~"; "*"; "'"; "("; ")"]%char.

(** [encodeURIComponent(s)]: a string is its UTF-8 bytes here, so every
    byte that is not unreserved is written as a percent escape. *)
Fixpoint encodeURIComponent (s : string) : string :=
  match s with
  | EmptyString => EmptyString
  | String a s' =>
      if unreserved a then String a (encodeURIComponent s')
      else let n := nat_of_ascii a in
           String "%" (String (hexdigit (n / 16)) (String (hexdigit (n mod 16))
             (encodeURIComponent s')))
  end.

End Js.

(** ** Configuration read from the process environment *)

Record Config := {
  API_KEY : option string;
  DATAVERSE_URL : option string;
  DATAVERSE_CLIENT_ID : option string;
  DATAVERSE_CLIENT_SECRET : option string;
  DATAVERSE_TENANT_ID : option string;
  DOC_INTELLIGENCE_ENDPOINT : option string;
  DOC_INTELLIGENCE_KEY : option string;
  PERPLEXITY_API_KEY : option string
}.

(** ** What the server sends to and receives from its collaborators *)

Inductive RequestBody :=
| NoBody
| FormBody (params : list (string * string))
| BytesFromBase64 (base64Content : string)
| ChatBody (model system user : string)
| PatchStatus (cr_status_new : option Z).

Record Request := {
  url : string;
  method : string;
  req_headers : list (string * string);
  req_body : RequestBody
}.

(** The JSON documents the code reads, field by field.  An absent field is
    [None] (JavaScript's [undefined]). *)

Record TokenJson := {
  access_token : option string;
  expires_in : option Z
}.

Record Customer := {
  cr_kyccustomerid : option string;
  cr_fullname : option string;
  cr_firstname : option string;
  cr_lastname : option string;
  cr_email : option string;
  cr_status : option Z;
  cr_idtype : option Z;
  cr_idnumber : option string;
  createdon : option string
}.

Record OcrWord := { confidence : option Q }.
Record OcrPage := { words : option (list OcrWord) }.
Record AnalyzeResult := {
  content : option string;
  pages : option (list OcrPage)
}.

(** [error_json] is [JSON.stringify(result.error)]. *)
Record AnalyzeJson := {
  status : option string;
  error_json : string;
  analyzeResult : option AnalyzeResult
}.

Record LeiEntity := {
  legalName : option string;
  entity_status : option string;
  jurisdiction : option string
}.

Record LeiRegistration := {
  registration_status : option string;
  nextRenewalDate : option string
}.

Record LeiAttributes := {
  lei : option string;
  entity : option LeiEntity;
  registration : option LeiRegistration
}.

Record LeiRecord := { attributes : option LeiAttributes }.

(** The [data] field of a GLEIF search answer: absent, an array, or some
    other truthy value (which has no [map] method). *)
Inductive LeiData :=
| DataAbsent
| DataArray (records : list LeiRecord)
| DataNotArray.

(** [choices?.[0]?.message?.content] of a chat completion. *)
Inductive ChatContent :=
| ContentAbsent
| ContentText (text : string)
| ContentNotText.

Record ChatJson := {
  chat_content : ChatContent;
  citations : option (list string)
}.

Inductive Json :=
| JToken (t : TokenJson)
| JCollection (value : list Customer)
| JAnalyze (a : AnalyzeJson)
| JLeiSearch (data : LeiData)
| JLeiRecord (data : option LeiRecord)
| JChat (c : ChatJson)
| JObject.

(** An HTTP response, with the header names in lower case: [body_json] is
    [None] when the body is not JSON, in which case [response.json()]
    rejects. *)
Record Response := {
  http_status : Z;
  resp_headers : gmap string string;
  body_text : string;
  body_json : option Json
}.

Definition ok (r : Response) : bool :=
  (200 <=? http_status r) && (http_status r <=? 299).

(** [fetch] either rejects (no response at all) or resolves to a response. *)
Inductive FetchOutcome :=
| Rejected (message : string)
| Resolved (r : Response).

(** ** Programs *)

(** The module-level token slot of the Dataverse client:
    [let dataverseToken = null; let tokenExpiry = 0;].  The expiry is [None]
    when the stored number is NaN. *)
Record Cache := {
  dataverseToken : option string;
  tokenExpiry : option Z
}.

Definition emptyCache : Cache :=
  {| dataverseToken := None; tokenExpiry := Some 0 |}.

(** A program is the rest of an asynchronous function.  [DateNow], the reads
    and the writes of the token slot run synchronously; [Fetch], [Body]
    ([await response.text()] and [await response.json()]) and [Sleep]
    ([await new Promise(r => setTimeout(r, ms))]) are the points where the
    function is suspended.  [Throw] carries the [message] of the error. *)
Inductive Prog (A : Type) : Type :=
| Ret (a : A)
| Throw (message : string)
| DateNow (k : Z -> Prog A)
| GetToken (k : option string -> Prog A)
| SetToken (v : option string) (k : Prog A)
| GetExpiry (k : option Z -> Prog A)
| SetExpiry (v : option Z) (k : Prog A)
| Fetch (req : Request) (k : FetchOutcome -> Prog A)
| Body (k : Prog A)
| Sleep (ms : Z) (k : Prog A).

Arguments Ret {A} a.
Arguments Throw {A} message.
Arguments DateNow {A} k.
Arguments GetToken {A} k.
Arguments SetToken {A} v k.
Arguments GetExpiry {A} k.
Arguments SetExpiry {A} v k.
Arguments Fetch {A} req k.
Arguments Body {A} k.
Arguments Sleep {A} ms k.

Fixpoint bind {A B : Type} (p : Prog A) (f : A -> Prog B) : Prog B :=
  match p with
  | Ret a => f a
  | Throw e => Throw e
  | DateNow k => DateNow (fun t => bind (k t) f)
  | GetToken k => GetToken (fun v => bind (k v) f)
  | SetToken v k => SetToken v (bind k f)
  | GetExpiry k => GetExpiry (fun v => bind (k v) f)
  | SetExpiry v k => SetExpiry v (bind k f)
  | Fetch req k => Fetch req (fun o => bind (k o) f)
  | Body k => Body (bind k f)
  | Sleep ms k => Sleep ms (bind k f)
  end.

(** [try { p } catch (error) { h(error.message) }] *)
Fixpoint try_catch {A : Type} (p : Prog A) (h : string -> Prog A) : Prog A :=
  match p with
  | Ret a => Ret a
  | Throw e => h e
  | DateNow k => DateNow (fun t => try_catch (k t) h)
  | GetToken k => GetToken (fun v => try_catch (k v) h)
  | SetToken v k => SetToken v (try_catch k h)
  | GetExpiry k => GetExpiry (fun v => try_catch (k v) h)
  | SetExpiry v k => SetExpiry v (try_catch k h)
  | Fetch req k => Fetch req (fun o => try_catch (k o) h)
  | Body k => Body (try_catch k h)
  | Sleep ms k => Sleep ms (try_catch k h)
  end.

#[global] Instance prog_ret : MRet Prog := @Ret.
#[global] Instance prog_bind : MBind Prog := fun A B f p => bind p f.

(** [await fetch(req)]: a rejected fetch throws at the [await]. *)
Definition fetch (req : Request) : Prog Response :=
  Fetch req (fun o =>
    match o with
    | Rejected e => Throw e
    | Resolved r => Ret r
    end).

(** [await response.text()] *)
Definition text_of (r : Response) : Prog string :=
  Body (Ret (body_text r)).

(** [await response.json()] *)
Definition json_of (r : Response) : Prog Json :=
  Body (match body_json r with
        | Some j => Ret j
        | None => Throw "Unexpected token in JSON"
        end).

Definition sleep (ms : Z) : Prog unit := Sleep ms (Ret tt).
Definition date_now : Prog Z := DateNow Ret.

(** ** Running one call to completion *)

Inductive Result (A : Type) : Type :=
| Returned (a : A)
| Thrown (message : string).

Arguments Returned {A} a.
Arguments Thrown {A} message.

Inductive Event :=
| Requested (req : Request)
| Slept (ms : Z).

(** The state a call works on: the token slot, the clock ([Date.now()], in
    milliseconds) and the record of the requests sent and the delays taken,
    oldest first. *)
Record World := {
  cache : Cache;
  clock : Z;
  history : list Event
}.

(** The collaborators: given what happened so far and the request, the
    outcome of the request and the time it took. *)
Definition Environment := list Event -> Request -> FetchOutcome * nat.

Definition set_token (v : option string) (w : World) : World :=
  {| cache := {| dataverseToken := v; tokenExpiry := tokenExpiry (cache w) |};
     clock := clock w; history := history w |}.

Definition set_expiry (v : option Z) (w : World) : World :=
  {| cache := {| dataverseToken := dataverseToken (cache w); tokenExpiry := v |};
     clock := clock w; history := history w |}.

Definition record (e : Event) (elapsed : Z) (w : World) : World :=
  {| cache := cache w; clock := clock w + elapsed;
     history := history w ++ [e] |}.

Fixpoint run {A : Type} (env : Environment) (p : Prog A) (w : World)
  : Result A * World :=
  match p with
  | Ret a => (Returned a, w)
  | Throw e => (Thrown e, w)
  | DateNow k => run env (k (clock w)) w
  | GetToken k => run env (k (dataverseToken (cache w))) w
  | SetToken v k => run env k (set_token v w)
  | GetExpiry k => run env (k (tokenExpiry (cache w))) w
  | SetExpiry v k => run env k (set_expiry v w)
  | Fetch req k =>
      let '(o, elapsed) := env (history w) req in
      run env (k o) (record (Requested req) (Z.of_nat elapsed) w)
  | Body k => run env k w
  | Sleep ms k => run env k (record (Slept ms) ms w)
  end.

(** ** The event loop: several calls in flight *)

Module Loop.

(** A call is either settled or suspended at one of its [await]s. *)
Inductive Call (A : Type) : Type :=
| Settled (r : Result A)
| AtFetch (k : FetchOutcome -> Prog A)
| AtBody (k : Prog A)
| AtSleep (k : Prog A).

Arguments Settled {A} r.
Arguments AtFetch {A} k.
Arguments AtBody {A} k.
Arguments AtSleep {A} k.

(** The synchronous stretch of a call: it runs without interruption up to
    the next [await], where the request is sent or the timer is set. *)
Fixpoint advance {A : Type} (p : Prog A) (w : World) : Call A * World :=
  match p with
  | Ret a => (Settled (Returned a), w)
  | Throw e => (Settled (Thrown e), w)
  | DateNow k => advance (k (clock w)) w
  | GetToken k => advance (k (dataverseToken (cache w))) w
  | SetToken v k => advance k (set_token v w)
  | GetExpiry k => advance (k (tokenExpiry (cache w))) w
  | SetExpiry v k => advance k (set_expiry v w)
  | Fetch req k => (AtFetch k, record (Requested req) 0 w)
  | Body k => (AtBody k, w)
  | Sleep ms k => (AtSleep k, record (Slept ms) 0 w)
  end.

(** What the loop does next: a caller invokes the function, time passes,
    the fetch of call [i] settles, or the body read or the timer call [i]
    waits for completes. *)
Inductive Turn :=
| Invoke
| Elapse (ms : nat)
| Deliver (i : nat) (o : FetchOutcome)
| Wake (i : nat).

Record State (A : Type) := {
  world : World;
  calls : list (Call A)
}.

Arguments world {A} s.
Arguments calls {A} s.

Definition idle {A : Type} (w : World) : State A :=
  {| world := w; calls := [] |}.

Definition resume {A : Type} (s : State A) (i : nat) (p : Prog A) : State A :=
  let '(c, w) := advance p (world s) in
  {| world := w; calls := <[i := c]> (calls s) |}.

Definition step {A : Type} (entry : Prog A) (s : State A) (t : Turn) : State A :=
  match t with
  | Invoke =>
      let '(c, w) := advance entry (world s) in
      {| world := w; calls := calls s ++ [c] |}
  | Elapse ms =>
      {| world := {| cache := cache (world s);
                     clock := clock (world s) + Z.of_nat ms;
                     history := history (world s) |};
         calls := calls s |}
  | Deliver i o =>
      match calls s !! i with
      | Some (AtFetch k) => resume s i (k o)
      | _ => s
      end
  | Wake i =>
      match calls s !! i with
      | Some (AtBody k) => resume s i k
      | Some (AtSleep k) => resume s i k
      | _ => s
      end
  end.

Definition steps {A : Type} (entry : Prog A) (s : State A) (ts : list Turn)
  : State A :=
  fold_left (step entry) ts s.

End Loop.

(** ** Dataverse client *)

Module Dataverse.
Section WithConfig.

Variable cfg : Config.

Definition tokenUrl : string :=
  "https://login.microsoftonline.com/" +:+ Js.show (DATAVERSE_TENANT_ID cfg)
    +:+ "/oauth2/v2.0/token".

Definition tokenRequest : Request :=
  {| url := tokenUrl;
     method := "POST";
     req_headers := [("Content-Type", "application/x-www-form-urlencoded")];
     req_body := FormBody
       [("client_id", Js.show (DATAVERSE_CLIENT_ID cfg));
        ("client_secret", Js.show (DATAVERSE_CLIENT_SECRET cfg));
        ("scope", Js.show (DATAVERSE_URL cfg) +:+ "/.default");
        ("grant_type", "client_credentials")] |}.

(** [Date.now() < tokenExpiry - 300000]; a comparison with NaN is false. *)
Definition before_margin (t : Z) (expiry : option Z) : bool :=
  match expiry with
  | Some e => t <? e - 300000
  | None => false
  end.

(** [data.access_token] and [data.expires_in] of the parsed body. *)
Definition token_fields (data : Json) : option string * option Z :=
  match data with
  | JToken t => (access_token t, expires_in t)
  | _ => (None, None)
  end.

(** [Date.now() + data.expires_in * 1000] *)
Definition expiry_from (t : Z) (expires : option Z) : option Z :=
  match expires with
  | Some n => Some (t + n * 1000)
  | None => None
  end.

Definition getDataverseToken : Prog (option string) :=
  tok ← GetToken Ret;
  valid ← (if Js.truthy tok
           then t ← date_now; expiry ← GetExpiry Ret;
                Ret (before_margin t expiry)
           else Ret false);
  if valid : bool then GetToken Ret
  else
    response ← fetch tokenRequest;
    if negb (ok response)
    then error ← text_of response;
         Throw ("Failed to get Dataverse token: " +:+ error)
    else
      data ← json_of response;
      SetToken (fst (token_fields data)) (
      t ← date_now;
      SetExpiry (expiry_from t (snd (token_fields data))) (
      GetToken Ret)).

Definition dataverseRequest (token : option string) (endpoint method : string)
    (body : RequestBody) : Request :=
  {| url := Js.show (DATAVERSE_URL cfg) +:+ "/api/data/v9.2/" +:+ endpoint;
     method := method;
     req_headers :=
       [("Authorization", "Bearer " +:+ Js.show token);
        ("Content-Type", "application/json");
        ("OData-MaxVersion", "4.0");
        ("OData-Version", "4.0");
        ("Accept", "application/json");
        ("Prefer", "return=representation")];
     req_body := body |}.

(** [callDataverse(endpoint, method, body)]; on 204 it returns the object
    [{ success: true }], which has none of the fields the tools read. *)
Definition callDataverse (endpoint method : string) (body : RequestBody)
  : Prog Json :=
  token ← getDataverseToken;
  response ← fetch (dataverseRequest token endpoint method body);
  if negb (ok response)
  then error ← text_of response;
       Throw ("Dataverse API error " +:+ Js.showZ (http_status response)
                +:+ ": " +:+ error)
  else if http_status response =? 204 then Ret JObject
  else json_of response.

End WithConfig.
End Dataverse.

(** ** Document Intelligence client *)

Module DocIntelligence.
Section WithConfig.

Variable cfg : Config.

Record Extracted := {
  extracted_content : string;
  pageCount : nat;
  extracted_confidence : option Q
}.

Definition analyzeUrl : string :=
  Js.show (DOC_INTELLIGENCE_ENDPOINT cfg) +:+
  "documentintelligence/documentModels/prebuilt-read:analyze?api-version=2024-11-30".

Definition analyzeRequest (base64Content : string) (mimeType : option string)
  : Request :=
  {| url := analyzeUrl;
     method := "POST";
     req_headers :=
       [("Ocp-Apim-Subscription-Key", Js.show (DOC_INTELLIGENCE_KEY cfg));
        ("Content-Type",
         Js.show (Js.or_else mimeType (Some "application/pdf")))];
     req_body := BytesFromBase64 base64Content |}.

Definition pollRequest (operationLocation : string) : Request :=
  {| url := operationLocation;
     method := "GET";
     req_headers :=
       [("Ocp-Apim-Subscription-Key", Js.show (DOC_INTELLIGENCE_KEY cfg))];
     req_body := NoBody |}.

(** [result.status] and [JSON.stringify(result.error)] of a parsed body. *)
Definition status_of (result : Json) : option string :=
  match result with
  | JAnalyze a => status a
  | _ => None
  end.

Definition error_of (result : Json) : string :=
  match result with
  | JAnalyze a => error_json a
  | _ => "undefined"
  end.

Definition analyzeResult_of (result : Json) : option AnalyzeResult :=
  match result with
  | JAnalyze a => analyzeResult a
  | _ => None
  end.

Definition same (v : option string) (s : string) : bool :=
  match v with
  | Some x => String.eqb x s
  | None => false
  end.

(** How one turn of the [for] loop ends. *)
Inductive Turn := Break | Next.

(** The body of the loop: wait a second, poll, look at the status. *)
Definition pollOnce (operationLocation : string) : Prog (Json * Turn) :=
  sleep 1000;;
  pollResponse ← fetch (pollRequest operationLocation);
  if negb (ok pollResponse)
  then error ← text_of pollResponse; Throw ("Polling error: " +:+ error)
  else
    result ← json_of pollResponse;
    if same (status_of result) "succeeded" then Ret (result, Break)
    else if same (status_of result) "failed"
    then Throw ("Analysis failed: " +:+ error_of result)
    else Ret (result, Next).

(** [for (let i = 0; i < 30; i++) { ... }], with [n] the turns left and
    [result] the variable assigned by the turns before. *)
Fixpoint pollLoop (n : nat) (operationLocation : string) (result : option Json)
  : Prog (option Json) :=
  match n with
  | O => Ret result
  | S n' =>
      '(r, turn) ← pollOnce operationLocation;
      match turn with
      | Break => Ret (Some r)
      | Next => pollLoop n' operationLocation (Some r)
      end
  end.

(** The loop and the check that follows it. *)
Definition pollForCompletion (operationLocation : string) : Prog Json :=
  result ← pollLoop 30 operationLocation None;
  match result with
  | None => Throw "Cannot read properties of undefined (reading 'status')"
  | Some r =>
      if negb (same (status_of r) "succeeded") then Throw "Analysis timed out"
      else Ret r
  end.

Definition nonzero (q : option Q) : option Q :=
  match q with
  | Some x => if Qeq_bool x 0 then None else Some x
  | None => None
  end.

(** [analyzeResult?.pages?.[0]?.words?.[0]?.confidence] *)
Definition first_confidence (ar : AnalyzeResult) : option Q :=
  ps ← pages ar; p ← head ps; ws ← words p; w ← head ws; confidence w.

Definition extract (result : Json) : Extracted :=
  let ar := analyzeResult_of result in
  {| extracted_content := Js.show (Js.or_else (ar ≫= content) (Some ""));
     pageCount := length (default [] (ar ≫= pages));
     extracted_confidence := nonzero (ar ≫= first_confidence) |}.

Definition extractTextFromDocument (base64Content : string)
    (mimeType : option string) : Prog Extracted :=
  if negb (Js.truthy (DOC_INTELLIGENCE_KEY cfg))
  then Throw "Document Intelligence not configured"
  else
    response ← fetch (analyzeRequest base64Content mimeType);
    if negb (ok response)
    then error ← text_of response;
         Throw ("Document Intelligence error "
                  +:+ Js.showZ (http_status response) +:+ ": " +:+ error)
    else
      let operationLocation := resp_headers response !! "operation-location" in
      if negb (Js.truthy operationLocation)
      then Throw "No operation location returned from Document Intelligence"
      else
        result ← pollForCompletion (Js.show operationLocation);
        Ret (extract result).

End WithConfig.
End DocIntelligence.

(** ** The tools registered by [createMcpServer] *)

Module Tools.

Definition quote : string := String "034"%char EmptyString.

(** What [list_customers] shows of a customer. *)
Record CustomerView := {
  view_id : option string;
  fullName : string;
  email : option string;
  view_status : string;
  statusCode : option Z;
  idType : string;
  idNumber : option string;
  createdOn : option string
}.

Record Summary := {
  totalCustomers : nat;
  pending : nat;
  underReview : nat;
  approved : nat;
  rejected : nat
}.

Record Match := {
  match_lei : option string;
  match_legalName : option string;
  match_status : option string;
  match_jurisdiction : option string
}.

(** The entries of [results.checks]. *)
Inductive Check :=
| SearchCompleted (matchCount : nat) (matches : list Match)
| LeiValid (legalName entityStatus registrationStatus nextRenewalDate
             : option string)
| LeiNotFound
| MediaCompleted (summary : string) (hasRedFlags : bool) (sources : list string)
| Errored (error : string)
| Skipped (reason : string).

(** The [status] field of an entry. *)
Definition check_status (c : Check) : string :=
  match c with
  | SearchCompleted _ _ | LeiValid _ _ _ _ | LeiNotFound
  | MediaCompleted _ _ _ => "completed"
  | Errored _ => "error"
  | Skipped _ => "skipped"
  end.

(** The [results] object of [run_legal_entity_kyc]; [checks] lists the
    properties of [results.checks] in the order they were assigned, and
    [timestamp] is the instant that [toISOString] renders. *)
Record Results := {
  companyName : string;
  timestamp : Z;
  checks : list (string * Check);
  overallRisk : string;
  riskFactors : list string
}.

Inductive Data :=
| Customers (l : list CustomerView)
| KycSummary (s : Summary)
| Assessment (r : Results).

(** The text of a content item: a string, or [JSON.stringify(d, null, 2)]. *)
Inductive Text :=
| Plain (s : string)
| Stringified (d : Data).

Record Item := { type : string; text : Text }.
Record Envelope := { content : list Item }.

(** [{ content: [{ type: "text", text }] }] *)
Definition reply (t : Text) : Envelope :=
  {| content := [ {| type := "text"; text := t |} ] |}.

Definition getStatusLabel (status : option Z) : string :=
  match status with
  | Some 1 => "Pending"
  | Some 2 => "Under Review"
  | Some 3 => "Approved"
  | Some 4 => "Rejected"
  | _ => "Unknown"
  end.

Definition getIdTypeLabel (type : option Z) : string :=
  match type with
  | Some 1 => "Passport"
  | Some 2 => "National ID"
  | Some 3 => "Driver's License"
  | _ => "Unknown"
  end.

Definition view (c : Customer) : CustomerView :=
  {| view_id := cr_kyccustomerid c;
     fullName :=
       Js.show (Js.or_else (cr_fullname c)
         (Some (Js.show (cr_firstname c) +:+ " " +:+ Js.show (cr_lastname c))));
     email := cr_email c;
     view_status := getStatusLabel (cr_status c);
     statusCode := cr_status c;
     idType := getIdTypeLabel (cr_idtype c);
     idNumber := cr_idnumber c;
     createdOn := createdon c |}.

Definition has_status (n : Z) (c : Customer) : bool :=
  match cr_status c with
  | Some m => m =? n
  | None => false
  end.

(** [status < 1 || status > 4] *)
Definition out_of_range (status : option Z) : bool :=
  match status with
  | Some n => (n <? 1) || (4 <? n)
  | None => false
  end.

Section WithConfig.

Variable cfg : Config.

Definition list_customers (status : option Z) : Prog Envelope :=
  try_catch
    (let query :=
       "cr_kyccustomers?$select=cr_kyccustomerid,cr_fullname,cr_firstname,cr_lastname,cr_email,cr_status,cr_idtype,cr_idnumber,createdon&$orderby=createdon desc"
       +:+ (if Js.truthy_num status
            then "&$filter=cr_status eq " +:+ Js.showNum status
            else "") in
     result ← Dataverse.callDataverse cfg query "GET" NoBody;
     match result with
     | JCollection value => Ret (reply (Stringified (Customers (map view value))))
     | _ => Throw "Cannot read properties of undefined (reading 'map')"
     end)
    (fun message => Ret (reply (Plain ("Error: " +:+ message)))).

(** The handler of [update_customer_status].  The numbers are the whole
    numbers here; the schema of the tool, [z.number()], lets a fraction
    through as well, and a fraction between 1 and 4 passes both tests of
    the handler, which the whole numbers do not show. *)
Definition update_customer_status (customerId : option string)
    (status : option Z) : Prog Envelope :=
  if negb (Js.truthy customerId) || negb (Js.truthy_num status)
  then Ret (reply (Plain "customerId and status are required"))
  else if out_of_range status
  then Ret (reply (Plain
         "status must be 1 (Pending), 2 (Under Review), 3 (Approved), or 4 (Rejected)"))
  else
    Dataverse.callDataverse cfg
      ("cr_kyccustomers(" +:+ Js.show customerId +:+ ")") "PATCH"
      (PatchStatus status);;
    Ret (reply (Plain ("Customer status updated to " +:+ quote
                         +:+ getStatusLabel status +:+ quote
                         +:+ " successfully."))).

Definition get_kyc_summary : Prog Envelope :=
  result ← Dataverse.callDataverse cfg
             "cr_kyccustomers?$select=cr_kyccustomerid,cr_status" "GET" NoBody;
  match result with
  | JCollection customers =>
      Ret (reply (Stringified (KycSummary
        {| totalCustomers := length customers;
           pending := length (List.filter (fun c => has_status 1 c) customers);
           underReview := length (List.filter (fun c => has_status 2 c) customers);
           approved := length (List.filter (fun c => has_status 3 c) customers);
           rejected := length (List.filter (fun c => has_status 4 c) customers) |})))
  | _ => Throw "Cannot read properties of undefined (reading 'length')"
  end.

(** *** [run_legal_entity_kyc] *)

(** [results.checks[name] = c]: a new property goes last, an existing one
    keeps its place. *)
Fixpoint assign (name : string) (c : Check) (l : list (string * Check))
  : list (string * Check) :=
  match l with
  | [] => [(name, c)]
  | (n, c') :: l' =>
      if String.eqb n name then (n, c) :: l' else (n, c') :: assign name c l'
  end.

Definition set_check (name : string) (c : Check) (results : Results) : Results :=
  {| companyName := companyName results;
     timestamp := timestamp results;
     checks := assign name c (checks results);
     overallRisk := overallRisk results;
     riskFactors := riskFactors results |}.

(** [results.riskFactors.push(factor)] *)
Definition push (factor : string) (results : Results) : Results :=
  {| companyName := companyName results;
     timestamp := timestamp results;
     checks := checks results;
     overallRisk := overallRisk results;
     riskFactors := riskFactors results ++ [factor] |}.

Definition set_overallRisk (level : string) (results : Results) : Results :=
  {| companyName := companyName results;
     timestamp := timestamp results;
     checks := checks results;
     overallRisk := level;
     riskFactors := riskFactors results |}.

Definition acceptJson : list (string * string) :=
  [("Accept", "application/vnd.api+json")].

Definition gleifSearchRequest (name : string) : Request :=
  {| url := "https://api.gleif.org/api/v1/lei-records?filter[entity.legalName]="
              +:+ Js.encodeURIComponent name +:+ "&page[size]=3";
     method := "GET"; req_headers := acceptJson; req_body := NoBody |}.

Definition leiRequest (leiCode : string) : Request :=
  {| url := "https://api.gleif.org/api/v1/lei-records/" +:+ leiCode;
     method := "GET"; req_headers := acceptJson; req_body := NoBody |}.

Definition perplexityRequest (name : string) : Request :=
  {| url := "https://api.perplexity.ai/chat/completions";
     method := "POST";
     req_headers :=
       [("Authorization", "Bearer " +:+ Js.show (PERPLEXITY_API_KEY cfg));
        ("Content-Type", "application/json")];
     req_body :=
       ChatBody "sonar" "You are a KYC compliance analyst. Be factual and concise."
         ("Search for any negative news, sanctions, fraud, lawsuits, or regulatory issues involving "
            +:+ name +:+ ". Be concise.") |}.

(** [matches.map((m) => ({ lei: m.attributes.lei, ... }))]: reading [lei]
    of an absent [attributes] throws. *)
Fixpoint map_matches (matches : list LeiRecord) : Prog (list Match) :=
  match matches with
  | [] => Ret []
  | m :: rest =>
      match attributes m with
      | None => Throw "Cannot read properties of undefined (reading 'lei')"
      | Some a =>
          tl ← map_matches rest;
          Ret ({| match_lei := lei a;
                  match_legalName := entity a ≫= legalName;
                  match_status := entity a ≫= entity_status;
                  match_jurisdiction := entity a ≫= jurisdiction |} :: tl)
      end
  end.

(** [const matches = gleifData.data || []]; a value that is not an array
    has no [map], which shows when [matches.map] is called. *)
Definition search_data (gleifData : Json) : LeiData :=
  match gleifData with
  | JLeiSearch d => d
  | _ => DataAbsent
  end.

Definition matches_of (d : LeiData) : Prog (list LeiRecord) :=
  match d with
  | DataAbsent => Ret []
  | DataArray records => Ret records
  | DataNotArray => Throw "matches.map is not a function"
  end.

(** Step 1: GLEIF search.  The handler of the [catch] starts from the
    [results] the [try] was entered with: the block assigns to [results]
    only after its last operation that can throw. *)
Definition gleifSearch (name : string) (results : Results) : Prog Results :=
  try_catch
    (gleifResponse ← fetch (gleifSearchRequest name);
     if ok gleifResponse
     then
       gleifData ← json_of gleifResponse;
       matches ← matches_of (search_data gleifData);
       mapped ← map_matches matches;
       let results' :=
         set_check "gleifSearch"
           (SearchCompleted (length matches) mapped) results in
       Ret (if (length matches =? 0)%nat
            then push "Company not found in GLEIF registry" results'
            else results')
     else
       Ret (set_check "gleifSearch"
              (Errored ("HTTP " +:+ Js.showZ (http_status gleifResponse)))
              results))
    (fun message => Ret (set_check "gleifSearch" (Errored message) results)).

(** [leiData.data.attributes]: both reads throw on an absent object. *)
Definition lei_attributes (leiData : Json) : Prog LeiAttributes :=
  match leiData with
  | JLeiRecord (Some r) =>
      match attributes r with
      | Some a => Ret a
      | None => Throw "Cannot read properties of undefined (reading 'entity')"
      end
  | _ => Throw "Cannot read properties of undefined (reading 'attributes')"
  end.

Definition same (v : option string) (s : string) : bool :=
  match v with
  | Some x => String.eqb x s
  | None => false
  end.

(** Step 2: LEI verification, if a code was provided. *)
Definition leiVerification (leiCode : option string) (results : Results)
  : Prog Results :=
  if Js.truthy leiCode
  then
    try_catch
      (leiResponse ← fetch (leiRequest (Js.show leiCode));
       if ok leiResponse
       then
         leiData ← json_of leiResponse;
         a ← lei_attributes leiData;
         let status := registration a ≫= registration_status in
         let results' :=
           set_check "leiVerification"
             (LeiValid (entity a ≫= legalName) (entity a ≫= entity_status)
                status (registration a ≫= nextRenewalDate)) results in
         Ret (if negb (same status "ISSUED")
              then push ("LEI registration status: " +:+ Js.show status) results'
              else results')
       else if http_status leiResponse =? 404
       then Ret (push "Provided LEI not found in GLEIF database"
                   (set_check "leiVerification" LeiNotFound results))
       else Ret (set_check "leiVerification"
                   (Errored ("HTTP " +:+ Js.showZ (http_status leiResponse)))
                   results))
      (fun message => Ret (set_check "leiVerification" (Errored message) results))
  else Ret results.

(** [perplexityData.choices?.[0]?.message?.content || ""], lower-cased;
    a content that is not a string has no [toLowerCase]. *)
Definition screening_of (perplexityData : Json) : Prog string :=
  match perplexityData with
  | JChat c =>
      match chat_content c with
      | ContentAbsent => Ret ""
      | ContentText s => Ret s
      | ContentNotText => Throw "screening.toLowerCase is not a function"
      end
  | _ => Ret ""
  end.

Definition sources_of (perplexityData : Json) : list string :=
  match perplexityData with
  | JChat c => default [] (citations c)
  | _ => []
  end.

Definition redFlags (screening : string) : bool :=
  let lowerScreening := Js.toLowerCase screening in
  Js.includes "sanction" lowerScreening ||
  Js.includes "fraud" lowerScreening ||
  Js.includes "money laundering" lowerScreening ||
  Js.includes "convicted" lowerScreening.

(** Step 3: adverse media screening. *)
Definition adverseMedia (name : string) (results : Results) : Prog Results :=
  if Js.truthy (PERPLEXITY_API_KEY cfg)
  then
    try_catch
      (perplexityResponse ← fetch (perplexityRequest name);
       if ok perplexityResponse
       then
         perplexityData ← json_of perplexityResponse;
         screening ← screening_of perplexityData;
         let hasRedFlags := redFlags screening in
         let results' :=
           set_check "adverseMedia"
             (MediaCompleted screening hasRedFlags (sources_of perplexityData))
             results in
         Ret (if hasRedFlags
              then push "Adverse media findings detected" results'
              else results')
       else Ret (set_check "adverseMedia"
                   (Errored ("HTTP " +:+ Js.showZ (http_status perplexityResponse)))
                   results))
      (fun message => Ret (set_check "adverseMedia" (Errored message) results))
  else Ret (set_check "adverseMedia"
              (Skipped "Perplexity API key not configured") results).

(** Calculate overall risk. *)
Definition level (factors : nat) : string :=
  if (3 <=? factors)%nat then "HIGH"
  else if (1 <=? factors)%nat then "MEDIUM"
  else "LOW".

Definition assess (name : string) (leiCode : option string) : Prog Results :=
  t ← date_now;
  let results :=
    {| companyName := name; timestamp := t; checks := [];
       overallRisk := "LOW"; riskFactors := [] |} in
  results ← gleifSearch name results;
  results ← leiVerification leiCode results;
  results ← adverseMedia name results;
  Ret (set_overallRisk (level (length (riskFactors results))) results).

Definition run_legal_entity_kyc (name : string) (leiCode : option string)
  : Prog Envelope :=
  results ← assess name leiCode;
  Ret (reply (Stringified (Assessment results))).

End WithConfig.
End Tools.

(** ** The Express application *)

Module Server.

(** An incoming request: the header names are in lower case, as Node
    delivers them, and a query parameter is a string. *)
Record HttpRequest (Body : Type) := {
  verb : string;
  path : string;
  headers : gmap string string;
  query : gmap string string;
  body : Body
}.

Arguments verb {Body} _.
Arguments path {Body} _.
Arguments headers {Body} _.
Arguments query {Body} _.
Arguments body {Body} _.

(** The JSON documents the application itself answers with. *)
Inductive Answer :=
| AuthError (error message : string)
| RpcError (code : Z) (message : string)
| HealthReport (timestamp : Z)
    (secured dataverseConfigured docIntelligenceConfigured : bool)
| ServerInfo
| Connected (duration : Z) (endpoint : option string)
| ConnectFailed (error : string).

(** What a request gets back: a status and a JSON document; the response
    of a transport to the initialize request that opened its session, with
    the session identifier it puts in the [mcp-session-id] header; or
    whatever else the transport of a session writes. *)
Inductive Reply :=
| Sent (code : Z) (answer : Answer)
| Initialized (sessionHeader : string)
| ByTransport (sessionId : option string).

(** The result of a middleware: hand over to the next handler, or answer. *)
Inductive Verdict :=
| Continue
| Answered (r : Reply).

(** A transport of the SDK, as far as the application looks at it. *)
Record Transport := { sessionId : option string }.

(** The SDK transport, [StreamableHTTPServerTransport], is not part of this
    repository.  The application hands it a request with
    [transport.handleRequest] and hears of it again through the callbacks
    it installed only, so what a transport does with a request is a
    parameter of the application.  A new transport, given the request it
    was created for, accepts it and opens its session, or declines it with
    a JSON-RPC error (status 406 when the [Accept] header does not name both
    [application/json] and [text/event-stream], for one). *)
Inductive Opening :=
| Accepts
| Declines (code rpc : Z) (message : string).

(** The transport of a live session answers a request and stays, or
    answers it and closes (as it does on [DELETE]), or rejects it with a
    JSON-RPC error. *)
Inductive Handling :=
| Keeps
| Terminates
| Rejects (code rpc : Z) (message : string).

Section WithConfig.

Variable cfg : Config.
Variable Body : Type.

(** The SDK's test for an initialize request. *)
Variable isInitializeRequest : Body -> bool.

(** What a new transport does with the request it is created for, and what
    the transport of a live session does with a request. *)
Variable opens : HttpRequest Body -> Opening.
Variable handles : Transport -> HttpRequest Body -> Handling.

Definition providedKey (req : HttpRequest Body) : option string :=
  Js.or_else
    (Js.or_else (headers req !! "x-api-key")
       (Js.replace "Bearer " "" <$> headers req !! "authorization"))
    (query req !! "api_key").

Definition validateApiKey (req : HttpRequest Body) : Verdict :=
  if negb (Js.truthy (API_KEY cfg)) then Continue
  else
    let providedKey := providedKey req in
    if negb (Js.truthy providedKey)
    then Answered (Sent 401 (AuthError "Unauthorized"
           "API key required. Provide via x-api-key header, Authorization: Bearer header, or api_key query parameter"))
    else if negb (bool_decide (providedKey = API_KEY cfg))
    then Answered (Sent 403 (AuthError "Forbidden" "Invalid API key"))
    else Continue.

(** [app.get("/health", ...)] *)
Definition health (t : Z) : Reply :=
  Sent 200 (HealthReport t
    (Js.truthy (API_KEY cfg))
    (Js.truthy (DATAVERSE_CLIENT_ID cfg) && Js.truthy (DATAVERSE_CLIENT_SECRET cfg))
    (Js.truthy (DOC_INTELLIGENCE_KEY cfg))).

(** [app.get("/", ...)] *)
Definition info : Reply := Sent 200 ServerInfo.

Definition badRequest (message : string) : Reply :=
  Sent 400 (RpcError (-32000) message).

(** [onsessioninitialized]: [streamableTransports.set(newSessionId, transport)] *)
Definition onsessioninitialized (newSessionId : string)
    (streamableTransports : gmap string Transport) : gmap string Transport :=
  <[newSessionId := {| sessionId := Some newSessionId |}]> streamableTransports.

(** [transport.onclose] *)
Definition onclose (transport : Transport)
    (streamableTransports : gmap string Transport) : gmap string Transport :=
  match sessionId transport with
  | Some sid =>
      if Js.truthy (Some sid) && bool_decide (is_Some (streamableTransports !! sid))
      then delete sid streamableTransports
      else streamableTransports
  | None => streamableTransports
  end.

(** Modelled from the spec: [transport.handleRequest] of a transport that
    was just created with the two callbacks, which is not part of this
    repository.  A transport that accepts the request draws its identifier
    from [sessionIdGenerator], reports it through [onsessioninitialized] and
    returns it in the [mcp-session-id] header of its response; one that
    declines answers with its error and calls nothing. *)
Definition initialize (generated : string) (req : HttpRequest Body)
    (streamableTransports : gmap string Transport)
  : Reply * gmap string Transport :=
  match opens req with
  | Accepts =>
      (Initialized generated, onsessioninitialized generated streamableTransports)
  | Declines code rpc message =>
      (Sent code (RpcError rpc message), streamableTransports)
  end.

(** Modelled from the spec: [transport.handleRequest] of the transport of a
    live session, which is not part of this repository.  The transport
    writes the response; when it closes, [transport.onclose] runs. *)
Definition handleRequest (transport : Transport) (req : HttpRequest Body)
    (streamableTransports : gmap string Transport)
  : Reply * gmap string Transport :=
  match handles transport req with
  | Keeps => (ByTransport (sessionId transport), streamableTransports)
  | Terminates =>
      (ByTransport (sessionId transport), onclose transport streamableTransports)
  | Rejects code rpc message =>
      (Sent code (RpcError rpc message), streamableTransports)
  end.

(** [sessionId && streamableTransports.has(sessionId)], and with it the
    transport that [streamableTransports.get(sessionId)] returns. *)
Definition live (sessionId : option string)
    (streamableTransports : gmap string Transport) : option Transport :=
  match sessionId with
  | Some id => if Js.truthy (Some id) then streamableTransports !! id else None
  | None => None
  end.

(** The handler of [app.post("/mcp", ...)]; [generated] is the value that
    [crypto.randomUUID()] returns if it is called.  The [catch] of the
    handler answers 500 when a transport throws; the transports modelled
    above do not, so the handler has its three ways out only. *)
Definition postMcp (generated : string) (req : HttpRequest Body)
    (streamableTransports : gmap string Transport)
  : Reply * gmap string Transport :=
  let sessionId := headers req !! "mcp-session-id" in
  match live sessionId streamableTransports with
  | Some transport => handleRequest transport req streamableTransports
  | None =>
      if negb (Js.truthy sessionId) && isInitializeRequest (body req)
      then initialize generated req streamableTransports
      else (badRequest "Bad Request: No valid session ID provided",
            streamableTransports)
  end.

(** The handler of [app.get("/mcp", ...)]. *)
Definition getMcp (req : HttpRequest Body)
    (streamableTransports : gmap string Transport)
  : Reply * gmap string Transport :=
  let sessionId := headers req !! "mcp-session-id" in
  match live sessionId streamableTransports with
  | None => (badRequest "Bad Request: Invalid or missing session ID",
             streamableTransports)
  | Some transport => handleRequest transport req streamableTransports
  end.

(** The handler of [app.delete("/mcp", ...)]: the same test, and the same
    call of the transport, which is the one to end the session. *)
Definition deleteMcp (req : HttpRequest Body)
    (streamableTransports : gmap string Transport)
  : Reply * gmap string Transport :=
  let sessionId := headers req !! "mcp-session-id" in
  match live sessionId streamableTransports with
  | None => (badRequest "Bad Request: Invalid or missing session ID",
             streamableTransports)
  | Some transport => handleRequest transport req streamableTransports
  end.

(** The routes, in the order they are registered. *)
Inductive Route := Health | TestDataverse | McpPost | McpGet | McpDelete | Info.

Definition route (verb path : string) : option Route :=
  if String.eqb verb "GET" && String.eqb path "/health" then Some Health
  else if String.eqb verb "GET" && String.eqb path "/test-dataverse"
  then Some TestDataverse
  else if String.eqb verb "POST" && String.eqb path "/mcp" then Some McpPost
  else if String.eqb verb "GET" && String.eqb path "/mcp" then Some McpGet
  else if String.eqb verb "DELETE" && String.eqb path "/mcp" then Some McpDelete
  else if String.eqb verb "GET" && String.eqb path "/" then Some Info
  else None.

(** The middleware registered in front of the handler of a route. *)
Definition middleware (r : Route) : list (HttpRequest Body -> Verdict) :=
  match r with
  | Health | Info => []
  | TestDataverse | McpPost | McpGet | McpDelete => [validateApiKey]
  end.

(** Express runs the middleware in order, up to the first that answers. *)
Fixpoint through (ms : list (HttpRequest Body -> Verdict)) (req : HttpRequest Body)
  : Verdict :=
  match ms with
  | [] => Continue
  | m :: ms' =>
      match m req with
      | Continue => through ms' req
      | Answered r => Answered r
      end
  end.

(** The handler of [app.get("/test-dataverse", ...)]. *)
Definition testDataverse : Prog Reply :=
  try_catch
    (startTime ← date_now;
     Dataverse.callDataverse cfg "cr_kyccustomers?$top=1" "GET" NoBody;;
     finished ← date_now;
     Ret (Sent 200 (Connected (finished - startTime) (DATAVERSE_URL cfg))))
    (fun message => Ret (Sent 500 (ConnectFailed message))).

(** What the application does with a request: it answers at once, possibly
    changing the session registry, or goes on asynchronously.  [t] is the
    clock and [generated] the next random identifier. *)
Inductive Served :=
| Done (r : Reply) (streamableTransports : gmap string Transport)
| Later (p : Prog Reply)
| NoRoute.

Definition app (t : Z) (generated : string) (req : HttpRequest Body)
    (streamableTransports : gmap string Transport) : Served :=
  match route (verb req) (path req) with
  | None => NoRoute
  | Some r =>
      match through (middleware r) req with
      | Answered reply => Done reply streamableTransports
      | Continue =>
          match r with
          | Health => Done (health t) streamableTransports
          | Info => Done info streamableTransports
          | TestDataverse => Later testDataverse
          | McpPost =>
              let '(reply, m) := postMcp generated req streamableTransports in
              Done reply m
          | McpGet =>
              let '(reply, m) := getMcp req streamableTransports in Done reply m
          | McpDelete =>
              let '(reply, m) := deleteMcp req streamableTransports in Done reply m
          end
      end
  end.

End WithConfig.
End Server.

(** ** The tool dispatcher *)

Module Dispatcher.

(** The result of a tool call: the envelope the handler returned, or the
    error envelope [{ content: [{ type: "text", text }], isError: true }]. *)
Inductive CallToolResult (E : Type) :=
| FromHandler (envelope : E)
| IsError (text : string).

Arguments FromHandler {E} _.
Arguments IsError {E} _.

(** Modelled from the spec: the dispatcher that [mcpServer.tool] registers
    the handlers with, which is part of the SDK and not of this repository.
    It invokes the handler of the tool; an exception raised by the handler
    is caught at this boundary and converted into a successful envelope
    whose payload is the text of the error. *)
Definition invoke {E : Type} (handler : Prog E) : Prog (CallToolResult E) :=
  try_catch
    (envelope ← handler; Ret (FromHandler envelope))
    (fun message => Ret (IsError message)).

End Dispatcher.

(** ** Notions the properties are stated with *)

(** The token slot holds a token that [getDataverseToken] hands out again:
    a non-empty token that expires more than five minutes from now. *)
Definition valid_token (w : World) : bool :=
  Js.truthy (dataverseToken (cache w))
  && Dataverse.before_margin (clock w) (tokenExpiry (cache w)).

(** The token-exchange calls among the requests sent so far. *)
Definition is_exchange (cfg : Config) (e : Event) : bool :=
  match e with
  | Requested req => String.eqb (url req) (Dataverse.tokenUrl cfg)
  | Slept _ => false
  end.

Definition exchanges (cfg : Config) (w : World) : nat :=
  length (List.filter (is_exchange cfg) (history w)).

(** A turn of the event loop that resumes call [i]. *)
Definition addresses (i : nat) (t : Loop.Turn) : bool :=
  match t with
  | Loop.Deliver j _ | Loop.Wake j => (i =? j)%nat
  | Loop.Invoke | Loop.Elapse _ => false
  end.

(** [N] callers invoke the function before any of them is resumed. *)
Definition concurrently (cfg : Config) (N : nat) (w : World)
  : Loop.State (option string) :=
  Loop.steps (Dataverse.getDataverseToken cfg) (Loop.idle w) (replicate N Loop.Invoke).

(** A call of [getDataverseToken] that waits for its token exchange: what
    a call made on an empty token slot is suspended as. *)
Definition awaiting_exchange (cfg : Config) : Loop.Call (option string) :=
  fst (Loop.advance (Dataverse.getDataverseToken cfg)
         {| cache := emptyCache; clock := 0; history := [] |}).

(** A response of the identity provider that carries a token. *)
Definition token_response (token : string) (expires : Z) : Response :=
  {| http_status := 200; resp_headers := ∅; body_text := "";
     body_json := Some (JToken {| access_token := Some token;
                                  expires_in := Some expires |}) |}.

Definition issued (token : string) (expires : Z) : FetchOutcome :=
  Resolved (token_response token expires).

(** Single-flight coalescing, as the specification words it: with no valid
    token cached, [N >= 2] concurrent calls make one exchange, and whatever
    happens next, any two callers that have returned hold the same token. *)
Definition single_flight (cfg : Config) : Prop :=
  forall (w : World) (N : nat) (later : list Loop.Turn),
    valid_token w = false -> (2 <= N)%nat ->
    exchanges cfg (Loop.world (concurrently cfg N w)) = (exchanges cfg w + 1)%nat /\
    let s := Loop.steps (Dataverse.getDataverseToken cfg) (concurrently cfg N w) later in
    forall i j a b,
      Loop.calls s !! i = Some (Loop.Settled (Returned a)) ->
      Loop.calls s !! j = Some (Loop.Settled (Returned b)) -> a = b.

(** The record of [n] turns of the polling loop: a one-second wait, then
    the poll. *)
Fixpoint turns (cfg : Config) (operationLocation : string) (n : nat) : list Event :=
  match n with
  | O => []
  | S n' =>
      Slept 1000
        :: Requested (DocIntelligence.pollRequest cfg operationLocation)
        :: turns cfg operationLocation n'
  end.

(** The outcome of poll number [i] (from 0) of a loop entered with history
    [h], when the polls before it left the loop running. *)
Definition polled (cfg : Config) (env : Environment) (h : list Event)
    (operationLocation : string) (i : nat) : FetchOutcome :=
  fst (env (h ++ turns cfg operationLocation i ++ [Slept 1000])
           (DocIntelligence.pollRequest cfg operationLocation)).

(** The poll is answered with a success status and the JSON document [j]. *)
Definition reports (o : FetchOutcome) (j : Json) : Prop :=
  exists r, o = Resolved r /\ ok r = true /\ body_json r = Some j.

(** The poll reports an operation that is neither succeeded nor failed
    (queued or running). *)
Definition in_progress (o : FetchOutcome) : Prop :=
  exists j, reports o j /\
    DocIntelligence.status_of j <> Some "succeeded" /\
    DocIntelligence.status_of j <> Some "failed".

(** The risk factors an entry of [results.checks] accounts for: a search
    without matches, a LEI that is not in the database or whose registration
    is not [ISSUED], a screening with red flags.  An entry with the status
    [error] or [skipped] accounts for none. *)
Definition contribution (c : Tools.Check) : list string :=
  match c with
  | Tools.SearchCompleted matchCount _ =>
      if (matchCount =? 0)%nat then ["Company not found in GLEIF registry"] else []
  | Tools.LeiValid _ _ registrationStatus _ =>
      if negb (Tools.same registrationStatus "ISSUED")
      then ["LEI registration status: " +:+ Js.show registrationStatus]
      else []
  | Tools.LeiNotFound => ["Provided LEI not found in GLEIF database"]
  | Tools.MediaCompleted _ hasRedFlags _ =>
      if hasRedFlags then ["Adverse media findings detected"] else []
  | Tools.Errored _ | Tools.Skipped _ => []
  end.

(** The number of distinct risk factors in a list. *)
Definition distinct (factors : list string) : nat :=
  size (list_to_set factors : gset string).

(** The entry of the LEI check, if the check ran. *)
Definition lei_entry (c : option Tools.Check) : list (string * Tools.Check) :=
  match c with
  | Some c => [("leiVerification", c)]
  | None => []
  end.

(** What a step of the combined check does to [results]: it records the
    entry [c] under [name] and adds the factors that entry accounts for. *)
Definition records (name : string) (c : Tools.Check)
    (before after : Tools.Results) : Prop :=
  Tools.companyName after = Tools.companyName before /\
  Tools.timestamp after = Tools.timestamp before /\
  Tools.overallRisk after = Tools.overallRisk before /\
  Tools.checks after = Tools.assign name c (Tools.checks before) /\
  Tools.riskFactors after = Tools.riskFactors before ++ contribution c.

(** The statuses an entry may carry. *)
Definition known_status (c : Tools.Check) : Prop :=
  Tools.check_status c ∈ ["completed"; "skipped"; "error"].

(** The combined check as the specification words it: every assessment
    records the three checks, in order, each with one of the statuses. *)
Definition three_checks_recorded (cfg : Config) : Prop :=
  forall (env : Environment) (w : World) (name : string) (leiCode : option string),
  exists results w' c1 c2 c3,
    run env (Tools.assess cfg name leiCode) w = (Returned results, w') /\
    Tools.checks results
      = [("gleifSearch", c1); ("leiVerification", c2); ("adverseMedia", c3)] /\
    known_status c1 /\ known_status c2 /\ known_status c3.

(** A carrier of the shared secret is empty when it is absent or holds the
    empty string. *)
Definition empty (v : option string) : Prop := v = None \/ v = Some "".

(** The three carriers of a request, in the order the server consults them:
    the dedicated header, the authorization header without its [Bearer ]
    prefix, and the query parameter. *)
Definition carriers {Body : Type} (req : Server.HttpRequest Body) : list (option string) :=
  [Server.headers req !! "x-api-key";
   Js.replace "Bearer " "" <$> Server.headers req !! "authorization";
   Server.query req !! "api_key"].

(** The request carries [secret]: it is what the first carrier that is not
    empty holds. *)
Definition carries {Body : Type} (req : Server.HttpRequest Body) (secret : string) : Prop :=
  secret <> "" /\
  exists before after,
    carriers req = before ++ Some secret :: after /\ Forall empty before.

Definition carries_nothing {Body : Type} (req : Server.HttpRequest Body) : Prop :=
  Forall empty (carriers req).

(** Two requests that differ in the carriers of the secret at most. *)
Definition same_but_credentials {Body : Type} (a b : Server.HttpRequest Body) : Prop :=
  Server.verb a = Server.verb b /\
  Server.path a = Server.path b /\
  Server.body a = Server.body b /\
  (forall name, name <> "x-api-key" -> name <> "authorization" ->
     Server.headers a !! name = Server.headers b !! name) /\
  (forall name, name <> "api_key" -> Server.query a !! name = Server.query b !! name).


(** *** Sample data *)

Definition sample_config : Config :=
  {| API_KEY := Some "abc123";
     DATAVERSE_URL := Some "https://org.crm.dynamics.com";
     DATAVERSE_CLIENT_ID := Some "client";
     DATAVERSE_CLIENT_SECRET := Some "secret";
     DATAVERSE_TENANT_ID := Some "tenant";
     DOC_INTELLIGENCE_ENDPOINT := Some "https://doc.example/";
     DOC_INTELLIGENCE_KEY := Some "dockey";
     PERPLEXITY_API_KEY := Some "pplx" |}.

Definition fresh_world : World :=
  {| cache := emptyCache; clock := 1000000; history := [] |}.

Definition warm_world : World :=
  {| cache := {| dataverseToken := Some "tok"; tokenExpiry := Some 5000000 |};
     clock := 1000000; history := [] |}.

Definition respond (status : Z) (text : string) (json : option Json) : FetchOutcome :=
  Resolved {| http_status := status; resp_headers := ∅; body_text := text;
              body_json := json |}.

Definition analysis (status : string) (error : string) : Json :=
  JAnalyze {| status := Some status; error_json := error;
              analyzeResult :=
                Some {| content := Some "Passport No. X123"; pages := Some [] |} |}.

(** Collaborators that always give the same answer. *)
Definition always (j : Json) : Environment :=
  fun _ _ => (respond 200 "" (Some j), 0%nat).

(** An analysis that is running for [n] polls and has succeeded by the next. *)
Definition succeeds_after (n : nat) : Environment :=
  fun h _ =>
    if (length h =? 2 * n + 1)%nat
    then (respond 200 "" (Some (analysis "succeeded" "undefined")), 0%nat)
    else (respond 200 "" (Some (analysis "running" "undefined")), 0%nat).

(** A registry without a match, a LEI the database does not know, and a
    screening that reports a conviction: one answer for each request of an
    assessment, in the order the requests are sent. *)
Definition alarming : Environment :=
  fun h _ =>
    match length h with
    | 0%nat => (respond 200 "" (Some (JLeiSearch (DataArray []))), 0%nat)
    | 1%nat => (respond 404 "" None, 0%nat)
    | _ => (respond 200 ""
              (Some (JChat {| chat_content := ContentText "Convicted of fraud in 2019.";
                              citations := None |})), 0%nat)
    end.

(** Requests whose body is the name of the JSON-RPC method, and the test
    for an initialize request on them. *)
Definition is_initialize (body : string) : bool := String.eqb body "initialize".

Definition request (verb path : string) (headers query : list (string * string))
    (body : string) : Server.HttpRequest string :=
  {| Server.verb := verb; Server.path := path;
     Server.headers := list_to_map headers; Server.query := list_to_map query;
     Server.body := body |}.

(** Sample transports.  A new transport opens its session for a request
    that accepts both a JSON document and an event stream, and declines any
    other with 406; the transport of a live session closes on [DELETE]. *)
Definition streams (req : Server.HttpRequest string) : bool :=
  match Server.headers req !! "accept" with
  | Some accept =>
      Js.includes "application/json" accept && Js.includes "text/event-stream" accept
  | None => false
  end.

Definition sample_opens (req : Server.HttpRequest string) : Server.Opening :=
  if streams req then Server.Accepts
  else Server.Declines 406 (-32000)
         "Not Acceptable: Client must accept both application/json and text/event-stream".

Definition sample_handles (transport : Server.Transport)
    (req : Server.HttpRequest string) : Server.Handling :=
  if String.eqb (Server.verb req) "DELETE" then Server.Terminates else Server.Keeps.


(** Collaborators that are all unreachable. *)
Definition offline : Environment := fun _ _ => (Rejected "fetch failed", 0%nat).

(** ** The adverse-media screening tool *)

Module Screening.

(** The object the tool serialises; [screenedAt] is the instant that
    [toISOString] renders. *)
Record Result := {
  entityName : string;
  entityType : string;
  screeningResult : string;
  sources : list string;
  hasRedFlags : bool;
  screenedAt : Z
}.

(** The text of the content item: a string, or [JSON.stringify(result, null, 2)]. *)
Inductive Text :=
| Plain (s : string)
| Stringified (r : Result).

Record Item := { type : string; text : Text }.
Record Envelope := { content : list Item }.

Definition reply (t : Text) : Envelope :=
  {| content := [ {| type := "text"; text := t |} ] |}.

Definition prompt (entityName : string) : string :=
  "Search for any negative news, sanctions, fraud allegations, lawsuits, regulatory actions, or controversies involving "
  +:+ entityName +:+ ". Focus on:
1. Sanctions lists (OFAC, EU, UN)
2. Fraud or financial crimes
3. Regulatory fines or enforcement actions
4. Lawsuits or legal proceedings
5. Money laundering allegations
6. Politically exposed persons (PEP) connections
7. Negative press coverage

Provide a summary with sources. If nothing negative found, state that clearly.".

(** Check for red flags in the response. *)
Definition redFlags (screeningResult : string) : bool :=
  let lowerResult := Js.toLowerCase screeningResult in
  Js.includes "sanction" lowerResult ||
  Js.includes "fraud" lowerResult ||
  Js.includes "money laundering" lowerResult ||
  Js.includes "indicted" lowerResult ||
  Js.includes "convicted" lowerResult ||
  Js.includes "regulatory action" lowerResult ||
  Js.includes "fine" lowerResult ||
  Js.includes "penalty" lowerResult.

(** [data.choices?.[0]?.message?.content || "No results returned"]; a
    content that is not a string has no [toLowerCase], which shows when the
    red flags are looked for. *)
Definition result_of (data : Json) : Prog string :=
  match data with
  | JChat c =>
      match chat_content c with
      | ContentAbsent => Ret "No results returned"
      | ContentText s => Ret (if String.eqb s "" then "No results returned" else s)
      | ContentNotText => Throw "screeningResult.toLowerCase is not a function"
      end
  | _ => Ret "No results returned"
  end.

Section WithConfig.

Variable cfg : Config.

Definition screeningRequest (entityName : string) : Request :=
  {| url := "https://api.perplexity.ai/chat/completions";
     method := "POST";
     req_headers :=
       [("Authorization", "Bearer " +:+ Js.show (PERPLEXITY_API_KEY cfg));
        ("Content-Type", "application/json")];
     req_body :=
       ChatBody "sonar"
         "You are a KYC compliance analyst performing adverse media screening. Be thorough but factual. Always cite sources when available."
         (prompt entityName) |}.

(** [async ({ entityName, entityType = "company" }) => ...] *)
Definition screen_adverse_media (entityName : string) (entityType : option string)
  : Prog Envelope :=
  let entityType := default "company" entityType in
  if negb (Js.truthy (PERPLEXITY_API_KEY cfg))
  then Ret (reply (Plain
         "Error: Perplexity API key not configured. Cannot perform adverse media screening."))
  else
    try_catch
      (response ← fetch (screeningRequest entityName);
       if negb (ok response)
       then error ← text_of response;
            Throw ("Perplexity API error: " +:+ Js.showZ (http_status response)
                     +:+ " - " +:+ error)
       else
         data ← json_of response;
         screeningResult ← result_of data;
         let citations := Tools.sources_of data in
         t ← date_now;
         Ret (reply (Stringified
                {| entityName := entityName;
                   entityType := entityType;
                   screeningResult := screeningResult;
                   sources := citations;
                   hasRedFlags := redFlags screeningResult;
                   screenedAt := t |})))
      (fun message => Ret (reply (Plain ("Error: " +:+ message)))).

End WithConfig.
End Screening.

(** ** Further notions and sample data *)

(** The time the delays of a record add up to. *)
Fixpoint slept (events : list Event) : Z :=
  match events with
  | [] => 0
  | Slept ms :: rest => ms + slept rest
  | Requested _ :: rest => slept rest
  end.

(** The routes behind the API-key check. *)
Definition guarded (r : Server.Route) : Prop :=
  r = Server.TestDataverse \/ r = Server.McpPost \/
  r = Server.McpGet \/ r = Server.McpDelete.

(** The words the combined check looks for in a screening. *)
Definition alarm_words : list string :=
  ["sanction"; "fraud"; "money laundering"; "convicted"].

(** An identity provider that issues [token], valid for [expires] seconds,
    in five milliseconds, and a Dataverse that gives [answer] in seven. *)
Definition granting (token : string) (expires : Z) (answer : FetchOutcome)
  : Environment :=
  fun _ req =>
    if String.eqb (url req) (Dataverse.tokenUrl sample_config)
    then (issued token expires, 5%nat)
    else (answer, 7%nat).

Definition customer (status : Z) : Customer :=
  {| cr_kyccustomerid := Some "c-1"; cr_fullname := Some "Ada Lovelace";
     cr_firstname := Some "Ada"; cr_lastname := Some "Lovelace";
     cr_email := None; cr_status := Some status; cr_idtype := Some 1;
     cr_idnumber := None; createdon := None |}.

(** A server started with an empty environment. *)
Definition unconfigured : Config :=
  {| API_KEY := None; DATAVERSE_URL := None; DATAVERSE_CLIENT_ID := None;
     DATAVERSE_CLIENT_SECRET := None; DATAVERSE_TENANT_ID := None;
     DOC_INTELLIGENCE_ENDPOINT := None; DOC_INTELLIGENCE_KEY := None;
     PERPLEXITY_API_KEY := None |}.

(** The number of customers of a list whose [cr_status] is [n], and the
    number of those whose [cr_status] is none of 1, 2, 3 and 4, or is
    missing. *)
Definition with_status (n : Z) (customers : list Customer) : nat :=
  length (List.filter (fun c => bool_decide (cr_status c = Some n)) customers).

Definition unclassified (customers : list Customer) : nat :=
  length (List.filter
            (fun c => negb (bool_decide (cr_status c ∈ [Some 1; Some 2; Some 3; Some 4])))
            customers).

(** * Properties *)

(** ** How [run] goes through [bind] and [try_catch] *)

Lemma run_bind {A B : Type} (env : Environment) (p : Prog A) (f : A -> Prog B) w :
  run env (p ≫= f) w =
  match run env p w with
  | (Returned a, w') => run env (f a) w'
  | (Thrown e, w') => (Thrown e, w')
  end.
Proof.
  unfold mbind, prog_bind.
  revert w; induction p as [a|e|k IH|k IH|v k IH|k IH|v k IH|req k IH|k IH|ms k IH];
    intros w; simpl; auto.
  destruct (env (history w) req) as [o elapsed]. apply IH.
Qed.

Lemma run_try_catch {A : Type} (env : Environment) (p : Prog A) h w :
  run env (try_catch p h) w =
  match run env p w with
  | (Returned a, w') => (Returned a, w')
  | (Thrown e, w') => run env (h e) w'
  end.
Proof.
  revert w; induction p as [a|e|k IH|k IH|v k IH|k IH|v k IH|req k IH|k IH|ms k IH];
    intros w; simpl; auto.
  destruct (env (history w) req) as [o elapsed]. apply IH.
Qed.

(** A handler that returns makes the whole [try]/[catch] return. *)
Lemma try_catch_returns {A : Type} (env : Environment) (p : Prog A) (h : string -> A) w :
  exists a w', run env (try_catch p (fun e => Ret (h e))) w = (Returned a, w').
Proof.
  rewrite run_try_catch. destruct (run env p w) as [[a|e] w']; simpl; eauto.
Qed.

Lemma run_fetch (env : Environment) (req : Request) w :
  run env (fetch req) w =
  (match fst (env (history w) req) with
   | Rejected e => Thrown e
   | Resolved r => Returned r
   end,
   record (Requested req) (Z.of_nat (snd (env (history w) req))) w).
Proof.
  unfold fetch; simpl. destruct (env (history w) req) as [[e|r] elapsed]; reflexivity.
Qed.

Lemma history_record e elapsed w : history (record e elapsed w) = history w ++ [e].
Proof. reflexivity. Qed.

(** ** Credential cache *)

Section CredentialCache.

Variable cfg : Config.

(** C8.  While the cached token is non-empty and expires more than five
    minutes (300000 ms) from now, [getDataverseToken] returns it and leaves
    the world as it was: the token slot is not written and no request is
    sent.  In the event loop the call settles without being suspended. *)
Theorem cached_token_returned (env : Environment) (w : World)
    (token : string) (expiry : Z) :
  dataverseToken (cache w) = Some token ->
  token <> "" ->
  tokenExpiry (cache w) = Some expiry ->
  clock w + 300000 < expiry ->
  run env (Dataverse.getDataverseToken cfg) w = (Returned (Some token), w) /\
  Loop.advance (Dataverse.getDataverseToken cfg) w
    = (Loop.Settled (Returned (Some token)), w).
Proof.
  intros Htok Hne Hexp Hlt.
  assert (Htruthy : Js.truthy (Some token) = true).
  { simpl. destruct (String.eqb_spec token ""); [contradiction | reflexivity]. }
  assert (Hmargin : Dataverse.before_margin (clock w) (Some expiry) = true).
  { simpl. apply Z.ltb_lt. lia. }
  unfold Dataverse.getDataverseToken, mbind, prog_bind, date_now; simpl.
  rewrite Htok, Htruthy; simpl. rewrite Hexp, Hmargin; simpl.
  rewrite Htok. split; reflexivity.
Qed.

Abbreviation entry := (Dataverse.getDataverseToken cfg).

Lemma valid_token_record e (w : World) :
  valid_token (record e 0 w) = valid_token w.
Proof. unfold valid_token, record; simpl. now rewrite Z.add_0_r. Qed.

(** With no valid token, a call sends the exchange request and is
    suspended on it; the token slot is not touched. *)
Lemma advance_stale (w : World) :
  valid_token w = false ->
  Loop.advance entry w
    = (awaiting_exchange cfg, record (Requested (Dataverse.tokenRequest cfg)) 0 w).
Proof.
  unfold valid_token. intros Hstale.
  unfold Dataverse.getDataverseToken, mbind, prog_bind, date_now; simpl.
  destruct (Js.truthy (dataverseToken (cache w))); simpl in *.
  - rewrite Hstale; reflexivity.
  - reflexivity.
Qed.

Lemma invoke_stale (s : Loop.State (option string)) :
  valid_token (Loop.world s) = false ->
  Loop.step entry s Loop.Invoke
    = {| Loop.world := record (Requested (Dataverse.tokenRequest cfg)) 0 (Loop.world s);
         Loop.calls := Loop.calls s ++ [awaiting_exchange cfg] |}.
Proof. intros Hstale. unfold Loop.step. now rewrite (advance_stale _ Hstale). Qed.

Lemma invoke_all (N : nat) : forall s : Loop.State (option string),
  valid_token (Loop.world s) = false ->
  let s' := Loop.steps entry s (replicate N Loop.Invoke) in
  cache (Loop.world s') = cache (Loop.world s) /\
  clock (Loop.world s') = clock (Loop.world s) /\
  history (Loop.world s')
    = history (Loop.world s) ++ replicate N (Requested (Dataverse.tokenRequest cfg)) /\
  Loop.calls s' = Loop.calls s ++ replicate N (awaiting_exchange cfg).
Proof.
  induction N as [|N IH]; intros s Hstale.
  - simpl. now rewrite !app_nil_r.
  - cbn [replicate]. unfold Loop.steps. cbn [fold_left].
    rewrite (invoke_stale _ Hstale).
    match goal with |- context [fold_left _ _ ?s1] => specialize (IH s1) end.
    unfold Loop.steps in IH. cbn [Loop.world Loop.calls] in IH. rewrite valid_token_record in IH.
    destruct (IH Hstale) as (Hc & Hk & Hh & Hcalls).
    cbv zeta. rewrite Hc, Hk, Hh, Hcalls. simpl.
    rewrite <- !app_assoc. simpl. repeat split; auto. lia.
Qed.

Lemma exchanges_app (w : World) (N : nat) (h : list Event) :
  h = history w ++ replicate N (Requested (Dataverse.tokenRequest cfg)) ->
  length (List.filter (is_exchange cfg) h) = (exchanges cfg w + N)%nat.
Proof.
  intros ->. unfold exchanges. rewrite List.filter_app, length_app. f_equal.
  induction N as [|N IH]; simpl; [reflexivity|].
  rewrite String.eqb_refl; simpl. now rewrite IH.
Qed.

(** A turn that resumes another call leaves call [i] as it is. *)
Lemma step_other (s : Loop.State (option string)) (t : Loop.Turn) i c :
  addresses i t = false ->
  Loop.calls s !! i = Some c ->
  Loop.calls (Loop.step entry s t) !! i = Some c.
Proof.
  intros Hnot Hi. destruct t as [|ms|j o|j]; unfold Loop.step.
  - destruct (Loop.advance entry (Loop.world s)) as [c' w']. cbn [Loop.calls].
    now apply lookup_app_l_Some.
  - exact Hi.
  - apply Nat.eqb_neq in Hnot.
    destruct (Loop.calls s !! j) as [[r|k|k|k]|]; auto.
    unfold Loop.resume. destruct (Loop.advance (k o) (Loop.world s)).
    cbn [Loop.calls]. rewrite list_lookup_insert_ne; auto.
  - apply Nat.eqb_neq in Hnot.
    destruct (Loop.calls s !! j) as [[r|k|k|k]|]; auto;
      unfold Loop.resume; destruct (Loop.advance k (Loop.world s));
      cbn [Loop.calls]; rewrite list_lookup_insert_ne; auto.
Qed.

Lemma steps_other (ts : list Loop.Turn) i c : forall s : Loop.State (option string),
  Forall (fun t => addresses i t = false) ts ->
  Loop.calls s !! i = Some c ->
  Loop.calls (Loop.steps entry s ts) !! i = Some c.
Proof.
  induction ts as [|t ts IH]; intros s Hall Hi; [exact Hi|].
  inversion Hall; subst. unfold Loop.steps; cbn [fold_left].
  apply IH; [assumption|]. now apply step_other.
Qed.

(** A call that waits for its exchange returns the token of the response
    it is given, and stores it. *)
Lemma deliver_wake (s : Loop.State (option string)) i (r : Response) (t : TokenJson) :
  Loop.calls s !! i = Some (awaiting_exchange cfg) ->
  ok r = true -> body_json r = Some (JToken t) ->
  let s' := Loop.steps entry s [Loop.Deliver i (Resolved r); Loop.Wake i] in
  Loop.calls s' !! i = Some (Loop.Settled (Returned (access_token t))) /\
  dataverseToken (cache (Loop.world s')) = access_token t.
Proof.
  intros Hi Hok Hjson. pose proof (lookup_lt_Some _ _ _ Hi) as Hlt.
  simpl. rewrite Hi. unfold awaiting_exchange; simpl.
  unfold Loop.resume; simpl. rewrite Hok; simpl.
  rewrite list_lookup_insert_eq by assumption.
  unfold Loop.resume; simpl. rewrite Hjson; simpl.
  rewrite list_lookup_insert_eq by (rewrite length_insert; assumption).
  split; reflexivity.
Qed.

(** C1, as the code has it.  With no valid token cached, [N] concurrent
    calls of [getDataverseToken] send [N] exchange requests, one for each
    caller, and leave the token slot alone; every caller is suspended on
    its own exchange.  Whatever the other calls do meanwhile, a caller
    whose exchange is answered with a token returns that token and stores
    it in the slot. *)
Theorem concurrent_calls_exchange_each (w : World) (N : nat) :
  valid_token w = false ->
  let s := concurrently cfg N w in
  exchanges cfg (Loop.world s) = (exchanges cfg w + N)%nat /\
  cache (Loop.world s) = cache w /\
  Loop.calls s = replicate N (awaiting_exchange cfg) /\
  forall (i : nat) (between : list Loop.Turn) (r : Response) (t : TokenJson),
    (i < N)%nat ->
    Forall (fun turn => addresses i turn = false) between ->
    ok r = true -> body_json r = Some (JToken t) ->
    let s' := Loop.steps entry s
                (between ++ [Loop.Deliver i (Resolved r); Loop.Wake i]) in
    Loop.calls s' !! i = Some (Loop.Settled (Returned (access_token t))) /\
    dataverseToken (cache (Loop.world s')) = access_token t.
Proof.
  intros Hstale s.
  destruct (invoke_all N (Loop.idle w) Hstale) as (Hc & _ & Hh & Hcalls).
  fold (concurrently cfg N w) in Hc, Hh, Hcalls. fold s in Hc, Hh, Hcalls.
  simpl in Hc, Hh, Hcalls.
  split; [now apply exchanges_app|]. split; [exact Hc|]. split; [exact Hcalls|].
  intros i between r t Hi Hbetween Hok Hjson.
  unfold Loop.steps. rewrite fold_left_app.
  apply deliver_wake; try assumption.
  apply steps_other; [assumption|].
  rewrite Hcalls. now apply lookup_replicate_2.
Qed.

End CredentialCache.

Lemma cached_token_returned_witness :
  run offline (Dataverse.getDataverseToken sample_config) warm_world
    = (Returned (Some "tok"), warm_world) /\
  Loop.advance (Dataverse.getDataverseToken sample_config) warm_world
    = (Loop.Settled (Returned (Some "tok")), warm_world).
Proof.
  apply (cached_token_returned sample_config offline warm_world "tok" 5000000);
    [reflexivity | discriminate | reflexivity | simpl; lia].
Defined.

Lemma concurrent_calls_exchange_each_witness :
  valid_token fresh_world = false /\
  exchanges sample_config (Loop.world (concurrently sample_config 2 fresh_world)) = 2%nat /\
  Loop.calls
    (Loop.steps (Dataverse.getDataverseToken sample_config)
       (concurrently sample_config 2 fresh_world)
       ([Loop.Deliver 0 (issued "t1" 3600); Loop.Wake 0]
          ++ [Loop.Deliver 1 (issued "t2" 3600); Loop.Wake 1])) !! 1%nat
    = Some (Loop.Settled (Returned (Some "t2"))).
Proof.
  split; [reflexivity|].
  destruct (concurrent_calls_exchange_each sample_config fresh_world 2 eq_refl)
    as (Hcount & _ & _ & Hown).
  split; [exact Hcount|].
  refine (proj1 (Hown 1%nat [Loop.Deliver 0 (issued "t1" 3600); Loop.Wake 0]
                   (token_response "t2" 3600)
                   {| access_token := Some "t2"; expires_in := Some 3600 |}
                   _ _ eq_refl eq_refl)).
  - lia.
  - repeat constructor.
Defined.

(** C1, as the specification words it, fails: two concurrent calls on an
    empty token slot make two exchanges, and when the identity provider
    answers them with different tokens the two callers return different
    tokens. *)
Lemma single_flight_refuted :
  ~ single_flight sample_config /\
  let s := Loop.steps (Dataverse.getDataverseToken sample_config)
             (concurrently sample_config 2 fresh_world)
             [Loop.Deliver 0 (issued "t1" 3600); Loop.Wake 0;
              Loop.Deliver 1 (issued "t2" 3600); Loop.Wake 1] in
  valid_token fresh_world = false /\
  exchanges sample_config (Loop.world s) = 2%nat /\
  Loop.calls s = [Loop.Settled (Returned (Some "t1"));
                  Loop.Settled (Returned (Some "t2"))].
Proof.
  split.
  - intros Hclaim.
    destruct (Hclaim fresh_world 2%nat [] eq_refl (le_n 2)) as [Hone _].
    vm_compute in Hone. discriminate Hone.
  - vm_compute. repeat split; reflexivity.
Qed.

(** ** Polling the document analysis *)

Section Poller.

Variable cfg : Config.
Variable env : Environment.
Variable operationLocation : string.

Abbreviation poll := (DocIntelligence.pollRequest cfg operationLocation).

Lemma same_true (v : option string) (s : string) :
  DocIntelligence.same v s = true <-> v = Some s.
Proof.
  destruct v as [x|]; simpl; [|split; discriminate].
  rewrite String.eqb_eq. split; congruence.
Qed.

Lemma same_false (v : option string) (s : string) :
  DocIntelligence.same v s = false <-> v <> Some s.
Proof.
  rewrite <- same_true. destruct (DocIntelligence.same v s); split; congruence.
Qed.

(** One turn of the loop: it waits, polls once, and stops the loop, throws
    or lets it go on according to the answer. *)
Lemma pollOnce_run (w : World) :
  exists w',
    history w' = history w ++ [Slept 1000; Requested poll] /\
    run env (DocIntelligence.pollOnce cfg operationLocation) w =
    (match fst (env (history w ++ [Slept 1000]) poll) with
     | Rejected e => Thrown e
     | Resolved r =>
         if ok r then
           match body_json r with
           | None => Thrown "Unexpected token in JSON"
           | Some j =>
               if DocIntelligence.same (DocIntelligence.status_of j) "succeeded"
               then Returned (j, DocIntelligence.Break)
               else if DocIntelligence.same (DocIntelligence.status_of j) "failed"
               then Thrown ("Analysis failed: " +:+ DocIntelligence.error_of j)
               else Returned (j, DocIntelligence.Next)
           end
         else Thrown ("Polling error: " +:+ body_text r)
     end, w').
Proof.
  unfold DocIntelligence.pollOnce, sleep, fetch, text_of, json_of, mbind, prog_bind.
  simpl. destruct (env (history w ++ [Slept 1000]) poll) as [[e|r] elapsed]; simpl.
  - eexists; split; [|reflexivity]. simpl. now rewrite <- app_assoc.
  - destruct (ok r); simpl.
    + destruct (body_json r) as [j|]; simpl.
      * destruct (DocIntelligence.same (DocIntelligence.status_of j) "succeeded");
          [|destruct (DocIntelligence.same (DocIntelligence.status_of j) "failed")];
          simpl; (eexists; split; [|reflexivity]); simpl; now rewrite <- app_assoc.
      * eexists; split; [|reflexivity]. simpl. now rewrite <- app_assoc.
    + eexists; split; [|reflexivity]. simpl. now rewrite <- app_assoc.
Qed.

Lemma pollLoop_S (n : nat) (r0 : option Json) (w : World) :
  run env (DocIntelligence.pollLoop cfg (S n) operationLocation r0) w =
  match run env (DocIntelligence.pollOnce cfg operationLocation) w with
  | (Returned (r, DocIntelligence.Break), w') => (Returned (Some r), w')
  | (Returned (r, DocIntelligence.Next), w') =>
      run env (DocIntelligence.pollLoop cfg n operationLocation (Some r)) w'
  | (Thrown e, w') => (Thrown e, w')
  end.
Proof.
  cbn [DocIntelligence.pollLoop]. rewrite run_bind.
  destruct (run env (DocIntelligence.pollOnce cfg operationLocation) w)
    as [[[r [|]]|e] w']; reflexivity.
Qed.

Lemma turns_snoc (n : nat) :
  turns cfg operationLocation (S n)
    = turns cfg operationLocation n ++ [Slept 1000; Requested poll].
Proof. induction n as [|n IH]; [reflexivity|]. cbn [turns] in *. now rewrite IH at 1. Qed.

(** The loop takes whole turns, and never more than it was given. *)
Lemma pollLoop_bounded (n : nat) : forall (r0 : option Json) (w : World),
  exists m, (m <= n)%nat /\
    history (snd (run env (DocIntelligence.pollLoop cfg n operationLocation r0) w))
      = history w ++ turns cfg operationLocation m.
Proof.
  induction n as [|n IH]; intros r0 w.
  - exists 0%nat. split; [lia|]. simpl. now rewrite app_nil_r.
  - rewrite pollLoop_S. destruct (pollOnce_run w) as (w' & Hh & ->).
    destruct (fst (env (history w ++ [Slept 1000]) poll)) as [e|r];
      [exists 1%nat; split; [lia|exact Hh]|].
    destruct (ok r); [|exists 1%nat; split; [lia|exact Hh]].
    destruct (body_json r) as [j|]; [|exists 1%nat; split; [lia|exact Hh]].
    destruct (DocIntelligence.same (DocIntelligence.status_of j) "succeeded");
      [exists 1%nat; split; [lia|exact Hh]|].
    destruct (DocIntelligence.same (DocIntelligence.status_of j) "failed");
      [exists 1%nat; split; [lia|exact Hh]|].
    destruct (IH (Some j) w') as (m & Hm & Hhist).
    exists (S m). split; [lia|]. rewrite Hhist, Hh, <- app_assoc. reflexivity.
Qed.

Lemma polled_shift (w w' : World) (i : nat) :
  history w' = history w ++ [Slept 1000; Requested poll] ->
  polled cfg env (history w') operationLocation i
    = polled cfg env (history w) operationLocation (S i).
Proof.
  intros ->. unfold polled. cbn [turns]. now rewrite <- app_assoc.
Qed.

Lemma polled_0 (w : World) :
  polled cfg env (history w) operationLocation 0
    = fst (env (history w ++ [Slept 1000]) poll).
Proof. reflexivity. Qed.

(** While the polls report an operation in progress, the loop goes on. *)
Lemma pollLoop_in_progress (k : nat) : forall (n : nat) (r0 : option Json) (w : World),
  (forall i, (i < k)%nat ->
     in_progress (polled cfg env (history w) operationLocation i)) ->
  exists wk rk,
    history wk = history w ++ turns cfg operationLocation k /\
    run env (DocIntelligence.pollLoop cfg (k + n) operationLocation r0) w
      = run env (DocIntelligence.pollLoop cfg n operationLocation rk) wk /\
    (k = 0%nat -> rk = r0) /\
    ((0 < k)%nat -> exists j, rk = Some j /\
                      DocIntelligence.status_of j <> Some "succeeded").
Proof.
  induction k as [|k IH]; intros n r0 w Hall.
  - exists w, r0. simpl. rewrite app_nil_r. repeat split; auto; lia.
  - cbn [Nat.add]. rewrite pollLoop_S.
    destruct (pollOnce_run w) as (w1 & Hh & ->).
    destruct (Hall 0%nat ltac:(lia)) as (j & (r & Hr & Hok & Hj) & Hns & Hnf).
    rewrite polled_0 in Hr. rewrite Hr, Hok, Hj.
    apply same_false in Hns, Hnf. rewrite Hns, Hnf.
    destruct (IH n (Some j) w1) as (wk & rk & Hhk & Hrun & H0 & Hpos).
    { intros i Hi. rewrite (polled_shift w w1 i Hh). apply Hall. lia. }
    exists wk, rk. split; [|split; [exact Hrun|split; [lia|]]].
    + rewrite Hhk, Hh, <- app_assoc. reflexivity.
    + intros _. destruct k as [|k'].
      * exists j. split; [now apply H0|]. now apply same_false.
      * apply Hpos. lia.
Qed.

(** C2.  The poller takes at most 30 turns, each a wait of one second
    (1000 ms) followed by one poll, and nothing else.  If the first poll
    that does not report an operation in progress reports [succeeded], it
    returns that result and polls no more; if it reports [failed], it
    throws the analysis error at once; if all 30 polls report an operation
    in progress, it throws the timeout error. *)
Theorem poller_bounded (w : World) :
  let outcome := run env (DocIntelligence.pollForCompletion cfg operationLocation) w in
  let polled := polled cfg env (history w) operationLocation in
  (exists n, (n <= 30)%nat /\
     history (snd outcome) = history w ++ turns cfg operationLocation n) /\
  (forall k j, (k < 30)%nat ->
     (forall i, (i < k)%nat -> in_progress (polled i)) ->
     reports (polled k) j ->
     DocIntelligence.status_of j = Some "succeeded" ->
     fst outcome = Returned j /\
     history (snd outcome) = history w ++ turns cfg operationLocation (S k)) /\
  (forall k j, (k < 30)%nat ->
     (forall i, (i < k)%nat -> in_progress (polled i)) ->
     reports (polled k) j ->
     DocIntelligence.status_of j = Some "failed" ->
     fst outcome = Thrown ("Analysis failed: " +:+ DocIntelligence.error_of j) /\
     history (snd outcome) = history w ++ turns cfg operationLocation (S k)) /\
  ((forall i, (i < 30)%nat -> in_progress (polled i)) ->
   fst outcome = Thrown "Analysis timed out" /\
   history (snd outcome) = history w ++ turns cfg operationLocation 30).
Proof.
  intros outcome polled'. subst outcome polled'.
  unfold DocIntelligence.pollForCompletion. rewrite run_bind.
  split; [|split; [|split]].
  - destruct (pollLoop_bounded 30 None w) as (m & Hm & Hh).
    exists m. split; [exact Hm|].
    destruct (run env (DocIntelligence.pollLoop cfg 30 operationLocation None) w)
      as [[[r|]|e] w']; simpl in *; try exact Hh.
    destruct (negb _); exact Hh.
  - intros k j Hk Hbefore (r & Hr & Hok & Hj) Hs.
    destruct (pollLoop_in_progress k (30 - k) None w Hbefore)
      as (wk & rk & Hhk & Hrun & _).
    replace (k + (30 - k))%nat with 30%nat in Hrun by lia. rewrite Hrun.
    replace (30 - k)%nat with (S (29 - k)) by lia. rewrite pollLoop_S.
    destruct (pollOnce_run wk) as (w' & Hh & ->).
    unfold polled in Hr. rewrite app_assoc, <- Hhk in Hr. rewrite Hr, Hok, Hj.
    apply same_true in Hs. rewrite Hs. simpl. rewrite Hs. simpl.
    split; [reflexivity|].
    change (Slept 1000 :: Requested poll :: turns cfg operationLocation k)
      with (turns cfg operationLocation (S k)).
    rewrite Hh, Hhk, turns_snoc, <- app_assoc. reflexivity.
  - intros k j Hk Hbefore (r & Hr & Hok & Hj) Hf.
    destruct (pollLoop_in_progress k (30 - k) None w Hbefore)
      as (wk & rk & Hhk & Hrun & _).
    replace (k + (30 - k))%nat with 30%nat in Hrun by lia. rewrite Hrun.
    replace (30 - k)%nat with (S (29 - k)) by lia. rewrite pollLoop_S.
    destruct (pollOnce_run wk) as (w' & Hh & ->).
    unfold polled in Hr. rewrite app_assoc, <- Hhk in Hr. rewrite Hr, Hok, Hj.
    assert (Hns : DocIntelligence.same (DocIntelligence.status_of j) "succeeded" = false).
    { apply same_false. rewrite Hf. discriminate. }
    apply same_true in Hf. rewrite Hns, Hf. simpl.
    split; [reflexivity|].
    change (Slept 1000 :: Requested poll :: turns cfg operationLocation k)
      with (turns cfg operationLocation (S k)).
    rewrite Hh, Hhk, turns_snoc, <- app_assoc. reflexivity.
  - intros Hall.
    destruct (pollLoop_in_progress 30 0 None w Hall)
      as (wk & rk & Hhk & Hrun & _ & Hpos).
    change (30 + 0)%nat with 30%nat in Hrun. rewrite Hrun. simpl.
    destruct (Hpos ltac:(lia)) as (j & -> & Hns).
    apply same_false in Hns. rewrite Hns. simpl.
    split; [reflexivity|exact Hhk].
Qed.

(** The poller at work: once the analysis is submitted and the service has
    named the operation, [extractTextFromDocument] is the poller followed by
    the extraction of the text. *)
Lemma extractTextFromDocument_polls (base64Content : string) (mimeType : option string)
    (r : Response) (w : World) :
  Js.truthy (DOC_INTELLIGENCE_KEY cfg) = true ->
  fst (env (history w) (DocIntelligence.analyzeRequest cfg base64Content mimeType))
    = Resolved r ->
  ok r = true ->
  resp_headers r !! "operation-location" = Some operationLocation ->
  operationLocation <> "" ->
  exists w1,
    history w1 = history w
      ++ [Requested (DocIntelligence.analyzeRequest cfg base64Content mimeType)] /\
    run env (DocIntelligence.extractTextFromDocument cfg base64Content mimeType) w =
    match run env (DocIntelligence.pollForCompletion cfg operationLocation) w1 with
    | (Returned result, w') => (Returned (DocIntelligence.extract result), w')
    | (Thrown e, w') => (Thrown e, w')
    end.
Proof.
  intros Hkey Hsubmit Hok Hloc Hne.
  unfold DocIntelligence.extractTextFromDocument. rewrite Hkey. cbn [negb].
  rewrite run_bind, run_fetch, Hsubmit, Hok. cbn [negb]. rewrite Hloc.
  assert (Js.truthy (Some operationLocation) = true) as ->.
  { simpl. destruct (String.eqb_spec operationLocation ""); [contradiction|reflexivity]. }
  cbn [negb Js.show]. rewrite run_bind. eexists. split; [|reflexivity]. reflexivity.
Qed.

End Poller.

Lemma poller_bounded_witness :
  (fst (run (succeeds_after 4)
          (DocIntelligence.pollForCompletion sample_config "https://doc.example/op/1")
          fresh_world)
     = Returned (analysis "succeeded" "undefined") /\
   history (snd (run (succeeds_after 4)
          (DocIntelligence.pollForCompletion sample_config "https://doc.example/op/1")
          fresh_world))
     = history fresh_world ++ turns sample_config "https://doc.example/op/1" 5) /\
  fst (run (always (analysis "failed" "{}"))
         (DocIntelligence.pollForCompletion sample_config "https://doc.example/op/1")
         fresh_world)
    = Thrown ("Analysis failed: " +:+ "{}") /\
  fst (run (always (analysis "running" "undefined"))
         (DocIntelligence.pollForCompletion sample_config "https://doc.example/op/1")
         fresh_world)
    = Thrown "Analysis timed out".
Proof.
  split; [|split].
  - apply (proj1 (proj2 (poller_bounded sample_config (succeeds_after 4)
                           "https://doc.example/op/1" fresh_world)) 4%nat);
      [lia| |eexists; repeat split; reflexivity|reflexivity].
    intros i Hi. exists (analysis "running" "undefined").
    destruct i as [|[|[|[|i]]]]; try lia;
      (split; [eexists; repeat split; reflexivity|split; discriminate]).
  - apply (proj1 (proj1 (proj2 (proj2 (poller_bounded sample_config
                           (always (analysis "failed" "{}"))
                           "https://doc.example/op/1" fresh_world))) 0%nat
                   (analysis "failed" "{}") ltac:(lia) ltac:(intros; lia)
                   ltac:(eexists; repeat split; reflexivity) eq_refl)).
  - apply (proj2 (proj2 (proj2 (poller_bounded sample_config
                           (always (analysis "running" "undefined"))
                           "https://doc.example/op/1" fresh_world)))).
    intros i _. exists (analysis "running" "undefined").
    split; [eexists; repeat split; reflexivity|split; discriminate].
Defined.

(** ** The combined legal-entity check *)

Section RiskAggregator.

Variable cfg : Config.
Variable env : Environment.

Lemma map_matches_pure (matches : list LeiRecord) :
  (exists e, Tools.map_matches matches = Throw e) \/
  (exists mapped, Tools.map_matches matches = Ret mapped).
Proof.
  induction matches as [|m rest IH]; simpl; [right; eauto|].
  destruct (attributes m) as [a|]; [|left; eauto].
  destruct IH as [[e ->]|[mapped ->]]; [left|right]; eauto.
Qed.

Lemma records_error name e results :
  records name (Tools.Errored e) results (Tools.set_check name (Tools.Errored e) results).
Proof. unfold records; simpl. now rewrite app_nil_r. Qed.

(** Step 1 sends the search request and records an entry, completed or in
    error, whatever the registry answers. *)
Lemma gleifSearch_run (name : string) (results : Tools.Results) (w : World) :
  exists c results' w',
    run env (Tools.gleifSearch name results) w = (Returned results', w') /\
    history w' = history w ++ [Requested (Tools.gleifSearchRequest name)] /\
    records "gleifSearch" c results results' /\
    ((exists n ms, c = Tools.SearchCompleted n ms) \/ (exists e, c = Tools.Errored e)).
Proof.
  unfold Tools.gleifSearch. rewrite run_try_catch, run_bind, run_fetch.
  set (w' := record _ _ w).
  destruct (fst (env (history w) (Tools.gleifSearchRequest name))) as [e|r].
  { exists (Tools.Errored e). do 2 eexists. split; [reflexivity|].
    split; [reflexivity|]. split; [apply records_error|right; eauto]. }
  destruct (ok r).
  2:{ do 3 eexists. split; [reflexivity|]. split; [reflexivity|].
      split; [apply records_error|right; eauto]. }
  unfold json_of, mbind, prog_bind. simpl.
  destruct (body_json r) as [j|]; simpl.
  2:{ do 3 eexists. split; [reflexivity|]. split; [reflexivity|].
      split; [apply records_error|right; eauto]. }
  destruct (Tools.matches_of (Tools.search_data j)) as [matches|e| | | | | | | |] eqn:Hm;
    try (destruct j as [| | |[]| | |]; discriminate Hm); simpl.
  2:{ do 3 eexists. split; [reflexivity|]. split; [reflexivity|].
      split; [apply records_error|right; eauto]. }
  destruct (map_matches_pure matches) as [[e ->]|[mapped ->]]; simpl.
  { do 3 eexists. split; [reflexivity|]. split; [reflexivity|].
    split; [apply records_error|right; eauto]. }
  exists (Tools.SearchCompleted (length matches) mapped). do 2 eexists.
  split; [reflexivity|]. split; [reflexivity|]. split; [|left; eauto].
  unfold records; simpl.
  destruct (length matches =? 0)%nat; simpl; rewrite ?app_nil_r; auto.
Qed.

Ltac recorded_error :=
  do 3 eexists; split; [reflexivity|]; split; [reflexivity|];
  split; [apply records_error|eauto 6].

(** Step 2 runs when a LEI code was given: it sends the lookup and records
    an entry, completed or in error. *)
Lemma leiVerification_run (leiCode : string) (results : Tools.Results) (w : World) :
  Js.truthy (Some leiCode) = true ->
  exists c results' w',
    run env (Tools.leiVerification (Some leiCode) results) w = (Returned results', w') /\
    history w' = history w ++ [Requested (Tools.leiRequest leiCode)] /\
    records "leiVerification" c results results' /\
    ((exists a b s d, c = Tools.LeiValid a b s d) \/ c = Tools.LeiNotFound \/
     (exists e, c = Tools.Errored e)).
Proof.
  intros Hgiven. unfold Tools.leiVerification. rewrite Hgiven.
  rewrite run_try_catch, run_bind, run_fetch. set (w' := record _ _ w).
  cbn [Js.show].
  destruct (fst (env (history w) (Tools.leiRequest leiCode))) as [e|r];
    [recorded_error|].
  destruct (ok r).
  - unfold json_of, mbind, prog_bind. simpl.
    destruct (body_json r) as [j|]; simpl; [|recorded_error].
    destruct j as [| | | |[[[a|]]|]| |]; simpl; try recorded_error.
    exists (Tools.LeiValid (entity a ≫= legalName) (entity a ≫= entity_status)
              (registration a ≫= registration_status)
              (registration a ≫= nextRenewalDate)).
    do 2 eexists. split; [reflexivity|]. split; [reflexivity|].
    split; [|left; eauto 6].
    unfold records; simpl.
    destruct (negb _); simpl; rewrite ?app_nil_r; auto.
  - destruct (http_status r =? 404); [|recorded_error].
    exists Tools.LeiNotFound. do 2 eexists. split; [reflexivity|].
    split; [reflexivity|]. split; [|auto]. unfold records; simpl. auto.
Qed.

(** Without a LEI code step 2 does nothing at all. *)
Lemma leiVerification_skip (leiCode : option string) (results : Tools.Results) (w : World) :
  Js.truthy leiCode = false ->
  run env (Tools.leiVerification leiCode results) w = (Returned results, w).
Proof. intros Hnone. unfold Tools.leiVerification. now rewrite Hnone. Qed.

(** Step 3 records an entry in every case: skipped without a key, and
    otherwise, after the screening request, completed or in error. *)
Lemma adverseMedia_run (name : string) (results : Tools.Results) (w : World) :
  exists c results' w',
    run env (Tools.adverseMedia cfg name results) w = (Returned results', w') /\
    history w' = history w ++
      (if Js.truthy (PERPLEXITY_API_KEY cfg)
       then [Requested (Tools.perplexityRequest cfg name)] else []) /\
    records "adverseMedia" c results results' /\
    ((exists a b d, c = Tools.MediaCompleted a b d) \/ (exists e, c = Tools.Errored e) \/
     (Js.truthy (PERPLEXITY_API_KEY cfg) = false /\ exists e, c = Tools.Skipped e)).
Proof.
  unfold Tools.adverseMedia. destruct (Js.truthy (PERPLEXITY_API_KEY cfg)).
  2:{ do 3 eexists. split; [reflexivity|]. split; [now rewrite app_nil_r|].
      split; [|eauto 6]. unfold records; simpl. now rewrite app_nil_r. }
  rewrite run_try_catch, run_bind, run_fetch. set (w' := record _ _ w).
  destruct (fst (env (history w) (Tools.perplexityRequest cfg name))) as [e|r];
    [recorded_error|].
  destruct (ok r); [|recorded_error].
  unfold json_of, mbind, prog_bind. simpl.
  destruct (body_json r) as [j|]; simpl; [|recorded_error].
  assert (Hs : (exists e, Tools.screening_of j = Throw e) \/
               (exists s, Tools.screening_of j = Ret s)).
  { destruct j as [| | | | |[[| |] ?]|]; simpl; eauto. }
  destruct Hs as [[e ->]|[screening ->]]; simpl; [recorded_error|].
  exists (Tools.MediaCompleted screening (Tools.redFlags screening)
            (Tools.sources_of j)).
  do 2 eexists. split; [reflexivity|]. split; [reflexivity|].
  split; [|left; eauto]. unfold records; simpl.
  destruct (Tools.redFlags screening); simpl; rewrite ?app_nil_r; auto.
Qed.

(** The whole assessment: the steps run one after the other, each on the
    results of the one before, and none of them throws. *)
Lemma assess_run (name : string) (leiCode : option string) (w : World) :
  exists c1 c2 c3 results w',
    run env (Tools.assess cfg name leiCode) w = (Returned results, w') /\
    history w' = history w
      ++ [Requested (Tools.gleifSearchRequest name)]
      ++ (if Js.truthy leiCode
          then [Requested (Tools.leiRequest (Js.show leiCode))] else [])
      ++ (if Js.truthy (PERPLEXITY_API_KEY cfg)
          then [Requested (Tools.perplexityRequest cfg name)] else []) /\
    (Js.truthy leiCode = true <-> is_Some c2) /\
    Tools.checks results
      = ("gleifSearch", c1) :: lei_entry c2 ++ [("adverseMedia", c3)] /\
    Tools.riskFactors results
      = contribution c1 ++ from_option contribution [] c2 ++ contribution c3 /\
    Tools.overallRisk results = Tools.level (length (Tools.riskFactors results)) /\
    ((exists n ms, c1 = Tools.SearchCompleted n ms) \/ (exists e, c1 = Tools.Errored e)) /\
    (forall c, c2 = Some c ->
       (exists a b s d, c = Tools.LeiValid a b s d) \/ c = Tools.LeiNotFound \/
       (exists e, c = Tools.Errored e)) /\
    ((exists a b d, c3 = Tools.MediaCompleted a b d) \/ (exists e, c3 = Tools.Errored e) \/
     (Js.truthy (PERPLEXITY_API_KEY cfg) = false /\ exists e, c3 = Tools.Skipped e)).
Proof.
  unfold Tools.assess. rewrite run_bind. cbn [date_now run].
  set (r0 := {| Tools.companyName := name; Tools.timestamp := clock w;
                Tools.checks := []; Tools.overallRisk := "LOW";
                Tools.riskFactors := [] |}).
  rewrite run_bind.
  destruct (gleifSearch_run name r0 w)
    as (c1 & r1 & w1 & -> & Hh1 & (_ & _ & _ & Hc1 & Hf1) & K1).
  simpl in Hc1, Hf1. rewrite run_bind.
  destruct (Js.truthy leiCode) eqn:Hgiven.
  - destruct leiCode as [code|]; [|discriminate Hgiven].
    destruct (leiVerification_run code r1 w1 Hgiven)
      as (c2 & r2 & w2 & -> & Hh2 & (_ & _ & _ & Hc2 & Hf2) & K2).
    rewrite run_bind.
    destruct (adverseMedia_run name r2 w2)
      as (c3 & r3 & w3 & -> & Hh3 & (_ & _ & _ & Hc3 & Hf3) & K3).
    exists c1, (Some c2), c3. do 2 eexists. split; [reflexivity|].
    rewrite Hc1 in Hc2. rewrite Hc2 in Hc3. simpl in Hc2, Hc3.
    rewrite Hf1 in Hf2. rewrite Hf2 in Hf3.
    cbn [Tools.set_overallRisk Tools.checks Tools.riskFactors Tools.overallRisk].
    split; [rewrite Hh3, Hh2, Hh1, <- !app_assoc; reflexivity|].
    split; [split; eauto|]. split; [exact Hc3|].
    split; [rewrite Hf3, <- app_assoc; reflexivity|]. split; [reflexivity|].
    split; [exact K1|]. split; [|exact K3]. intros c [= <-]. exact K2.
  - rewrite (leiVerification_skip leiCode r1 w1 Hgiven), run_bind.
    destruct (adverseMedia_run name r1 w1)
      as (c3 & r3 & w3 & -> & Hh3 & (_ & _ & _ & Hc3 & Hf3) & K3).
    exists c1, None, c3. do 2 eexists. split; [reflexivity|].
    rewrite Hc1 in Hc3. simpl in Hc3. rewrite Hf1 in Hf3.
    cbn [Tools.set_overallRisk Tools.checks Tools.riskFactors Tools.overallRisk].
    split; [rewrite Hh3, Hh1, <- !app_assoc; reflexivity|].
    split; [split; [discriminate|intros [? [=]]]|]. split; [exact Hc3|].
    split; [exact Hf3|]. split; [reflexivity|].
    split; [exact K1|]. split; [|exact K3]. intros c [=].
Qed.

Lemma factors_distinct (c1 : Tools.Check) (c2 : option Tools.Check) (c3 : Tools.Check) :
  ((exists n ms, c1 = Tools.SearchCompleted n ms) \/ (exists e, c1 = Tools.Errored e)) ->
  (forall c, c2 = Some c ->
     (exists a b s d, c = Tools.LeiValid a b s d) \/ c = Tools.LeiNotFound \/
     (exists e, c = Tools.Errored e)) ->
  ((exists a b d, c3 = Tools.MediaCompleted a b d) \/ (exists e, c3 = Tools.Errored e) \/
   (Js.truthy (PERPLEXITY_API_KEY cfg) = false /\ exists e, c3 = Tools.Skipped e)) ->
  NoDup (contribution c1 ++ from_option contribution [] c2 ++ contribution c3).
Proof.
  intros K1 K2 K3.
  assert (K2' : c2 = None \/ exists c, c2 = Some c /\
            ((exists a b s d, c = Tools.LeiValid a b s d) \/ c = Tools.LeiNotFound \/
             (exists e, c = Tools.Errored e))).
  { destruct c2 as [c|]; [right; eauto|left; reflexivity]. }
  clear K2.
  destruct K1 as [(n & ms & ->)|(e1 & ->)];
    destruct K2' as [->|(c & -> & [(a & b & st & d & ->)|[->|(e2 & ->)]])];
    destruct K3 as [(x & flags & y & ->)|[(e3 & ->)|(_ & e3 & ->)]];
    cbn [contribution from_option];
    repeat match goal with |- context [if ?b then _ else _] => destruct b end;
    cbn [app];
    repeat (apply NoDup_cons_2;
            [rewrite ?elem_of_cons, elem_of_nil; simpl; intuition discriminate|]);
    apply NoDup_nil_2.
Qed.

(** C3.  Every assessment returns, and its overall risk is decided by the
    number of distinct risk factors alone: LOW for none, MEDIUM for one or
    two, HIGH for three or more. *)
Theorem risk_level_by_count (name : string) (leiCode : option string) (w : World) :
  exists results w',
    run env (Tools.run_legal_entity_kyc cfg name leiCode) w
      = (Returned (Tools.reply (Tools.Stringified (Tools.Assessment results))), w') /\
    let count := distinct (Tools.riskFactors results) in
    (count = 0%nat -> Tools.overallRisk results = "LOW") /\
    ((1 <= count <= 2)%nat -> Tools.overallRisk results = "MEDIUM") /\
    ((3 <= count)%nat -> Tools.overallRisk results = "HIGH").
Proof.
  destruct (assess_run name leiCode w)
    as (c1 & c2 & c3 & results & w' & Hrun & _ & _ & _ & Hf & Hlevel & K1 & K2 & K3).
  exists results, w'. split.
  { unfold Tools.run_legal_entity_kyc. now rewrite run_bind, Hrun. }
  assert (Hcount : distinct (Tools.riskFactors results)
                   = length (Tools.riskFactors results)).
  { unfold distinct. apply size_list_to_set. rewrite Hf.
    now apply factors_distinct. }
  cbv zeta. rewrite Hcount, Hlevel. unfold Tools.level.
  repeat split; intros Hn.
  - now rewrite Hn.
  - destruct (3 <=? _)%nat eqn:H3; [apply Nat.leb_le in H3; lia|].
    destruct (1 <=? _)%nat eqn:H1; [reflexivity|apply Nat.leb_gt in H1; lia].
  - destruct (3 <=? _)%nat eqn:H3; [reflexivity|apply Nat.leb_gt in H3; lia].
Qed.

Lemma known_status_all (c : Tools.Check) : known_status c.
Proof. unfold known_status. destruct c; simpl; set_solver. Qed.

Lemma error_contributes_nothing (c : Tools.Check) :
  Tools.check_status c = "error" -> contribution c = [].
Proof. destruct c; simpl; intros H; try discriminate H; reflexivity. Qed.

(** C6, as the code has it.  Every assessment returns.  The search runs
    first, the LEI lookup second if (and only if) a LEI code was given, the
    screening last if a Perplexity key is configured; an earlier check's
    failure keeps no later request from being sent.  The search and the
    screening are always recorded, the LEI lookup when it ran, each with
    the status completed, skipped or error; and the risk factors are those
    the recorded entries account for, an entry in error accounting for
    none. *)
Theorem checks_run_in_order (name : string) (leiCode : option string) (w : World) :
  exists c1 c2 c3 results w',
    run env (Tools.run_legal_entity_kyc cfg name leiCode) w
      = (Returned (Tools.reply (Tools.Stringified (Tools.Assessment results))), w') /\
    history w' = history w
      ++ [Requested (Tools.gleifSearchRequest name)]
      ++ (if Js.truthy leiCode
          then [Requested (Tools.leiRequest (Js.show leiCode))] else [])
      ++ (if Js.truthy (PERPLEXITY_API_KEY cfg)
          then [Requested (Tools.perplexityRequest cfg name)] else []) /\
    Tools.checks results
      = ("gleifSearch", c1) :: lei_entry c2 ++ [("adverseMedia", c3)] /\
    (Js.truthy leiCode = true <-> is_Some c2) /\
    Forall (fun entry => known_status (snd entry)) (Tools.checks results) /\
    Tools.riskFactors results
      = flat_map (fun entry => contribution (snd entry)) (Tools.checks results) /\
    (forall entry, entry ∈ Tools.checks results ->
       Tools.check_status (snd entry) = "error" -> contribution (snd entry) = []).
Proof.
  destruct (assess_run name leiCode w)
    as (c1 & c2 & c3 & results & w' & Hrun & Hh & Hiff & Hc & Hf & _).
  exists c1, c2, c3, results, w'. split.
  { unfold Tools.run_legal_entity_kyc. now rewrite run_bind, Hrun. }
  split; [exact Hh|]. split; [exact Hc|]. split; [exact Hiff|].
  split; [apply Forall_forall; intros; apply known_status_all|].
  split; [|intros entry _; apply error_contributes_nothing].
  rewrite Hf, Hc. destruct c2 as [c|]; simpl; now rewrite ?app_nil_r.
Qed.

End RiskAggregator.

(** The thresholds on small counts. *)
Example level_thresholds :
  Tools.level (length ([] : list string)) = "LOW" /\
  Tools.level (length ["not found in registry"]) = "MEDIUM" /\
  Tools.level (length ["a"; "b"]) = "MEDIUM" /\
  Tools.level (length ["a"; "b"; "c"]) = "HIGH".
Proof. repeat split. Qed.

Lemma risk_level_by_count_witness :
  exists results,
    fst (run alarming
           (Tools.run_legal_entity_kyc sample_config "Acme Ltd" (Some "5493001KJTIIGC8Y1R12"))
           fresh_world)
      = Returned (Tools.reply (Tools.Stringified (Tools.Assessment results))) /\
    Tools.riskFactors results
      = ["Company not found in GLEIF registry";
         "Provided LEI not found in GLEIF database";
         "Adverse media findings detected"] /\
    Tools.overallRisk results = "HIGH".
Proof.
  destruct (risk_level_by_count sample_config alarming "Acme Ltd"
              (Some "5493001KJTIIGC8Y1R12") fresh_world)
    as (results & w' & Hrun & _ & _ & Hhigh).
  exists results. rewrite Hrun. split; [reflexivity|].
  assert (Hf : Tools.riskFactors results
               = ["Company not found in GLEIF registry";
                  "Provided LEI not found in GLEIF database";
                  "Adverse media findings detected"]).
  { vm_compute in Hrun. injection Hrun as <- _. reflexivity. }
  split; [exact Hf|]. apply Hhigh. rewrite Hf. vm_compute. lia.
Defined.

Lemma checks_run_in_order_witness :
  exists c1 c2 c3 results,
    fst (run alarming
           (Tools.run_legal_entity_kyc sample_config "Acme Ltd" (Some "5493001KJTIIGC8Y1R12"))
           fresh_world)
      = Returned (Tools.reply (Tools.Stringified (Tools.Assessment results))) /\
    Tools.checks results
      = [("gleifSearch", c1); ("leiVerification", c2); ("adverseMedia", c3)] /\
    Tools.riskFactors results = contribution c1 ++ contribution c2 ++ contribution c3.
Proof.
  destruct (checks_run_in_order sample_config alarming "Acme Ltd"
              (Some "5493001KJTIIGC8Y1R12") fresh_world)
    as (c1 & c2 & c3 & results & w' & Hrun & _ & Hc & Hiff & _ & Hf & _).
  destruct (proj1 Hiff eq_refl) as [c ->].
  exists c1, c, c3, results. rewrite Hrun. split; [reflexivity|].
  split; [exact Hc|]. rewrite Hf, Hc. simpl. now rewrite app_nil_r.
Defined.

(** C6, as the specification words it, fails: an assessment without a LEI
    code records two checks only; the LEI check leaves no entry, not even a
    skipped one, and sends no request. *)
Lemma three_checks_refuted :
  ~ three_checks_recorded sample_config /\
  (let outcome :=
     run offline (Tools.assess sample_config "Acme Ltd" None) fresh_world in
   exists results,
     fst outcome = Returned results /\
     Tools.checks results
       = [("gleifSearch", Tools.Errored "fetch failed");
          ("adverseMedia", Tools.Errored "fetch failed")] /\
     length (history (snd outcome)) = 2%nat).
Proof.
  split.
  - intros Hclaim.
    destruct (Hclaim offline fresh_world "Acme Ltd" None)
      as (results & w' & c1 & c2 & c3 & Hrun & Hchecks & _).
    vm_compute in Hrun. injection Hrun as <- _. discriminate Hchecks.
  - eexists. vm_compute. repeat split; reflexivity.
Qed.

(** ** Tool handlers *)

Section ToolHandlers.

Variable cfg : Config.
Variable env : Environment.

(** C9.  When the customer identifier is missing or empty, or the status
    is missing, zero or outside 1-4, [update_customer_status] is a plain
    return of an explanatory text: it runs no effect, so the world is left
    as it was and no request (in particular no PATCH of the customer
    record) is sent. *)
Theorem invalid_update_sends_nothing (customerId : option string)
    (status : option Z) (w : World) :
  customerId = None \/ customerId = Some "" \/
  status = None \/ status = Some 0 \/
  (exists n, status = Some n /\ (n < 1 \/ 4 < n)) ->
  exists message,
    Tools.update_customer_status cfg customerId status
      = Ret (Tools.reply (Tools.Plain message)) /\
    run env (Tools.update_customer_status cfg customerId status) w
      = (Returned (Tools.reply (Tools.Plain message)), w) /\
    history (snd (run env (Tools.update_customer_status cfg customerId status) w))
      = history w.
Proof.
  intros Hbad. unfold Tools.update_customer_status.
  destruct (negb (Js.truthy customerId) || negb (Js.truthy_num status)) eqn:Hmissing.
  { eexists. repeat split. }
  destruct (Tools.out_of_range status) eqn:Hrange.
  { eexists. repeat split. }
  exfalso. apply orb_false_elim in Hmissing as [Hid Hst].
  apply negb_false_iff in Hid, Hst.
  destruct Hbad as [->|[->|[->|[->|(n & -> & Hn)]]]]; try discriminate.
  simpl in Hrange. apply orb_false_elim in Hrange as [H1 H4].
  apply Z.ltb_ge in H1, H4. lia.
Qed.

(** A valid update goes to Dataverse, and what [callDataverse] throws
    leaves the handler as it is. *)
Lemma update_customer_status_rethrows (customerId : string) (status : Z)
    (w w' : World) (e : string) :
  customerId <> "" -> 1 <= status <= 4 ->
  run env (Dataverse.callDataverse cfg
             ("cr_kyccustomers(" +:+ customerId +:+ ")") "PATCH"
             (PatchStatus (Some status))) w = (Thrown e, w') ->
  run env (Tools.update_customer_status cfg (Some customerId) (Some status)) w
    = (Thrown e, w').
Proof.
  intros Hid Hst Hcall. unfold Tools.update_customer_status.
  assert (Js.truthy (Some customerId) = true) as ->.
  { simpl. destruct (String.eqb_spec customerId ""); [contradiction|reflexivity]. }
  assert (Js.truthy_num (Some status) = true) as ->.
  { simpl. destruct (Z.eqb_spec status 0); [lia|reflexivity]. }
  assert (Tools.out_of_range (Some status) = false) as ->.
  { simpl. apply orb_false_intro; apply Z.ltb_ge; lia. }
  cbn [negb orb Js.show]. now rewrite run_bind, Hcall.
Qed.

Lemma get_kyc_summary_rethrows (w w' : World) (e : string) :
  run env (Dataverse.callDataverse cfg
             "cr_kyccustomers?$select=cr_kyccustomerid,cr_status" "GET" NoBody) w
    = (Thrown e, w') ->
  run env (Tools.get_kyc_summary cfg) w = (Thrown e, w').
Proof. intros Hcall. unfold Tools.get_kyc_summary. now rewrite run_bind, Hcall. Qed.

(** [list_customers], whose body is inside [try]/[catch], returns an
    envelope whatever happens. *)
Lemma list_customers_returns (status : option Z) (w : World) :
  exists envelope w',
    run env (Tools.list_customers cfg status) w = (Returned envelope, w').
Proof. unfold Tools.list_customers. apply try_catch_returns. Qed.

Lemma invoke_run {E : Type} (handler : Prog E) (w : World) :
  run env (Dispatcher.invoke handler) w =
  match run env handler w with
  | (Returned envelope, w') => (Returned (Dispatcher.FromHandler envelope), w')
  | (Thrown e, w') => (Returned (Dispatcher.IsError e), w')
  end.
Proof.
  unfold Dispatcher.invoke. rewrite run_try_catch, run_bind.
  destruct (run env handler w) as [[envelope|e] w']; reflexivity.
Qed.

(** C4.  A tool call goes through the dispatcher, and the dispatcher
    answers it whatever the handler does: the call returns the handler's
    envelope when the handler returns one, and an error envelope with the
    text of the exception when the handler throws; no exception leaves the
    call.  So it is for [update_customer_status] and [get_kyc_summary], whose
    own code has no [catch]: when their Dataverse call throws, the call of
    the tool returns the error envelope with the text of what was thrown. *)
Theorem tool_call_answers :
  (forall (E : Type) (handler : Prog E) (w : World),
     exists result w',
       run env (Dispatcher.invoke handler) w = (Returned result, w') /\
       run env handler w
         = (match result with
            | Dispatcher.FromHandler envelope => Returned envelope
            | Dispatcher.IsError text => Thrown text
            end, w')) /\
  (forall (customerId : string) (status : Z) (w w' : World) (e : string),
     customerId <> "" -> 1 <= status <= 4 ->
     run env (Dataverse.callDataverse cfg
                ("cr_kyccustomers(" +:+ customerId +:+ ")") "PATCH"
                (PatchStatus (Some status))) w = (Thrown e, w') ->
     run env (Dispatcher.invoke
                (Tools.update_customer_status cfg (Some customerId) (Some status))) w
       = (Returned (Dispatcher.IsError e), w')) /\
  (forall (w w' : World) (e : string),
     run env (Dataverse.callDataverse cfg
                "cr_kyccustomers?$select=cr_kyccustomerid,cr_status" "GET" NoBody) w
       = (Thrown e, w') ->
     run env (Dispatcher.invoke (Tools.get_kyc_summary cfg)) w
       = (Returned (Dispatcher.IsError e), w')).
Proof.
  split; [|split].
  - intros E handler w. rewrite invoke_run.
    destruct (run env handler w) as [[envelope|e] w']; eauto.
  - intros customerId status w w' e Hid Hstatus Hcall.
    now rewrite invoke_run, (update_customer_status_rethrows _ _ _ _ _ Hid Hstatus Hcall).
  - intros w w' e Hcall.
    now rewrite invoke_run, (get_kyc_summary_rethrows _ _ _ Hcall).
Qed.

End ToolHandlers.

Lemma invalid_update_sends_nothing_witness :
  exists message,
    run offline (Tools.update_customer_status sample_config (Some "c-1") (Some 7))
        fresh_world
      = (Returned (Tools.reply (Tools.Plain message)), fresh_world).
Proof.
  destruct (invalid_update_sends_nothing sample_config offline (Some "c-1") (Some 7)
              fresh_world) as (message & _ & Hrun & _).
  - right; right; right; right. exists 7. split; [reflexivity|lia].
  - exists message. exact Hrun.
Defined.

(** With Dataverse unreachable, the handlers of [update_customer_status]
    and [get_kyc_summary] throw instead of returning an envelope, while
    [list_customers] returns the error as text. *)
Lemma handler_exception_escapes :
  fst (run offline (Tools.update_customer_status sample_config (Some "c-1") (Some 3))
         fresh_world) = Thrown "fetch failed" /\
  fst (run offline (Tools.get_kyc_summary sample_config) fresh_world)
    = Thrown "fetch failed" /\
  fst (run offline (Tools.list_customers sample_config None) fresh_world)
    = Returned (Tools.reply (Tools.Plain "Error: fetch failed")).
Proof. vm_compute. repeat split; reflexivity. Qed.

Lemma tool_call_answers_witness :
  fst (run offline
         (Dispatcher.invoke
            (Tools.update_customer_status sample_config (Some "c-1") (Some 3)))
         fresh_world)
    = Returned (Dispatcher.IsError "fetch failed") /\
  fst (run offline (Dispatcher.invoke (Tools.get_kyc_summary sample_config)) fresh_world)
    = Returned (Dispatcher.IsError "fetch failed").
Proof.
  destruct (tool_call_answers sample_config offline) as (_ & Hupdate & Hsummary).
  split.
  - destruct (run offline
                (Dataverse.callDataverse sample_config "cr_kyccustomers(c-1)" "PATCH"
                   (PatchStatus (Some 3))) fresh_world) as [outcome w'] eqn:Hcall.
    assert (Houtcome : outcome = Thrown "fetch failed").
    { apply (f_equal fst) in Hcall. vm_compute in Hcall. now subst outcome. }
    subst outcome.
    now rewrite (Hupdate "c-1" 3 fresh_world w' "fetch failed"
                   ltac:(discriminate) ltac:(lia) Hcall).
  - destruct (run offline
                (Dataverse.callDataverse sample_config
                   "cr_kyccustomers?$select=cr_kyccustomerid,cr_status" "GET" NoBody)
                fresh_world) as [outcome w'] eqn:Hcall.
    assert (Houtcome : outcome = Thrown "fetch failed").
    { apply (f_equal fst) in Hcall. vm_compute in Hcall. now subst outcome. }
    subst outcome.
    now rewrite (Hsummary fresh_world w' "fetch failed" Hcall).
Defined.

(** ** The HTTP endpoints *)

Section Endpoints.

Variable cfg : Config.
Variable Body : Type.
Variable isInitializeRequest : Body -> bool.
Variable opens : Server.HttpRequest Body -> Server.Opening.
Variable handles : Server.Transport -> Server.HttpRequest Body -> Server.Handling.

Abbreviation validate := (Server.validateApiKey cfg Body).
Abbreviation serve := (Server.app cfg Body isInitializeRequest opens handles).

Lemma truthy_empty (v : option string) : empty v -> Js.truthy v = false.
Proof. intros [->| ->]; reflexivity. Qed.

Lemma truthy_filled (s : string) : s <> "" -> Js.truthy (Some s) = true.
Proof.
  intros Hs. simpl. destruct (String.eqb_spec s ""); [contradiction|reflexivity].
Qed.




Lemma truthy_cases (v : option string) :
  (Js.truthy v = false /\ empty v) \/
  (Js.truthy v = true /\ exists s, v = Some s /\ s <> "").
Proof.
  destruct v as [s|]; [|left; split; [reflexivity|now left]].
  simpl. destruct (String.eqb_spec s "") as [->|Hs].
  - left. split; [reflexivity|now right].
  - right. split; [reflexivity|eauto].
Qed.

Lemma providedKey_none (req : Server.HttpRequest Body) :
  carries_nothing req -> Js.truthy (Server.providedKey Body req) = false.
Proof.
  unfold carries_nothing, carriers. intros Hall.
  apply Forall_cons in Hall as [Hx Hall]. apply Forall_cons in Hall as [Ha Hall].
  apply Forall_cons in Hall as [Hq _].
  unfold Server.providedKey, Js.or_else.
  rewrite (truthy_empty _ Hx), (truthy_empty _ Ha). now apply truthy_empty.
Qed.

Lemma providedKey_carried (req : Server.HttpRequest Body) (secret : string) :
  carries req secret -> Server.providedKey Body req = Some secret.
Proof.
  intros (Hs & before & after & Hsplit & Hempty).
  unfold carriers in Hsplit. unfold Server.providedKey, Js.or_else.
  destruct before as [|x [|a [|q before]]]; simpl in Hsplit.
  - injection Hsplit as Hx _. rewrite Hx, (truthy_filled _ Hs).
    now rewrite truthy_filled.
  - injection Hsplit as Hx Ha _. apply Forall_cons in Hempty as [Hex _].
    rewrite <- Hx in Hex. rewrite (truthy_empty _ Hex), Ha.
    now rewrite !truthy_filled.
  - injection Hsplit as Hx Ha Hq _. apply Forall_cons in Hempty as [Hex Hempty].
    apply Forall_cons in Hempty as [Hea _]. rewrite <- Hx in Hex. rewrite <- Ha in Hea.
    now rewrite (truthy_empty _ Hex), (truthy_empty _ Hea).
  - injection Hsplit as _ _ _ Hnil. destruct before; discriminate Hnil.
Qed.

(** Every request carries nothing or carries one secret. *)
Lemma carries_total (req : Server.HttpRequest Body) :
  carries_nothing req \/ exists secret, carries req secret.
Proof.
  unfold carries_nothing, carries, carriers.
  destruct (truthy_cases (Server.headers req !! "x-api-key"))
    as [[_ Hx]|[_ (s & -> & Hs)]];
    [|right; exists s; split; [exact Hs|eexists [], _; split; [reflexivity|constructor]]].
  destruct (truthy_cases (Js.replace "Bearer " "" <$> Server.headers req !! "authorization"))
    as [[_ Ha]|[_ (s & -> & Hs)]];
    [|right; exists s; split; [exact Hs|eexists [_], _; split; [reflexivity|auto]]].
  destruct (truthy_cases (Server.query req !! "api_key"))
    as [[_ Hq]|[_ (s & -> & Hs)]];
    [left; auto|right; exists s; split; [exact Hs|eexists [_; _], _; split; [reflexivity|auto]]].
Qed.

(** C7.  Without a configured secret every request passes.  With one, a
    request that carries no secret is answered 401, one that carries
    another secret than the configured one is answered 403, and one that
    carries exactly the configured secret passes; every request is in one
    of these cases.  The carriers are the [x-api-key] header, the
    authorization header without its [Bearer ] prefix and the [api_key]
    query parameter; the secret of a request is that of the first carrier
    that is not empty. *)
Theorem api_key_decides (req : Server.HttpRequest Body) :
  (Js.truthy (API_KEY cfg) = false -> validate req = Server.Continue) /\
  (forall key, API_KEY cfg = Some key -> key <> "" ->
     (carries_nothing req ->
      exists message,
        validate req
          = Server.Answered (Server.Sent 401 (Server.AuthError "Unauthorized" message))) /\
     (forall secret, carries req secret -> secret <> key ->
        validate req
          = Server.Answered (Server.Sent 403
              (Server.AuthError "Forbidden" "Invalid API key"))) /\
     (carries req key -> validate req = Server.Continue)) /\
  (carries_nothing req \/ exists secret, carries req secret).
Proof.
  unfold Server.validateApiKey. split; [|split; [|apply carries_total]].
  - now intros ->.
  - intros key Hkey Hne. rewrite Hkey, (truthy_filled _ Hne). cbn [negb].
    split; [|split].
    + intros Hnone. rewrite (providedKey_none _ Hnone). cbn [negb]. eauto.
    + intros secret Hcarries Hdiff.
      rewrite (providedKey_carried _ _ Hcarries), (truthy_filled _ (proj1 Hcarries)).
      cbn [negb]. rewrite bool_decide_eq_false_2 by congruence. reflexivity.
    + intros Hcarries.
      rewrite (providedKey_carried _ _ Hcarries), (truthy_filled _ Hne).
      cbn [negb]. now rewrite bool_decide_eq_true_2.
Qed.



(** C10.  The health and the info endpoint are served without the
    API-key check: whatever secret is configured, two requests to one of
    them that differ in the carriers of the secret at most get the same
    answer, a 200, and the session registry is left as it was. *)
Theorem open_endpoints_ignore_credentials (t : Z) (generated : string)
    (a b : Server.HttpRequest Body) (sessions : gmap string Server.Transport) :
  same_but_credentials a b ->
  Server.route (Server.verb a) (Server.path a) = Some Server.Health \/
  Server.route (Server.verb a) (Server.path a) = Some Server.Info ->
  serve t generated a sessions = serve t generated b sessions /\
  exists answer,
    serve t generated a sessions = Server.Done (Server.Sent 200 answer) sessions.
Proof.
  intros (Hverb & Hpath & _) Hroute. unfold Server.app.
  rewrite <- Hverb, <- Hpath.
  destruct Hroute as [-> | ->]; cbn [Server.middleware Server.through];
    (split; [reflexivity|]); unfold Server.health, Server.info; eauto.
Qed.

End Endpoints.

Lemma api_key_decides_witness :
  Server.validateApiKey sample_config string
    (request "POST" "/mcp" [("x-api-key", "abc123")] [] "tools/list")
    = Server.Continue /\
  Server.validateApiKey sample_config string
    (request "POST" "/mcp" [("authorization", "Bearer abc123")] [] "tools/list")
    = Server.Continue /\
  Server.validateApiKey sample_config string
    (request "POST" "/mcp" [] [("api_key", "abc123")] "tools/list")
    = Server.Continue /\
  Server.validateApiKey sample_config string
    (request "POST" "/mcp" [("x-api-key", "xyz")] [] "tools/list")
    = Server.Answered (Server.Sent 403 (Server.AuthError "Forbidden" "Invalid API key")) /\
  (exists message,
     Server.validateApiKey sample_config string
       (request "POST" "/mcp" [] [] "tools/list")
     = Server.Answered (Server.Sent 401 (Server.AuthError "Unauthorized" message))).
Proof.
  assert (Hkey : "abc123" <> "") by discriminate.
  assert (Hnone : empty None) by now left.
  split; [|split; [|split; [|split]]].
  - apply (proj1 (proj2 (api_key_decides sample_config string _)) "abc123" eq_refl Hkey).
    split; [exact Hkey|]. exists [], [None; None]. split; [reflexivity|constructor].
  - apply (proj1 (proj2 (api_key_decides sample_config string _)) "abc123" eq_refl Hkey).
    split; [exact Hkey|]. exists [None], [None]. split; [reflexivity|auto].
  - apply (proj1 (proj2 (api_key_decides sample_config string _)) "abc123" eq_refl Hkey).
    split; [exact Hkey|]. exists [None; None], []. split; [reflexivity|auto].
  - apply (proj1 (proj2 (proj1 (proj2 (api_key_decides sample_config string _))
                           "abc123" eq_refl Hkey)) "xyz"); [|discriminate].
    split; [discriminate|]. exists [], [None; None]. split; [reflexivity|constructor].
  - apply (proj1 (proj1 (proj2 (api_key_decides sample_config string _))
                    "abc123" eq_refl Hkey)).
    repeat constructor.
Defined.



Lemma open_endpoints_ignore_credentials_witness :
  Server.app sample_config string is_initialize sample_opens sample_handles 42 "0b0e7d5c"
    (request "GET" "/health" [] [] "") ∅
  = Server.app sample_config string is_initialize sample_opens sample_handles 42 "0b0e7d5c"
      (request "GET" "/health" [("x-api-key", "wrong")] [("api_key", "abc123")] "") ∅ /\
  Server.app sample_config string is_initialize sample_opens sample_handles 42 "0b0e7d5c"
    (request "GET" "/health" [] [] "") ∅
  = Server.Done (Server.Sent 200 (Server.HealthReport 42 true true true)) ∅.
Proof.
  destruct (open_endpoints_ignore_credentials sample_config string is_initialize
              sample_opens sample_handles 42 "0b0e7d5c" (request "GET" "/health" [] [] "")
              (request "GET" "/health" [("x-api-key", "wrong")] [("api_key", "abc123")] "")
              ∅) as [Hsame _].
  - repeat split; try reflexivity.
    + intros name Hx Ha. cbn [request Server.headers list_to_map foldr].
      rewrite lookup_insert_ne by (simpl; congruence). reflexivity.
    + intros name Hq. cbn [request Server.query list_to_map foldr].
      rewrite lookup_insert_ne by (simpl; congruence). reflexivity.
  - left. reflexivity.
  - split; [exact Hsame|reflexivity].
Defined.

(** * Further properties of the code *)

(** ** The token slot over several calls *)

Section TokenLifetime.

Variable cfg : Config.
Variable env : Environment.

(** What a call does when the slot holds a valid token, and when not. *)
Lemma token_cached_run (w : World) :
  valid_token w = true ->
  run env (Dataverse.getDataverseToken cfg) w = (Returned (dataverseToken (cache w)), w).
Proof.
  unfold valid_token. intros Hvalid. apply andb_prop in Hvalid as [Htok Hmargin].
  unfold Dataverse.getDataverseToken, mbind, prog_bind, date_now; simpl.
  rewrite Htok; simpl. now rewrite Hmargin.
Qed.

Lemma token_exchange_run (w : World) :
  valid_token w = false ->
  run env (Dataverse.getDataverseToken cfg) w =
  let w1 := record (Requested (Dataverse.tokenRequest cfg))
              (Z.of_nat (snd (env (history w) (Dataverse.tokenRequest cfg)))) w in
  match fst (env (history w) (Dataverse.tokenRequest cfg)) with
  | Rejected e => (Thrown e, w1)
  | Resolved r =>
      if ok r then
        match body_json r with
        | Some data =>
            (Returned (fst (Dataverse.token_fields data)),
             set_expiry (Dataverse.expiry_from (clock w1) (snd (Dataverse.token_fields data)))
               (set_token (fst (Dataverse.token_fields data)) w1))
        | None => (Thrown "Unexpected token in JSON", w1)
        end
      else (Thrown ("Failed to get Dataverse token: " +:+ body_text r), w1)
  end.
Proof.
  unfold valid_token. intros Hstale.
  unfold Dataverse.getDataverseToken, mbind, prog_bind, date_now, fetch, text_of, json_of.
  simpl.
  assert (Hgo : forall k : bool -> Prog (option string),
            run env (bind (if Js.truthy (dataverseToken (cache w))
                           then DateNow (fun t => GetExpiry (fun v =>
                                  Ret (Dataverse.before_margin t v)))
                           else Ret false) k) w = run env (k false) w).
  { intros k. destruct (Js.truthy (dataverseToken (cache w))); simpl in *;
      [now rewrite Hstale|reflexivity]. }
  rewrite Hgo. simpl.
  destruct (env (history w) (Dataverse.tokenRequest cfg)) as [[e|r] elapsed]; simpl;
    [reflexivity|].
  destruct (ok r); simpl; [|reflexivity].
  destruct (body_json r); reflexivity.
Qed.

Lemma exchange_answered (w : World) (r : Response) (t : TokenJson) :
  valid_token w = false ->
  fst (env (history w) (Dataverse.tokenRequest cfg)) = Resolved r ->
  ok r = true -> body_json r = Some (JToken t) ->
  exists w',
    run env (Dataverse.getDataverseToken cfg) w = (Returned (access_token t), w') /\
    dataverseToken (cache w') = access_token t /\
    tokenExpiry (cache w') = (fun n => clock w' + n * 1000) <$> expires_in t /\
    history w' = history w ++ [Requested (Dataverse.tokenRequest cfg)] /\
    clock w <= clock w'.
Proof.
  intros Hstale Hr Hok Hjson. rewrite (token_exchange_run w Hstale), Hr, Hok, Hjson.
  cbv zeta. eexists. split; [reflexivity|]. simpl.
  split; [reflexivity|]. split; [destruct (expires_in t); reflexivity|].
  split; [reflexivity|lia].
Qed.

(** X1.  When the slot holds no valid token and the identity provider
    answers the exchange with a token, the call returns that token, stores it
    with the expiry [Date.now() + expires_in * 1000] taken when the answer is
    read, and has sent the exchange request and nothing else. *)
Theorem exchange_stores_token (w : World) (r : Response) (t : TokenJson) :
  valid_token w = false ->
  fst (env (history w) (Dataverse.tokenRequest cfg)) = Resolved r ->
  ok r = true -> body_json r = Some (JToken t) ->
  exists w',
    run env (Dataverse.getDataverseToken cfg) w = (Returned (access_token t), w') /\
    dataverseToken (cache w') = access_token t /\
    tokenExpiry (cache w') = (fun n => clock w' + n * 1000) <$> expires_in t /\
    history w' = history w ++ [Requested (Dataverse.tokenRequest cfg)] /\
    clock w <= clock w'.
Proof. exact (exchange_answered w r t). Qed.

(** X2.  A token stored by an exchange is handed out again, without any
    request, by every call made until five minutes before it expires. *)
Theorem stored_token_reused (w : World) (r : Response) (t : TokenJson)
    (token : string) (n : Z) (later : World) :
  valid_token w = false ->
  fst (env (history w) (Dataverse.tokenRequest cfg)) = Resolved r ->
  ok r = true -> body_json r = Some (JToken t) ->
  access_token t = Some token -> token <> "" -> expires_in t = Some n ->
  let w' := snd (run env (Dataverse.getDataverseToken cfg) w) in
  cache later = cache w' ->
  clock later + 300000 < clock w' + n * 1000 ->
  run env (Dataverse.getDataverseToken cfg) later = (Returned (Some token), later).
Proof.
  intros Hstale Hr Hok Hjson Htok Hne Hexp w' Hcache Hclock.
  destruct (exchange_answered w r t Hstale Hr Hok Hjson)
    as (w1 & Hrun & Hslot & Hexpiry & _).
  subst w'. rewrite Hrun in Hcache, Hclock. simpl in Hcache, Hclock.
  rewrite Htok in Hslot. rewrite Hexp in Hexpiry. simpl in Hexpiry.
  rewrite token_cached_run; [now rewrite Hcache, Hslot|].
  unfold valid_token. rewrite Hcache, Hslot, Hexpiry. simpl.
  destruct (String.eqb_spec token ""); [contradiction|]. simpl.
  apply Z.ltb_lt. lia.
Qed.

(** X3.  A token that expires within five minutes of being issued
    ([expires_in] of 300 or less), or whose answer names no [expires_in], is
    never handed out from the slot: every later call exchanges again. *)
Theorem short_lived_token_refetched (w : World) (r : Response) (t : TokenJson)
    (later : World) :
  valid_token w = false ->
  fst (env (history w) (Dataverse.tokenRequest cfg)) = Resolved r ->
  ok r = true -> body_json r = Some (JToken t) ->
  expires_in t = None \/ (exists n, expires_in t = Some n /\ n <= 300) ->
  let w' := snd (run env (Dataverse.getDataverseToken cfg) w) in
  cache later = cache w' -> clock w' <= clock later ->
  history (snd (run env (Dataverse.getDataverseToken cfg) later))
    = history later ++ [Requested (Dataverse.tokenRequest cfg)].
Proof.
  intros Hstale Hr Hok Hjson Hshort w' Hcache Hclock.
  destruct (exchange_answered w r t Hstale Hr Hok Hjson)
    as (w1 & Hrun & _ & Hexpiry & _).
  subst w'. rewrite Hrun in Hcache, Hclock. simpl in Hcache, Hclock.
  assert (Hlater : valid_token later = false).
  { unfold valid_token. rewrite Hcache, Hexpiry.
    destruct Hshort as [-> |(n & -> & Hn)]; simpl; [apply andb_false_r|].
    apply andb_false_intro2. apply Z.ltb_ge. lia. }
  rewrite (token_exchange_run later Hlater). cbv zeta.
  destruct (fst (env (history later) (Dataverse.tokenRequest cfg))) as [e|r'];
    [reflexivity|].
  destruct (ok r'); [|reflexivity]. destruct (body_json r'); reflexivity.
Qed.

(** X4.  A call that throws leaves the token slot exactly as it found it:
    a failed exchange neither clears nor replaces what is stored.  When the
    identity provider answers with an error status, the call throws the body
    of that answer. *)
Theorem failed_exchange_keeps_slot (w : World) :
  (forall e w', run env (Dataverse.getDataverseToken cfg) w = (Thrown e, w') ->
     cache w' = cache w) /\
  (forall r, valid_token w = false ->
     fst (env (history w) (Dataverse.tokenRequest cfg)) = Resolved r ->
     ok r = false ->
     fst (run env (Dataverse.getDataverseToken cfg) w)
       = Thrown ("Failed to get Dataverse token: " +:+ body_text r)).
Proof.
  split.
  - intros e w' Hrun. destruct (valid_token w) eqn:Hvalid.
    + rewrite (token_cached_run w Hvalid) in Hrun. discriminate Hrun.
    + rewrite (token_exchange_run w Hvalid) in Hrun. cbv zeta in Hrun.
      destruct (fst (env (history w) (Dataverse.tokenRequest cfg))) as [e'|r].
      * injection Hrun as _ <-. reflexivity.
      * destruct (ok r); [destruct (body_json r)|];
          try discriminate Hrun; injection Hrun as _ <-; reflexivity.
  - intros r Hstale Hr Hok. now rewrite (token_exchange_run w Hstale), Hr, Hok.
Qed.

End TokenLifetime.

Lemma exchange_stores_token_witness :
  exists w',
    run (granting "tok" 3600 (Rejected "down")) (Dataverse.getDataverseToken sample_config)
        fresh_world = (Returned (Some "tok"), w') /\
    cache w' = {| dataverseToken := Some "tok"; tokenExpiry := Some 4600005 |}.
Proof.
  destruct (exchange_stores_token sample_config (granting "tok" 3600 (Rejected "down"))
              fresh_world (token_response "tok" 3600)
              {| access_token := Some "tok"; expires_in := Some 3600 |}
              eq_refl eq_refl eq_refl eq_refl)
    as (w' & Hrun & _).
  exists w'. split; [exact Hrun|].
  vm_compute in Hrun. injection Hrun as <-. reflexivity.
Defined.

Lemma stored_token_reused_witness :
  run (granting "tok" 3600 (Rejected "down")) (Dataverse.getDataverseToken sample_config)
      {| cache := {| dataverseToken := Some "tok"; tokenExpiry := Some 4600005 |};
         clock := 4300000; history := [] |}
  = (Returned (Some "tok"),
     {| cache := {| dataverseToken := Some "tok"; tokenExpiry := Some 4600005 |};
        clock := 4300000; history := [] |}).
Proof.
  apply (stored_token_reused sample_config (granting "tok" 3600 (Rejected "down"))
           fresh_world (token_response "tok" 3600)
           {| access_token := Some "tok"; expires_in := Some 3600 |} "tok" 3600);
    first [reflexivity | discriminate | (vm_compute; reflexivity)].
Defined.

Lemma short_lived_token_refetched_witness :
  length (history (snd (run (granting "tok" 300 (Rejected "down"))
                          (Dataverse.getDataverseToken sample_config)
                          {| cache := {| dataverseToken := Some "tok";
                                         tokenExpiry := Some 1300005 |};
                             clock := 1000005; history := [] |}))) = 1%nat.
Proof.
  pose proof (short_lived_token_refetched sample_config
                (granting "tok" 300 (Rejected "down"))
                fresh_world (token_response "tok" 300)
                {| access_token := Some "tok"; expires_in := Some 300 |}
                {| cache := {| dataverseToken := Some "tok"; tokenExpiry := Some 1300005 |};
                   clock := 1000005; history := [] |}
                eq_refl eq_refl eq_refl eq_refl) as Hagain.
  cbv zeta in Hagain. rewrite Hagain.
  - reflexivity.
  - right. exists 300. split; [reflexivity|lia].
  - reflexivity.
  - vm_compute. discriminate.
Defined.

Lemma failed_exchange_keeps_slot_witness :
  fst (run (fun _ _ => (respond 401 "invalid_client" None, 0%nat))
         (Dataverse.getDataverseToken sample_config) fresh_world)
    = Thrown ("Failed to get Dataverse token: " +:+ "invalid_client") /\
  cache (snd (run (fun _ _ => (respond 401 "invalid_client" None, 0%nat))
                (Dataverse.getDataverseToken sample_config) fresh_world))
    = cache fresh_world.
Proof.
  destruct (failed_exchange_keeps_slot sample_config
              (fun _ _ => (respond 401 "invalid_client" None, 0%nat)) fresh_world)
    as [Hkeep Hmessage].
  split.
  - exact (Hmessage _ eq_refl eq_refl eq_refl).
  - apply (Hkeep ("Failed to get Dataverse token: " +:+ "invalid_client")).
    reflexivity.
Defined.

(** ** Calls to Dataverse *)

Section DataverseCalls.

Variable cfg : Config.
Variable env : Environment.

(** [callDataverse] is a call for the token followed by one request. *)
Lemma callDataverse_run (endpoint method : string) (body : RequestBody) (w : World) :
  run env (Dataverse.callDataverse cfg endpoint method body) w =
  match run env (Dataverse.getDataverseToken cfg) w with
  | (Thrown e, w1) => (Thrown e, w1)
  | (Returned token, w1) =>
      let req := Dataverse.dataverseRequest cfg token endpoint method body in
      let w2 := record (Requested req) (Z.of_nat (snd (env (history w1) req))) w1 in
      match fst (env (history w1) req) with
      | Rejected e => (Thrown e, w2)
      | Resolved r =>
          if ok r then
            if http_status r =? 204 then (Returned JObject, w2)
            else match body_json r with
                 | Some j => (Returned j, w2)
                 | None => (Thrown "Unexpected token in JSON", w2)
                 end
          else (Thrown ("Dataverse API error " +:+ Js.showZ (http_status r)
                          +:+ ": " +:+ body_text r), w2)
      end
  end.
Proof.
  unfold Dataverse.callDataverse. rewrite run_bind.
  destruct (run env (Dataverse.getDataverseToken cfg) w) as [[token|e] w1];
    [|reflexivity].
  rewrite run_bind, run_fetch. cbv zeta.
  destruct (fst (env (history w1) _)) as [e|r]; [reflexivity|].
  destruct (ok r); simpl; [|reflexivity].
  destruct (http_status r =? 204); [reflexivity|].
  unfold json_of; simpl. destruct (body_json r); reflexivity.
Qed.

(** X5.  With a valid token in the slot, [callDataverse] sends exactly one
    request and no token exchange: to the endpoint under
    [DATAVERSE_URL/api/data/v9.2/], with the stored token as bearer.  An
    answer with an error status makes it throw the status and the body, and
    a 204 is a success whose body is not read. *)
Theorem callDataverse_with_token (endpoint method : string) (body : RequestBody)
    (w : World) (r : Response) :
  valid_token w = true ->
  let req := Dataverse.dataverseRequest cfg (dataverseToken (cache w)) endpoint method body in
  fst (env (history w) req) = Resolved r ->
  let outcome := run env (Dataverse.callDataverse cfg endpoint method body) w in
  history (snd outcome) = history w ++ [Requested req] /\
  cache (snd outcome) = cache w /\
  url req = Js.show (DATAVERSE_URL cfg) +:+ "/api/data/v9.2/" +:+ endpoint /\
  In ("Authorization", "Bearer " +:+ Js.show (dataverseToken (cache w))) (req_headers req) /\
  (ok r = false ->
   fst outcome = Thrown ("Dataverse API error " +:+ Js.showZ (http_status r)
                            +:+ ": " +:+ body_text r)) /\
  (http_status r = 204 -> fst outcome = Returned JObject).
Proof.
  intros Hvalid req Hr outcome. subst outcome.
  rewrite callDataverse_run, (token_cached_run cfg env w Hvalid). cbv zeta.
  fold req. rewrite Hr.
  split; [destruct (ok r); [destruct (http_status r =? 204); [|destruct (body_json r)]|];
          reflexivity|].
  split; [destruct (ok r); [destruct (http_status r =? 204); [|destruct (body_json r)]|];
          reflexivity|].
  split; [reflexivity|]. split; [now left|]. split.
  - now intros ->.
  - intros H204. unfold ok. rewrite H204. reflexivity.
Qed.

(** X6.  When the token cannot be had (the exchange is rejected or is
    answered with an error status), [callDataverse] throws what
    [getDataverseToken] throws, having sent the exchange request only: no
    request reaches Dataverse. *)
Theorem callDataverse_without_token (endpoint method : string) (body : RequestBody)
    (w : World) :
  valid_token w = false ->
  (exists e, fst (env (history w) (Dataverse.tokenRequest cfg)) = Rejected e) \/
  (exists r, fst (env (history w) (Dataverse.tokenRequest cfg)) = Resolved r /\
             ok r = false) ->
  let outcome := run env (Dataverse.callDataverse cfg endpoint method body) w in
  (exists e, fst outcome = Thrown e /\
             fst (run env (Dataverse.getDataverseToken cfg) w) = Thrown e) /\
  history (snd outcome) = history w ++ [Requested (Dataverse.tokenRequest cfg)].
Proof.
  intros Hstale Hdown outcome. subst outcome.
  rewrite callDataverse_run, (token_exchange_run cfg env w Hstale). cbv zeta.
  destruct Hdown as [[e ->]|(r & -> & ->)]; simpl; eauto.
Qed.

(** X7.  On a slot without a valid token, a successful [callDataverse] is
    two requests in this order: the token exchange, then the call itself,
    which carries the token just issued. *)
Theorem callDataverse_first_call (endpoint method : string) (body : RequestBody)
    (w : World) (r : Response) (t : TokenJson) :
  valid_token w = false ->
  fst (env (history w) (Dataverse.tokenRequest cfg)) = Resolved r ->
  ok r = true -> body_json r = Some (JToken t) ->
  history (snd (run env (Dataverse.callDataverse cfg endpoint method body) w))
    = history w ++ [Requested (Dataverse.tokenRequest cfg);
                    Requested (Dataverse.dataverseRequest cfg (access_token t)
                                 endpoint method body)].
Proof.
  intros Hstale Hr Hok Hjson.
  rewrite callDataverse_run, (token_exchange_run cfg env w Hstale), Hr, Hok, Hjson.
  cbv zeta. cbn [Dataverse.token_fields fst snd].
  match goal with |- context [fst (env ?h ?q)] => destruct (fst (env h q)) as [e|r'] end;
    [simpl; now rewrite <- app_assoc|].
  destruct (ok r'); [destruct (http_status r' =? 204); [|destruct (body_json r')]|];
    simpl; now rewrite <- app_assoc.
Qed.

End DataverseCalls.

Lemma callDataverse_with_token_witness :
  fst (run (granting "tok" 3600 (respond 204 "" None))
         (Dataverse.callDataverse sample_config "cr_kyccustomers(c-1)" "PATCH"
            (PatchStatus (Some 3))) warm_world) = Returned JObject /\
  length (history (snd (run (granting "tok" 3600 (respond 204 "" None))
         (Dataverse.callDataverse sample_config "cr_kyccustomers(c-1)" "PATCH"
            (PatchStatus (Some 3))) warm_world))) = 1%nat.
Proof.
  destruct (callDataverse_with_token sample_config (granting "tok" 3600 (respond 204 "" None))
              "cr_kyccustomers(c-1)" "PATCH" (PatchStatus (Some 3)) warm_world
              {| http_status := 204; resp_headers := ∅; body_text := "";
                 body_json := None |} eq_refl eq_refl)
    as (Hh & _ & _ & _ & _ & H204).
  split; [exact (H204 eq_refl)|]. rewrite Hh. reflexivity.
Defined.

Lemma callDataverse_without_token_witness :
  fst (run offline (Dataverse.callDataverse sample_config "cr_kyccustomers" "GET" NoBody)
         fresh_world) = Thrown "fetch failed" /\
  history (snd (run offline
                  (Dataverse.callDataverse sample_config "cr_kyccustomers" "GET" NoBody)
                  fresh_world))
    = [Requested (Dataverse.tokenRequest sample_config)].
Proof.
  destruct (callDataverse_without_token sample_config offline "cr_kyccustomers" "GET"
              NoBody fresh_world eq_refl (or_introl (ex_intro _ "fetch failed" eq_refl)))
    as ((e & He & Hsame) & Hh).
  split; [|exact Hh]. rewrite He. vm_compute in Hsame. now injection Hsame as <-.
Defined.

Lemma callDataverse_first_call_witness :
  map (fun e => match e with Requested q => url q | Slept _ => "" end)
    (history (snd (run (granting "tok" 3600 (respond 200 "" (Some (JCollection []))))
                     (Dataverse.callDataverse sample_config "cr_kyccustomers" "GET" NoBody)
                     fresh_world)))
  = ["https://login.microsoftonline.com/tenant/oauth2/v2.0/token";
     "https://org.crm.dynamics.com/api/data/v9.2/cr_kyccustomers"].
Proof.
  rewrite (callDataverse_first_call sample_config
             (granting "tok" 3600 (respond 200 "" (Some (JCollection []))))
             "cr_kyccustomers" "GET" NoBody fresh_world (token_response "tok" 3600)
             {| access_token := Some "tok"; expires_in := Some 3600 |}
             eq_refl eq_refl eq_refl eq_refl).
  reflexivity.
Defined.

(** ** Document analysis: submission, failing polls and time *)

Section Analysis.

Variable cfg : Config.
Variable env : Environment.

(** Time only moves forward, by the delays taken at least. *)
Lemma run_elapsed {A : Type} (p : Prog A) : forall w : World,
  exists events,
    history (snd (run env p w)) = history w ++ events /\
    clock w + slept events <= clock (snd (run env p w)).
Proof.
  induction p as [a|e|k IH|k IH|v k IH|k IH|v k IH|req k IH|k IH|ms k IH];
    intros w; simpl; try (exists []; simpl; rewrite app_nil_r; split; [reflexivity|lia]);
    auto.
  - apply (IH (set_token v w)).
  - apply (IH (set_expiry v w)).
  - destruct (env (history w) req) as [o elapsed].
    destruct (IH o (record (Requested req) (Z.of_nat elapsed) w)) as (events & Hh & Hc).
    exists (Requested req :: events). simpl in *.
    rewrite Hh, <- app_assoc. split; [reflexivity|lia].
  - destruct (IH (record (Slept ms) ms w)) as (events & Hh & Hc).
    exists (Slept ms :: events). simpl in *.
    rewrite Hh, <- app_assoc. split; [reflexivity|lia].
Qed.

Lemma slept_turns (operationLocation : string) (n : nat) :
  slept (turns cfg operationLocation n) = 1000 * Z.of_nat n.
Proof. induction n as [|n IH]; [reflexivity|]. cbn [turns slept]. lia. Qed.

(** X8.  [extractTextFromDocument] gives up before any polling when it
    cannot start the analysis: without a key it throws without sending
    anything; when the submission is answered with an error status, or with
    no [Operation-Location] header (absent or empty), it throws after that
    one request. *)
Theorem extract_gives_up_early (base64Content : string) (mimeType : option string)
    (w : World) :
  let outcome := run env (DocIntelligence.extractTextFromDocument cfg base64Content mimeType) w in
  let submit := DocIntelligence.analyzeRequest cfg base64Content mimeType in
  (Js.truthy (DOC_INTELLIGENCE_KEY cfg) = false ->
   outcome = (Thrown "Document Intelligence not configured", w)) /\
  (forall r, Js.truthy (DOC_INTELLIGENCE_KEY cfg) = true ->
     fst (env (history w) submit) = Resolved r ->
     (ok r = false ->
      fst outcome = Thrown ("Document Intelligence error " +:+ Js.showZ (http_status r)
                               +:+ ": " +:+ body_text r) /\
      history (snd outcome) = history w ++ [Requested submit]) /\
     (ok r = true -> Js.truthy (resp_headers r !! "operation-location") = false ->
      fst outcome = Thrown "No operation location returned from Document Intelligence" /\
      history (snd outcome) = history w ++ [Requested submit])).
Proof.
  intros outcome submit. subst outcome submit.
  unfold DocIntelligence.extractTextFromDocument. split.
  - now intros ->.
  - intros r -> Hr. cbn [negb]. rewrite run_bind, run_fetch, Hr. split.
    + intros ->. split; reflexivity.
    + intros -> Hloc. cbn [negb]. rewrite Hloc. split; reflexivity.
Qed.

(** X9.  A poll that gets no answer, or an answer with an error status,
    ends the polling at once: the poller throws the error and polls no more,
    however many attempts are left. *)
Theorem failing_poll_stops (operationLocation : string) (w : World) (k : nat) :
  (k < 30)%nat ->
  (forall i, (i < k)%nat ->
     in_progress (polled cfg env (history w) operationLocation i)) ->
  let outcome := run env (DocIntelligence.pollForCompletion cfg operationLocation) w in
  (forall e, polled cfg env (history w) operationLocation k = Rejected e ->
     fst outcome = Thrown e /\
     history (snd outcome) = history w ++ turns cfg operationLocation (S k)) /\
  (forall r, polled cfg env (history w) operationLocation k = Resolved r ->
     ok r = false ->
     fst outcome = Thrown ("Polling error: " +:+ body_text r) /\
     history (snd outcome) = history w ++ turns cfg operationLocation (S k)).
Proof.
  intros Hk Hbefore outcome. subst outcome.
  unfold DocIntelligence.pollForCompletion. rewrite run_bind.
  destruct (pollLoop_in_progress cfg env operationLocation k (30 - k) None w Hbefore)
    as (wk & rk & Hhk & Hrun & _).
  replace (k + (30 - k))%nat with 30%nat in Hrun by lia. rewrite Hrun.
  replace (30 - k)%nat with (S (29 - k)) by lia.
  rewrite pollLoop_S. destruct (pollOnce_run cfg env operationLocation wk) as (w' & Hh & ->).
  assert (Hturns : history w' = history w ++ turns cfg operationLocation (S k)).
  { rewrite Hh, Hhk, turns_snoc, <- app_assoc. reflexivity. }
  unfold polled. rewrite app_assoc, <- Hhk. split.
  - intros e ->. split; [reflexivity|exact Hturns].
  - intros r -> ->. split; [reflexivity|exact Hturns].
Qed.

(** X10.  The poller waits a second before every poll, the first included:
    when it stops after [n] polls, at least [1000 * n] milliseconds have
    passed; an analysis that stays in progress is given up on no sooner
    than 30 seconds after the polling began. *)
Theorem poller_takes_its_time (operationLocation : string) (w : World) :
  let outcome := run env (DocIntelligence.pollForCompletion cfg operationLocation) w in
  (exists n, (n <= 30)%nat /\
     history (snd outcome) = history w ++ turns cfg operationLocation n /\
     clock w + 1000 * Z.of_nat n <= clock (snd outcome)) /\
  ((forall i, (i < 30)%nat ->
      in_progress (polled cfg env (history w) operationLocation i)) ->
   clock w + 30000 <= clock (snd outcome)).
Proof.
  intros outcome.
  destruct (run_elapsed (DocIntelligence.pollForCompletion cfg operationLocation) w)
    as (events & Hevents & Hclock). fold outcome in Hevents, Hclock.
  assert (Hshape : exists n, (n <= 30)%nat /\
            history (snd outcome) = history w ++ turns cfg operationLocation n).
  { subst outcome. unfold DocIntelligence.pollForCompletion. rewrite run_bind.
    destruct (pollLoop_bounded cfg env operationLocation 30 None w) as (m & Hm & Hh).
    exists m. split; [exact Hm|].
    destruct (run env (DocIntelligence.pollLoop cfg 30 operationLocation None) w)
      as [[[r|]|e] w']; simpl in *; try exact Hh.
    destruct (negb _); exact Hh. }
  split.
  - destruct Hshape as (n & Hn & Hh). exists n. split; [exact Hn|]. split; [exact Hh|].
    rewrite Hh in Hevents. apply app_inv_head in Hevents. subst events.
    now rewrite slept_turns in Hclock.
  - intros Hall.
    assert (Hh : history (snd outcome) = history w ++ turns cfg operationLocation 30).
    { subst outcome. unfold DocIntelligence.pollForCompletion. rewrite run_bind.
      destruct (pollLoop_in_progress cfg env operationLocation 30 0 None w Hall)
        as (wk & rk & Hhk & Hrun & _ & Hpos).
      change (30 + 0)%nat with 30%nat in Hrun. rewrite Hrun. simpl.
      destruct (Hpos ltac:(lia)) as (j & -> & _). destruct (negb _); exact Hhk. }
    rewrite Hh in Hevents. apply app_inv_head in Hevents. subst events.
    rewrite slept_turns in Hclock. lia.
Qed.

End Analysis.

Lemma extract_gives_up_early_witness :
  run offline (DocIntelligence.extractTextFromDocument unconfigured "JVBERi0x" None)
      fresh_world
    = (Thrown "Document Intelligence not configured", fresh_world) /\
  fst (run (always JObject)
         (DocIntelligence.extractTextFromDocument sample_config "JVBERi0x" None)
         fresh_world)
    = Thrown "No operation location returned from Document Intelligence" /\
  length (history (snd (run (always JObject)
         (DocIntelligence.extractTextFromDocument sample_config "JVBERi0x" None)
         fresh_world))) = 1%nat.
Proof.
  split.
  - exact (proj1 (extract_gives_up_early unconfigured offline "JVBERi0x" None fresh_world)
             eq_refl).
  - destruct (proj2 (proj2 (extract_gives_up_early sample_config (always JObject)
                              "JVBERi0x" None fresh_world)
                       {| http_status := 200; resp_headers := ∅; body_text := "";
                          body_json := Some JObject |} eq_refl eq_refl)
                eq_refl eq_refl) as [Hthrown Hh].
    split; [exact Hthrown|]. rewrite Hh. reflexivity.
Defined.

Lemma failing_poll_stops_witness :
  fst (run offline
         (DocIntelligence.pollForCompletion sample_config "https://doc.example/op/1")
         fresh_world) = Thrown "fetch failed" /\
  history (snd (run offline
         (DocIntelligence.pollForCompletion sample_config "https://doc.example/op/1")
         fresh_world))
    = history fresh_world ++ turns sample_config "https://doc.example/op/1" 1.
Proof.
  apply (proj1 (failing_poll_stops sample_config offline "https://doc.example/op/1"
                  fresh_world 0 ltac:(lia) ltac:(intros; lia)) "fetch failed").
  reflexivity.
Defined.

Lemma poller_takes_its_time_witness :
  clock fresh_world + 30000
  <= clock (snd (run (always (analysis "running" "undefined"))
                   (DocIntelligence.pollForCompletion sample_config
                      "https://doc.example/op/1") fresh_world)).
Proof.
  apply (proj2 (poller_takes_its_time sample_config (always (analysis "running" "undefined"))
                  "https://doc.example/op/1" fresh_world)).
  intros i _. exists (analysis "running" "undefined").
  split; [eexists; repeat split; reflexivity|split; discriminate].
Defined.

(** ** More on the customer tools *)

Section CustomerTools.

Variable cfg : Config.
Variable env : Environment.

(** X11.  A valid update (a non-empty customer identifier and one of the
    whole numbers 1 to 4 as status), made with a valid token in the slot
    and accepted by Dataverse, is exactly one request: a PATCH of the
    customer's record that carries the new status.  The handler then
    confirms with what [getStatusLabel] gives for that status. *)
Theorem valid_update_patches_once (customerId : string) (status : Z)
    (w : World) (r : Response) :
  customerId <> "" -> 1 <= status <= 4 ->
  valid_token w = true ->
  let req := Dataverse.dataverseRequest cfg (dataverseToken (cache w))
               ("cr_kyccustomers(" +:+ customerId +:+ ")") "PATCH"
               (PatchStatus (Some status)) in
  fst (env (history w) req) = Resolved r ->
  ok r = true -> http_status r = 204 \/ is_Some (body_json r) ->
  let outcome := run env (Tools.update_customer_status cfg (Some customerId) (Some status)) w in
  fst outcome
    = Returned (Tools.reply (Tools.Plain
        ("Customer status updated to " +:+ Tools.quote
           +:+ Tools.getStatusLabel (Some status) +:+ Tools.quote
           +:+ " successfully."))) /\
  history (snd outcome) = history w ++ [Requested req].
Proof.
  intros Hid Hst Hvalid req Hr Hok Hbody outcome. subst outcome.
  unfold Tools.update_customer_status.
  assert (Js.truthy (Some customerId) = true) as ->.
  { simpl. destruct (String.eqb_spec customerId ""); [contradiction|reflexivity]. }
  assert (Js.truthy_num (Some status) = true) as ->.
  { simpl. destruct (Z.eqb_spec status 0); [lia|reflexivity]. }
  assert (Tools.out_of_range (Some status) = false) as ->.
  { simpl. apply orb_false_intro; apply Z.ltb_ge; lia. }
  cbn [negb orb Js.show]. rewrite run_bind, callDataverse_run.
  rewrite (token_cached_run cfg env w Hvalid). cbv zeta. fold req. rewrite Hr, Hok.
  split.
  - destruct Hbody as [-> |[j ->]]; [reflexivity|].
    destruct (http_status r =? 204); reflexivity.
  - destruct Hbody as [-> |[j ->]]; [reflexivity|].
    destruct (http_status r =? 204); reflexivity.
Qed.

Lemma status_counts (customers : list Customer) :
  (length (List.filter (fun c => Tools.has_status 1 c) customers)
   + length (List.filter (fun c => Tools.has_status 2 c) customers)
   + length (List.filter (fun c => Tools.has_status 3 c) customers)
   + length (List.filter (fun c => Tools.has_status 4 c) customers)
   + length (List.filter
       (fun c => negb (Tools.has_status 1 c || Tools.has_status 2 c ||
                       Tools.has_status 3 c || Tools.has_status 4 c)) customers)
   = length customers)%nat.
Proof.
  induction customers as [|c rest IH]; [reflexivity|].
  cbn [List.filter].
  destruct (Tools.has_status 1 c) eqn:H1; destruct (Tools.has_status 2 c) eqn:H2;
    destruct (Tools.has_status 3 c) eqn:H3; destruct (Tools.has_status 4 c) eqn:H4;
    cbn [negb orb length]; try lia;
    exfalso; unfold Tools.has_status in H1, H2, H3, H4;
    destruct (cr_status c); try discriminate;
    repeat match goal with H : (_ =? _) = true |- _ => apply Z.eqb_eq in H end; lia.
Qed.

Lemma has_status_decide (n : Z) (c : Customer) :
  Tools.has_status n c = bool_decide (cr_status c = Some n).
Proof.
  unfold Tools.has_status. destruct (cr_status c) as [m|].
  - destruct (Z.eqb_spec m n) as [->|Hdiff].
    + now rewrite bool_decide_eq_true_2.
    + rewrite bool_decide_eq_false_2; [reflexivity|congruence].
  - now rewrite bool_decide_eq_false_2.
Qed.

Lemma with_status_filter (n : Z) (customers : list Customer) :
  length (List.filter (fun c => Tools.has_status n c) customers) = with_status n customers.
Proof.
  unfold with_status. f_equal. apply List.filter_ext. intros c. apply has_status_decide.
Qed.

Lemma unclassified_filter (customers : list Customer) :
  length (List.filter
            (fun c => negb (Tools.has_status 1 c || Tools.has_status 2 c ||
                            Tools.has_status 3 c || Tools.has_status 4 c)) customers)
  = unclassified customers.
Proof.
  unfold unclassified. f_equal. apply List.filter_ext. intros c. f_equal.
  rewrite !has_status_decide.
  repeat case_bool_decide; cbn [orb]; try reflexivity; exfalso;
    repeat match goal with
           | H : _ ∈ _ |- _ => rewrite ?elem_of_cons, elem_of_nil in H
           | H : ~ (_ ∈ _) |- _ => rewrite ?not_elem_of_cons in H
           end; tauto.
Qed.

(** X12.  The summary counts the customers that Dataverse answered with:
    the total is their number, each of the four counts is the number of
    them with that status, and every customer is in at most one count, so
    that the four counts and the customers whose status is none of 1-4 (or
    missing) add up to the total. *)
Theorem summary_counts_add_up (w w' : World) (customers : list Customer) :
  run env (Dataverse.callDataverse cfg
             "cr_kyccustomers?$select=cr_kyccustomerid,cr_status" "GET" NoBody) w
    = (Returned (JCollection customers), w') ->
  exists s,
    run env (Tools.get_kyc_summary cfg) w
      = (Returned (Tools.reply (Tools.Stringified (Tools.KycSummary s))), w') /\
    Tools.totalCustomers s = length customers /\
    Tools.pending s = with_status 1 customers /\
    Tools.underReview s = with_status 2 customers /\
    Tools.approved s = with_status 3 customers /\
    Tools.rejected s = with_status 4 customers /\
    (Tools.pending s + Tools.underReview s + Tools.approved s + Tools.rejected s
     + unclassified customers = Tools.totalCustomers s)%nat.
Proof.
  intros Hcall. unfold Tools.get_kyc_summary. rewrite run_bind, Hcall.
  eexists. split; [reflexivity|]. cbn [Tools.totalCustomers Tools.pending
    Tools.underReview Tools.approved Tools.rejected].
  rewrite <- !with_status_filter, <- unclassified_filter.
  repeat (split; [reflexivity|]). apply status_counts.
Qed.

End CustomerTools.

Lemma valid_update_patches_once_witness :
  fst (run (granting "tok" 3600 (respond 204 "" None))
         (Tools.update_customer_status sample_config (Some "c-1") (Some 3)) warm_world)
    = Returned (Tools.reply (Tools.Plain
        ("Customer status updated to " +:+ Tools.quote +:+ "Approved" +:+ Tools.quote
           +:+ " successfully."))) /\
  map (fun e => match e with Requested q => (method q, url q) | Slept _ => ("", "") end)
    (history (snd (run (granting "tok" 3600 (respond 204 "" None))
         (Tools.update_customer_status sample_config (Some "c-1") (Some 3)) warm_world)))
    = [("PATCH", "https://org.crm.dynamics.com/api/data/v9.2/cr_kyccustomers(c-1)")].
Proof.
  destruct (valid_update_patches_once sample_config (granting "tok" 3600 (respond 204 "" None))
              "c-1" 3 warm_world
              {| http_status := 204; resp_headers := ∅; body_text := "";
                 body_json := None |}
              ltac:(discriminate) ltac:(lia) eq_refl eq_refl eq_refl (or_introl eq_refl))
    as (Hreply & Hh).
  split; [exact Hreply|]. rewrite Hh. reflexivity.
Defined.

Lemma summary_counts_add_up_witness :
  exists s,
    fst (run (granting "tok" 3600
                (respond 200 ""
                   (Some (JCollection [customer 1; customer 3; customer 3; customer 9]))))
           (Tools.get_kyc_summary sample_config) fresh_world)
      = Returned (Tools.reply (Tools.Stringified (Tools.KycSummary s))) /\
    Tools.totalCustomers s = 4%nat /\
    Tools.pending s = 1%nat /\ Tools.underReview s = 0%nat /\
    Tools.approved s = 2%nat /\ Tools.rejected s = 0%nat.
Proof.
  destruct (run (granting "tok" 3600
                   (respond 200 ""
                      (Some (JCollection [customer 1; customer 3; customer 3; customer 9]))))
              (Dataverse.callDataverse sample_config
                 "cr_kyccustomers?$select=cr_kyccustomerid,cr_status" "GET" NoBody)
              fresh_world) as [outcome w'] eqn:Hcall.
  assert (Houtcome : outcome
            = Returned (JCollection [customer 1; customer 3; customer 3; customer 9])).
  { apply (f_equal fst) in Hcall. vm_compute in Hcall. now subst outcome. }
  subst outcome.
  destruct (summary_counts_add_up sample_config _ _ _ _ Hcall)
    as (s & Hrun & Htotal & Hpending & Hreview & Happroved & Hrejected & _).
  exists s. rewrite Hrun, Htotal, Hpending, Hreview, Happroved, Hrejected.
  repeat split.
Defined.

(** ** More on the combined check *)

Section RiskBounds.

Variable cfg : Config.
Variable env : Environment.

Lemma contribution_short (c : Tools.Check) : (length (contribution c) <= 1)%nat.
Proof.
  destruct c; simpl; repeat match goal with |- context [if ?b then _ else _] =>
    destruct b end; simpl; lia.
Qed.

(** Without a Perplexity key step 3 records a skipped entry and sends
    nothing. *)
Lemma adverseMedia_without_key (name : string) (results : Tools.Results) (w : World) :
  Js.truthy (PERPLEXITY_API_KEY cfg) = false ->
  run env (Tools.adverseMedia cfg name results) w
    = (Returned (Tools.set_check "adverseMedia"
                   (Tools.Skipped "Perplexity API key not configured") results), w).
Proof. intros Hkey. unfold Tools.adverseMedia. now rewrite Hkey. Qed.

Lemma assess_without_key (name : string) (leiCode : option string) (w : World) :
  Js.truthy (PERPLEXITY_API_KEY cfg) = false ->
  exists c1 c2 results w',
    run env (Tools.assess cfg name leiCode) w = (Returned results, w') /\
    Tools.riskFactors results = contribution c1 ++ from_option contribution [] c2.
Proof.
  intros Hkey. unfold Tools.assess. rewrite run_bind. cbn [date_now run].
  set (r0 := {| Tools.companyName := name; Tools.timestamp := clock w;
                Tools.checks := []; Tools.overallRisk := "LOW";
                Tools.riskFactors := [] |}).
  rewrite run_bind.
  destruct (gleifSearch_run env name r0 w)
    as (c1 & r1 & w1 & -> & _ & (_ & _ & _ & _ & Hf1) & _).
  simpl in Hf1. rewrite run_bind.
  destruct (Js.truthy leiCode) eqn:Hgiven.
  - destruct leiCode as [code|]; [|discriminate Hgiven].
    destruct (leiVerification_run env code r1 w1 Hgiven)
      as (c2 & r2 & w2 & -> & _ & (_ & _ & _ & _ & Hf2) & _).
    rewrite run_bind, adverseMedia_without_key by assumption.
    exists c1, (Some c2). do 2 eexists. split; [reflexivity|].
    simpl. now rewrite Hf2, Hf1.
  - rewrite (leiVerification_skip env leiCode r1 w1 Hgiven), run_bind,
      adverseMedia_without_key by assumption.
    exists c1, None. do 2 eexists. split; [reflexivity|].
    simpl. now rewrite Hf1, app_nil_r.
Qed.

(** X13.  An assessment never lists more than three risk factors, one for
    each check at most.  HIGH therefore takes all three checks: it is out of
    reach when no LEI code is given or no Perplexity key is configured. *)
Theorem high_takes_every_check (name : string) (leiCode : option string)
    (w w' : World) (results : Tools.Results) :
  run env (Tools.run_legal_entity_kyc cfg name leiCode) w
    = (Returned (Tools.reply (Tools.Stringified (Tools.Assessment results))), w') ->
  (length (Tools.riskFactors results) <= 3)%nat /\
  (Tools.overallRisk results = "HIGH" ->
   Js.truthy leiCode = true /\ Js.truthy (PERPLEXITY_API_KEY cfg) = true).
Proof.
  unfold Tools.run_legal_entity_kyc. rewrite run_bind.
  destruct (assess_run cfg env name leiCode w)
    as (c1 & c2 & c3 & results0 & w0 & Hrun & _ & Hiff & _ & Hf & Hlevel & _).
  rewrite Hrun. intros [= <- <-].
  pose proof (contribution_short c1) as H1. pose proof (contribution_short c3) as H3.
  assert (H2 : (length (from_option contribution [] c2) <= 1)%nat).
  { destruct c2 as [c|]; simpl; [apply contribution_short|lia]. }
  split; [rewrite Hf, !length_app; lia|].
  intros Hhigh. rewrite Hlevel in Hhigh. unfold Tools.level in Hhigh.
  destruct (3 <=? length (Tools.riskFactors results0))%nat eqn:Hthree;
    [|destruct (1 <=? _)%nat; discriminate Hhigh].
  apply Nat.leb_le in Hthree. split.
  - apply Hiff. destruct c2 as [c|]; [eauto|].
    rewrite Hf, !length_app in Hthree. simpl in Hthree. lia.
  - destruct (Js.truthy (PERPLEXITY_API_KEY cfg)) eqn:Hkey; [reflexivity|].
    destruct (assess_without_key name leiCode w Hkey) as (d1 & d2 & r & wr & Hrun' & Hf').
    rewrite Hrun in Hrun'. injection Hrun' as <- _.
    pose proof (contribution_short d1).
    assert ((length (from_option contribution [] d2) <= 1)%nat).
    { destruct d2 as [c|]; simpl; [apply contribution_short|lia]. }
    rewrite Hf', !length_app in Hthree. lia.
Qed.

(** Steps 1 to 3 when the request gets no answer. *)
Lemma gleifSearch_rejected (name : string) (results : Tools.Results) (w : World) (e : string) :
  fst (env (history w) (Tools.gleifSearchRequest name)) = Rejected e ->
  fst (run env (Tools.gleifSearch name results) w)
    = Returned (Tools.set_check "gleifSearch" (Tools.Errored e) results).
Proof.
  intros Hr. unfold Tools.gleifSearch.
  now rewrite run_try_catch, run_bind, run_fetch, Hr.
Qed.

Lemma leiVerification_rejected (leiCode : string) (results : Tools.Results) (w : World)
    (e : string) :
  Js.truthy (Some leiCode) = true ->
  fst (env (history w) (Tools.leiRequest leiCode)) = Rejected e ->
  fst (run env (Tools.leiVerification (Some leiCode) results) w)
    = Returned (Tools.set_check "leiVerification" (Tools.Errored e) results).
Proof.
  intros Hgiven Hr. unfold Tools.leiVerification. rewrite Hgiven. cbn [Js.show].
  now rewrite run_try_catch, run_bind, run_fetch, Hr.
Qed.

Lemma adverseMedia_rejected (name : string) (results : Tools.Results) (w : World)
    (e : string) :
  Js.truthy (PERPLEXITY_API_KEY cfg) = true ->
  fst (env (history w) (Tools.perplexityRequest cfg name)) = Rejected e ->
  fst (run env (Tools.adverseMedia cfg name results) w)
    = Returned (Tools.set_check "adverseMedia" (Tools.Errored e) results).
Proof.
  intros Hkey Hr. unfold Tools.adverseMedia. rewrite Hkey.
  now rewrite run_try_catch, run_bind, run_fetch, Hr.
Qed.

(** X14.  When none of the providers can be reached (every request is
    rejected), the assessment still returns: no check is completed, no risk
    factor is listed, and the overall risk reads LOW. *)
Theorem outage_reads_low (name : string) (leiCode : option string) (w : World) :
  (forall h req, exists e, fst (env h req) = Rejected e) ->
  exists results w',
    run env (Tools.run_legal_entity_kyc cfg name leiCode) w
      = (Returned (Tools.reply (Tools.Stringified (Tools.Assessment results))), w') /\
    Tools.riskFactors results = [] /\
    Tools.overallRisk results = "LOW" /\
    Forall (fun entry => Tools.check_status (snd entry) <> "completed")
      (Tools.checks results).
Proof.
  intros Hdown.
  unfold Tools.run_legal_entity_kyc, Tools.assess. rewrite !run_bind. cbn [date_now run].
  set (r0 := {| Tools.companyName := name; Tools.timestamp := clock w;
                Tools.checks := []; Tools.overallRisk := "LOW";
                Tools.riskFactors := [] |}).
  rewrite run_bind.
  destruct (Hdown (history w) (Tools.gleifSearchRequest name)) as [e1 He1].
  pose proof (gleifSearch_rejected name r0 w e1 He1) as H1.
  destruct (run env (Tools.gleifSearch name r0) w) as [x1 w1]. simpl in H1. subst x1.
  rewrite run_bind.
  assert (Hlei : exists r2 w2,
            run env (Tools.leiVerification leiCode
                       (Tools.set_check "gleifSearch" (Tools.Errored e1) r0)) w1
              = (Returned r2, w2) /\
            Tools.riskFactors r2 = [] /\
            Forall (fun entry => Tools.check_status (snd entry) <> "completed")
              (Tools.checks r2)).
  { destruct (Js.truthy leiCode) eqn:Hgiven.
    - destruct leiCode as [code|]; [|discriminate Hgiven].
      destruct (Hdown (history w1) (Tools.leiRequest code)) as [e2 He2].
      pose proof (leiVerification_rejected code
                    (Tools.set_check "gleifSearch" (Tools.Errored e1) r0) w1 e2 Hgiven He2)
        as H2.
      destruct (run env _ w1) as [x2 w2]. simpl in H2. subst x2.
      do 2 eexists. split; [reflexivity|]. split; [reflexivity|].
      simpl. repeat constructor; discriminate.
    - rewrite (leiVerification_skip env leiCode _ w1 Hgiven).
      do 2 eexists. split; [reflexivity|]. split; [reflexivity|].
      simpl. repeat constructor; discriminate. }
  destruct Hlei as (r2 & w2 & -> & Hf2 & Hc2). rewrite run_bind.
  destruct (Js.truthy (PERPLEXITY_API_KEY cfg)) eqn:Hkey.
  - destruct (Hdown (history w2) (Tools.perplexityRequest cfg name)) as [e3 He3].
    pose proof (adverseMedia_rejected name r2 w2 e3 Hkey He3) as H3.
    destruct (run env (Tools.adverseMedia cfg name r2) w2) as [x3 w3]. simpl in H3. subst x3.
    do 2 eexists. split; [reflexivity|]. simpl. rewrite Hf2.
    split; [reflexivity|]. split; [reflexivity|].
    clear - Hc2. induction Hc2 as [|[n c] l Hc Hl IH]; simpl;
      [repeat constructor; discriminate|].
    destruct (String.eqb n "adverseMedia"); constructor; simpl; auto; discriminate.
  - rewrite adverseMedia_without_key by assumption.
    do 2 eexists. split; [reflexivity|]. simpl. rewrite Hf2.
    split; [reflexivity|]. split; [reflexivity|].
    clear - Hc2. induction Hc2 as [|[n c] l Hc Hl IH]; simpl;
      [repeat constructor; discriminate|].
    destruct (String.eqb n "adverseMedia"); constructor; simpl; auto; discriminate.
Qed.

End RiskBounds.

Lemma high_takes_every_check_witness :
  exists results,
    fst (run alarming (Tools.run_legal_entity_kyc sample_config "Acme Ltd" None) fresh_world)
      = Returned (Tools.reply (Tools.Stringified (Tools.Assessment results))) /\
    (length (Tools.riskFactors results) <= 3)%nat.
Proof.
  destruct (run alarming (Tools.run_legal_entity_kyc sample_config "Acme Ltd" None)
              fresh_world) as [[envelope|e] w'] eqn:Hrun;
    [|vm_compute in Hrun; discriminate Hrun].
  assert (Hshape : exists results,
            envelope = Tools.reply (Tools.Stringified (Tools.Assessment results))).
  { vm_compute in Hrun. injection Hrun as <- _. eexists. reflexivity. }
  destruct Hshape as [results ->]. exists results. split; [reflexivity|].
  exact (proj1 (high_takes_every_check sample_config alarming "Acme Ltd" None
                  fresh_world w' results Hrun)).
Defined.

Lemma outage_reads_low_witness :
  exists results,
    fst (run offline (Tools.run_legal_entity_kyc sample_config "Acme Ltd"
                        (Some "5493001KJTIIGC8Y1R12")) fresh_world)
      = Returned (Tools.reply (Tools.Stringified (Tools.Assessment results))) /\
    Tools.riskFactors results = [] /\ Tools.overallRisk results = "LOW".
Proof.
  destruct (outage_reads_low sample_config offline "Acme Ltd"
              (Some "5493001KJTIIGC8Y1R12") fresh_world)
    as (results & w' & Hrun & Hf & Hlow & _).
  - intros h req. exists "fetch failed". reflexivity.
  - exists results. rewrite Hrun. auto.
Defined.

(** ** Red flags *)

Lemma toLowerCase_app (a b : string) :
  Js.toLowerCase (a +:+ b) = Js.toLowerCase a +:+ Js.toLowerCase b.
Proof. induction a as [|c a IH]; simpl; [reflexivity|now rewrite IH]. Qed.

Lemma startsWith_app (p s : string) : Js.startsWith p (p +:+ s) = true.
Proof.
  induction p as [|c p IH]; simpl; [reflexivity|].
  now rewrite Ascii.eqb_refl, IH.
Qed.

Lemma includes_here (p s : string) : Js.startsWith p s = true -> Js.includes p s = true.
Proof. intros H. destruct s; simpl; now rewrite H. Qed.

(** [includes] finds a word wherever it stands. *)
Lemma includes_app (p a b : string) : Js.includes p (a +:+ p +:+ b) = true.
Proof.
  induction a as [|c a IH].
  - change ("" +:+ p +:+ b) with (p +:+ b). apply includes_here. apply startsWith_app.
  - change (String c a +:+ p +:+ b) with (String c (a +:+ p +:+ b)).
    cbn [Js.includes]. rewrite IH. apply orb_true_r.
Qed.

(** X15.  The combined check raises the red flag for any screening text in
    which one of its four words occurs: anywhere in the text, inside a longer
    word or a denial as well, and whatever the case of the letters. *)
Theorem alarm_words_flag (before word after : string) :
  In (Js.toLowerCase word) alarm_words ->
  Tools.redFlags (before +:+ word +:+ after) = true.
Proof.
  intros Hword. unfold Tools.redFlags. rewrite !toLowerCase_app.
  destruct Hword as [<-|[<-|[<-|[<-|[]]]]]; rewrite includes_app;
    rewrite ?orb_true_r; reflexivity.
Qed.

(** X16.  The screening tool raises the red flag for every text for which
    the combined check does, and also wherever indicted, regulatory action,
    fine or penalty occurs in it; as the words are looked for as substrings,
    a text with "refined" or "defined" in it is flagged. *)
Theorem screening_flags_more (screening : string) :
  (Tools.redFlags screening = true -> Screening.redFlags screening = true) /\
  (forall before word after,
     In (Js.toLowerCase word) ["indicted"; "regulatory action"; "fine"; "penalty"] ->
     screening = before +:+ word +:+ after ->
     Screening.redFlags screening = true).
Proof.
  split.
  - unfold Tools.redFlags, Screening.redFlags. cbv zeta.
    destruct (Js.includes "sanction" _); [reflexivity|].
    destruct (Js.includes "fraud" _); [reflexivity|].
    destruct (Js.includes "money laundering" _); [reflexivity|].
    destruct (Js.includes "convicted" _); [|discriminate].
    intros _. cbn [orb]. now rewrite orb_true_r.
  - intros before word after Hword ->. unfold Screening.redFlags.
    rewrite !toLowerCase_app.
    destruct Hword as [<-|[<-|[<-|[<-|[]]]]]; rewrite includes_app;
      rewrite ?orb_true_r; reflexivity.
Qed.

Lemma alarm_words_flag_witness :
  Tools.redFlags ("No " +:+ "FRAUD" +:+ " was found.") = true.
Proof. apply alarm_words_flag. right; left. reflexivity. Defined.

Lemma screening_flags_more_witness :
  Screening.redFlags "The process was refined." = true.
Proof.
  apply (proj2 (screening_flags_more "The process was refined.")
           "The process was re" "fine" "d.").
  - right; right; left. reflexivity.
  - reflexivity.
Defined.

(** ** The screening tool and the handlers that report failures *)

Section Reporting.

Variable cfg : Config.
Variable env : Environment.

(** X17.  [screen_adverse_media] always returns an envelope.  Without a
    Perplexity key it says so and sends nothing; an answer with an error
    status comes back as an error text with the status and the body; and a
    screening text comes back with the red flag computed from it and the
    entity type "company" unless one was given. *)
Theorem screening_tool_answers (entityName : string) (entityType : option string)
    (w : World) :
  let outcome := run env (Screening.screen_adverse_media cfg entityName entityType) w in
  (exists envelope, fst outcome = Returned envelope) /\
  (Js.truthy (PERPLEXITY_API_KEY cfg) = false ->
   outcome = (Returned (Screening.reply (Screening.Plain
     "Error: Perplexity API key not configured. Cannot perform adverse media screening.")),
     w)) /\
  (forall r, Js.truthy (PERPLEXITY_API_KEY cfg) = true ->
     fst (env (history w) (Screening.screeningRequest cfg entityName)) = Resolved r ->
     (ok r = false ->
      fst outcome = Returned (Screening.reply (Screening.Plain
        ("Error: " +:+ "Perplexity API error: " +:+ Js.showZ (http_status r)
           +:+ " - " +:+ body_text r)))) /\
     (forall c text, ok r = true -> body_json r = Some (JChat c) ->
        chat_content c = ContentText text -> text <> "" ->
        fst outcome = Returned (Screening.reply (Screening.Stringified
          {| Screening.entityName := entityName;
             Screening.entityType := default "company" entityType;
             Screening.screeningResult := text;
             Screening.sources := default [] (citations c);
             Screening.hasRedFlags := Screening.redFlags text;
             Screening.screenedAt := clock (snd outcome) |})))).
Proof.
  intros outcome. subst outcome. unfold Screening.screen_adverse_media. cbv zeta.
  destruct (Js.truthy (PERPLEXITY_API_KEY cfg)) eqn:Hkey; cbn [negb].
  - split; [|split; [discriminate|]].
    + destruct (try_catch_returns env
                  (response ← fetch (Screening.screeningRequest cfg entityName);
                   if negb (ok response)
                   then error ← text_of response;
                        Throw ("Perplexity API error: " +:+ Js.showZ (http_status response)
                                 +:+ " - " +:+ error)
                   else
                     data ← json_of response;
                     screeningResult ← Screening.result_of data;
                     t ← date_now;
                     Ret (Screening.reply (Screening.Stringified
                            {| Screening.entityName := entityName;
                               Screening.entityType := default "company" entityType;
                               Screening.screeningResult := screeningResult;
                               Screening.sources := Tools.sources_of data;
                               Screening.hasRedFlags := Screening.redFlags screeningResult;
                               Screening.screenedAt := t |})))
                  (fun message => Screening.reply (Screening.Plain ("Error: " +:+ message)))
                  w) as (envelope & w' & Hrun).
      exists envelope. now rewrite Hrun.
    + intros r _ Hr. rewrite run_try_catch, run_bind, run_fetch, Hr. split.
      * now intros ->.
      * intros c text -> Hjson Hc Hne. cbn [negb].
        unfold json_of, mbind, prog_bind. simpl. rewrite Hjson. simpl. rewrite Hc.
        destruct (String.eqb_spec text ""); [contradiction|]. reflexivity.
  - split; [eauto|]. split; [reflexivity|discriminate].
Qed.

(** X18.  When the token cannot be had because the identity provider does
    not answer, [list_customers] reports the failure as an error text and
    the [/test-dataverse] endpoint answers 500 with it; neither throws, and
    neither sends anything but the token exchange. *)
Theorem token_failure_is_reported (status : option Z) (w : World) (e : string) :
  valid_token w = false ->
  fst (env (history w) (Dataverse.tokenRequest cfg)) = Rejected e ->
  (fst (run env (Tools.list_customers cfg status) w)
     = Returned (Tools.reply (Tools.Plain ("Error: " +:+ e))) /\
   history (snd (run env (Tools.list_customers cfg status) w))
     = history w ++ [Requested (Dataverse.tokenRequest cfg)]) /\
  (fst (run env (Server.testDataverse cfg) w)
     = Returned (Server.Sent 500 (Server.ConnectFailed e)) /\
   history (snd (run env (Server.testDataverse cfg) w))
     = history w ++ [Requested (Dataverse.tokenRequest cfg)]).
Proof.
  intros Hstale Hr. split.
  - unfold Tools.list_customers. rewrite run_try_catch, run_bind, callDataverse_run.
    rewrite (token_exchange_run cfg env w Hstale), Hr. split; reflexivity.
  - unfold Server.testDataverse. rewrite run_try_catch, run_bind. cbn [date_now run].
    rewrite run_bind, callDataverse_run.
    rewrite (token_exchange_run cfg env w Hstale), Hr. split; reflexivity.
Qed.

End Reporting.

Lemma screening_tool_answers_witness :
  run offline (Screening.screen_adverse_media unconfigured "Acme Ltd" None) fresh_world
    = (Returned (Screening.reply (Screening.Plain
        "Error: Perplexity API key not configured. Cannot perform adverse media screening.")),
       fresh_world) /\
  fst (run (fun _ _ => (respond 429 "slow down" None, 0%nat))
         (Screening.screen_adverse_media sample_config "Acme Ltd" None) fresh_world)
    = Returned (Screening.reply (Screening.Plain
        ("Error: " +:+ "Perplexity API error: " +:+ "429" +:+ " - " +:+ "slow down"))).
Proof.
  split.
  - exact (proj1 (proj2 (screening_tool_answers unconfigured offline "Acme Ltd" None
                           fresh_world)) eq_refl).
  - exact (proj1 (proj2 (proj2 (screening_tool_answers sample_config
                                  (fun _ _ => (respond 429 "slow down" None, 0%nat))
                                  "Acme Ltd" None fresh_world))
                    {| http_status := 429; resp_headers := ∅; body_text := "slow down";
                       body_json := None |} eq_refl eq_refl) eq_refl).
Defined.

Lemma token_failure_is_reported_witness :
  fst (run offline (Tools.list_customers sample_config (Some 2)) fresh_world)
    = Returned (Tools.reply (Tools.Plain ("Error: " +:+ "fetch failed"))) /\
  fst (run offline (Server.testDataverse sample_config) fresh_world)
    = Returned (Server.Sent 500 (Server.ConnectFailed "fetch failed")).
Proof.
  destruct (token_failure_is_reported sample_config offline (Some 2) fresh_world
              "fetch failed" eq_refl eq_refl) as [[Hlist _] [Htest _]].
  split; assumption.
Defined.

(** ** Sessions over several requests *)

Section Sessions.

Variable cfg : Config.
Variable Body : Type.
Variable isInitializeRequest : Body -> bool.
Variable opens : Server.HttpRequest Body -> Server.Opening.
Variable handles : Server.Transport -> Server.HttpRequest Body -> Server.Handling.

Abbreviation check := (Server.validateApiKey cfg Body).
Abbreviation answer := (Server.app cfg Body isInitializeRequest opens handles).

Lemma route_inv (verb path : string) (r : Server.Route) :
  Server.route verb path = Some r ->
  match r with
  | Server.Health => verb = "GET" /\ path = "/health"
  | Server.TestDataverse => verb = "GET" /\ path = "/test-dataverse"
  | Server.McpPost => verb = "POST" /\ path = "/mcp"
  | Server.McpGet => verb = "GET" /\ path = "/mcp"
  | Server.McpDelete => verb = "DELETE" /\ path = "/mcp"
  | Server.Info => verb = "GET" /\ path = "/"
  end.
Proof.
  unfold Server.route.
  repeat match goal with
         | |- context [String.eqb ?a ?b] => destruct (String.eqb_spec a b)
         end; cbn [andb]; intros [= <-]; auto.
Qed.



Lemma live_inv (v : option string) (sessions : gmap string Server.Transport)
    (transport : Server.Transport) :
  Server.live v sessions = Some transport ->
  exists id, v = Some id /\ sessions !! id = Some transport.
Proof.
  unfold Server.live. destruct v as [id|]; [|discriminate].
  destruct (Js.truthy (Some id)); [eauto|discriminate].
Qed.

Lemma handleRequest_inv (transport : Server.Transport) (req : Server.HttpRequest Body)
    (sessions sessions' : gmap string Server.Transport) (reply : Server.Reply) :
  Server.handleRequest Body handles transport req sessions = (reply, sessions') ->
  sessions' = sessions \/
  (handles transport req = Server.Terminates /\
   reply = Server.ByTransport (Server.sessionId transport) /\
   sessions' = Server.onclose transport sessions).
Proof.
  unfold Server.handleRequest.
  destruct (handles transport req); intros [= <- <-]; auto.
Qed.




(** X21.  The application changes the registry through the two callbacks
    of a transport only.  Serving a request leaves it as it was, but for two
    cases: a POST to the endpoint that is an initialize request without a
    session identifier and that the new transport accepts, where
    [onsessioninitialized] registers the generated identifier; and a request
    to the endpoint that names a live session whose transport closes on it,
    where [transport.onclose] runs for that transport. *)
Theorem registry_changes_by_callbacks (t : Z) (generated : string)
    (req : Server.HttpRequest Body) (sessions sessions' : gmap string Server.Transport)
    (reply : Server.Reply) :
  answer t generated req sessions = Server.Done reply sessions' ->
  sessions' = sessions \/
  (sessions' = Server.onsessioninitialized generated sessions /\
   reply = Server.Initialized generated /\
   Server.verb req = "POST" /\ Server.path req = "/mcp" /\
   isInitializeRequest (Server.body req) = true /\
   Js.truthy (Server.headers req !! "mcp-session-id") = false /\
   opens req = Server.Accepts) \/
  (exists id transport,
     Server.path req = "/mcp" /\
     Server.headers req !! "mcp-session-id" = Some id /\
     sessions !! id = Some transport /\
     handles transport req = Server.Terminates /\
     reply = Server.ByTransport (Server.sessionId transport) /\
     sessions' = Server.onclose transport sessions).
Proof.
  unfold Server.app.
  destruct (Server.route (Server.verb req) (Server.path req)) as [r|] eqn:Hroute;
    [|discriminate].
  apply route_inv in Hroute.
  destruct (Server.through Body (Server.middleware cfg Body r) req) as [|denied] eqn:Hpass;
    [|intros [= _ <-]; now left].
  assert (Hhandled : forall transport,
            Server.live (Server.headers req !! "mcp-session-id") sessions = Some transport ->
            Server.path req = "/mcp" ->
            Server.handleRequest Body handles transport req sessions = (reply, sessions') ->
            sessions' = sessions \/
            (exists id transport,
               Server.path req = "/mcp" /\
               Server.headers req !! "mcp-session-id" = Some id /\
               sessions !! id = Some transport /\
               handles transport req = Server.Terminates /\
               reply = Server.ByTransport (Server.sessionId transport) /\
               sessions' = Server.onclose transport sessions)).
  { intros transport Hlive Hpath Hhandle.
    destruct (live_inv _ _ _ Hlive) as (id & Hid & Hknown).
    destruct (handleRequest_inv _ _ _ _ _ Hhandle) as [->|(Hends & -> & ->)];
      [now left|].
    right. exists id, transport. auto 10. }
  destruct r; try (intros [= _ <-]; now left); try discriminate.
  - unfold Server.postMcp.
    destruct (Server.live _ sessions) as [transport|] eqn:Hlive.
    + destruct (Server.handleRequest Body handles transport req sessions)
        as [reply' m] eqn:Hhandle.
      intros [= <- <-]. destruct (Hhandled transport eq_refl (proj2 Hroute) Hhandle); auto.
    + destruct (Js.truthy (Server.headers req !! "mcp-session-id")) eqn:Hid; cbn [andb negb];
        [intros [= _ <-]; now left|].
      destruct (isInitializeRequest (Server.body req)) eqn:Hinit;
        [|intros [= _ <-]; now left].
      unfold Server.initialize. destruct (opens req) eqn:Hopens.
      * intros [= <- <-]. right. left. destruct Hroute. auto 10.
      * intros [= _ <-]. now left.
  - unfold Server.getMcp.
    destruct (Server.live _ sessions) as [transport|] eqn:Hlive;
      [|intros [= _ <-]; now left].
    destruct (Server.handleRequest Body handles transport req sessions)
      as [reply' m] eqn:Hhandle.
    intros [= <- <-]. destruct (Hhandled transport eq_refl (proj2 Hroute) Hhandle); auto.
  - unfold Server.deleteMcp.
    destruct (Server.live _ sessions) as [transport|] eqn:Hlive;
      [|intros [= _ <-]; now left].
    destruct (Server.handleRequest Body handles transport req sessions)
      as [reply' m] eqn:Hhandle.
    intros [= <- <-]. destruct (Hhandled transport eq_refl (proj2 Hroute) Hhandle); auto.
Qed.

(** X22.  Behind the API-key check nothing happens for a request that
    fails it: on the Dataverse test route and on the three routes of the
    endpoint, a request without the configured secret is answered 401 or 403
    by the check; the handler does not run, so no session is registered or
    looked up and no Dataverse call is made. *)
Theorem guarded_routes_need_key (t : Z) (generated key : string)
    (req : Server.HttpRequest Body) (sessions : gmap string Server.Transport)
    (r : Server.Route) :
  API_KEY cfg = Some key -> key <> "" ->
  Server.route (Server.verb req) (Server.path req) = Some r -> guarded r ->
  carries_nothing req \/ (exists secret, carries req secret /\ secret <> key) ->
  exists code error message,
    answer t generated req sessions
      = Server.Done (Server.Sent code (Server.AuthError error message)) sessions /\
    (code = 401 \/ code = 403).
Proof.
  intros Hkey Hne Hroute Hguarded Hbad. unfold Server.app. rewrite Hroute.
  assert (Hdenied : exists code error message,
            check req = Server.Answered (Server.Sent code (Server.AuthError error message)) /\
            (code = 401 \/ code = 403)).
  { unfold Server.validateApiKey. rewrite Hkey, (truthy_filled _ Hne). cbn [negb].
    destruct Hbad as [Hnone|(secret & Hcarries & Hdiff)].
    - rewrite (providedKey_none Body req Hnone). cbn [negb]. eauto 8.
    - rewrite (providedKey_carried Body req secret Hcarries),
        (truthy_filled _ (proj1 Hcarries)). cbn [negb].
      rewrite bool_decide_eq_false_2 by congruence. cbn [negb]. eauto 8. }
  destruct Hdenied as (code & error & message & Hcheck & Hcode).
  exists code, error, message. split; [|exact Hcode].
  destruct Hguarded as [-> |[-> |[-> | ->]]];
    cbn [Server.middleware Server.through]; now rewrite Hcheck.
Qed.

(** X23.  The dedicated header comes first: when a request has a
    non-empty [x-api-key] header, the check decides by it alone, whatever
    the authorization header and the query parameter hold. *)
Theorem header_decides_first (a b : Server.HttpRequest Body) (secret : string) :
  secret <> "" ->
  Server.headers a !! "x-api-key" = Some secret ->
  Server.headers b !! "x-api-key" = Some secret ->
  check a = check b /\
  (forall key, API_KEY cfg = Some key -> key <> "" ->
     check a = if bool_decide (secret = key) then Server.Continue
               else Server.Answered (Server.Sent 403
                      (Server.AuthError "Forbidden" "Invalid API key"))).
Proof.
  intros Hne Ha Hb.
  assert (Hkey : forall req : Server.HttpRequest Body,
            Server.headers req !! "x-api-key" = Some secret ->
            Server.providedKey Body req = Some secret).
  { intros req Hreq. unfold Server.providedKey, Js.or_else.
    rewrite Hreq, (truthy_filled _ Hne). now rewrite truthy_filled. }
  unfold Server.validateApiKey. rewrite (Hkey a Ha), (Hkey b Hb). split; [reflexivity|].
  intros key -> Hk. rewrite (truthy_filled _ Hk), (truthy_filled _ Hne). cbn [negb].
  destruct (decide (secret = key)) as [-> |Hdiff].
  - now rewrite !bool_decide_eq_true_2.
  - rewrite !bool_decide_eq_false_2 by congruence. reflexivity.
Qed.

End Sessions.



Lemma registry_changes_by_callbacks_witness :
  let last := request "DELETE" "/mcp" [("mcp-session-id", "0b0e7d5c")] [] "" in
  let opened := Server.onsessioninitialized "0b0e7d5c" ∅ in
  Server.app unconfigured string is_initialize sample_opens sample_handles 9 "4c1d"
    last opened
  = Server.Done (Server.ByTransport (Some "0b0e7d5c")) ∅ /\
  exists transport,
    opened !! "0b0e7d5c" = Some transport /\
    sample_handles transport last = Server.Terminates /\
    (∅ : gmap string Server.Transport) = Server.onclose transport opened.
Proof.
  intros last opened.
  assert (Hserved : Server.app unconfigured string is_initialize sample_opens
                      sample_handles 9 "4c1d" last opened
                    = Server.Done (Server.ByTransport (Some "0b0e7d5c")) ∅).
  { unfold Server.app. cbn [last request Server.verb Server.path Server.route String.eqb
      Ascii.eqb Bool.eqb andb Server.middleware Server.through].
    vm_compute. reflexivity. }
  split; [exact Hserved|].
  destruct (registry_changes_by_callbacks unconfigured string is_initialize sample_opens
              sample_handles 9 "4c1d" last opened ∅
              (Server.ByTransport (Some "0b0e7d5c")) Hserved)
    as [Hsame|[(_ & Hreply & _)|(id & transport & _ & Hid & Hknown & Hends & _ & Hclosed)]].
  - apply (f_equal (fun m => m !! "0b0e7d5c")) in Hsame.
    subst opened. unfold Server.onsessioninitialized in Hsame.
    rewrite lookup_insert_eq in Hsame. discriminate Hsame.
  - discriminate Hreply.
  - assert (Hnamed : id = "0b0e7d5c").
    { subst last. unfold request in Hid. cbn [Server.headers list_to_map foldr] in Hid.
      rewrite lookup_insert_eq in Hid. now injection Hid. }
    subst id. exists transport. auto.
Defined.

Lemma guarded_routes_need_key_witness :
  exists code error message,
    Server.app sample_config string is_initialize sample_opens sample_handles 0 "0b0e7d5c"
      (request "GET" "/test-dataverse" [("x-api-key", "guess")] [] "") ∅
    = Server.Done (Server.Sent code (Server.AuthError error message)) ∅ /\
    (code = 401 \/ code = 403).
Proof.
  apply (guarded_routes_need_key sample_config string is_initialize sample_opens
           sample_handles 0 "0b0e7d5c" "abc123"
           (request "GET" "/test-dataverse" [("x-api-key", "guess")] [] "") ∅
           Server.TestDataverse eq_refl ltac:(discriminate) eq_refl (or_introl eq_refl)).
  right. exists "guess". split; [|discriminate].
  split; [discriminate|]. exists [], [None; None]. split; [reflexivity|constructor].
Defined.

Lemma header_decides_first_witness :
  Server.validateApiKey sample_config string
    (request "POST" "/mcp" [("x-api-key", "xyz")] [("api_key", "abc123")] "tools/list")
  = Server.validateApiKey sample_config string
      (request "POST" "/mcp" [("x-api-key", "xyz")] [] "tools/list") /\
  Server.validateApiKey sample_config string
    (request "POST" "/mcp" [("x-api-key", "xyz")] [("api_key", "abc123")] "tools/list")
  = Server.Answered (Server.Sent 403 (Server.AuthError "Forbidden" "Invalid API key")).
Proof.
  destruct (header_decides_first sample_config string
              (request "POST" "/mcp" [("x-api-key", "xyz")] [("api_key", "abc123")]
                 "tools/list")
              (request "POST" "/mcp" [("x-api-key", "xyz")] [] "tools/list")
              "xyz" ltac:(discriminate) eq_refl eq_refl) as [Hsame Hverdict].
  split; [exact Hsame|].
  exact (Hverdict "abc123" eq_refl ltac:(discriminate)).
Defined.

(** ** What counts as a finding *)

Section Findings.

Variable env : Environment.

Lemma map_matches_complete (matches : list LeiRecord) :
  Forall (fun m => is_Some (attributes m)) matches ->
  exists mapped, Tools.map_matches matches = Ret mapped /\ length mapped = length matches.
Proof.
  induction 1 as [|m rest [a Ha] _ (mapped & IH & Hlen)]; simpl; [eauto|].
  rewrite Ha, IH. simpl. eexists. split; [reflexivity|]. simpl. now rewrite Hlen.
Qed.

Lemma map_matches_broken (matches : list LeiRecord) :
  Exists (fun m => attributes m = None) matches ->
  exists e, Tools.map_matches matches = Throw e.
Proof.
  induction 1 as [m rest Hm|m rest _ [e IH]]; simpl.
  - rewrite Hm. eauto.
  - destruct (attributes m); [rewrite IH|]; simpl; eauto.
Qed.

Lemma attributes_read (matches : list LeiRecord) :
  Forall (fun m => is_Some (attributes m)) matches \/
  Exists (fun m => attributes m = None) matches.
Proof.
  induction matches as [|m rest [IH|IH]]; [left; constructor| |right; now constructor].
  destruct (attributes m) as [a|] eqn:Ha; [left|right].
  - constructor; [rewrite Ha; eauto|exact IH].
  - now constructor.
Qed.

(** X24.  In the registry search only an answer without any record is a
    finding: a missing or empty [data] adds "Company not found in GLEIF
    registry".  A list with records adds nothing, whether the records can be
    read (the check is completed, with the count) or one of them has no
    [attributes] (the whole check is then in error). *)
Theorem search_finding (name : string) (results : Tools.Results) (w : World)
    (r : Response) (d : LeiData) :
  fst (env (history w) (Tools.gleifSearchRequest name)) = Resolved r ->
  ok r = true -> body_json r = Some (JLeiSearch d) ->
  let after := fst (run env (Tools.gleifSearch name results) w) in
  (d = DataAbsent \/ d = DataArray [] ->
   after = Returned (Tools.push "Company not found in GLEIF registry"
             (Tools.set_check "gleifSearch" (Tools.SearchCompleted 0 []) results))) /\
  (forall matches, d = DataArray matches -> matches <> [] ->
     exists c, after = Returned (Tools.set_check "gleifSearch" c results) /\
       (Forall (fun m => is_Some (attributes m)) matches ->
        exists mapped, c = Tools.SearchCompleted (length matches) mapped /\
                       length mapped = length matches) /\
       (Exists (fun m => attributes m = None) matches -> exists e, c = Tools.Errored e)).
Proof.
  intros Hr Hok Hjson after. subst after. unfold Tools.gleifSearch.
  rewrite run_try_catch, run_bind, run_fetch, Hr, Hok.
  unfold json_of, mbind, prog_bind. simpl. rewrite Hjson. simpl. split.
  - intros [-> | ->]; reflexivity.
  - intros matches -> Hsome. simpl.
    destruct (attributes_read matches) as [Hall|Hex].
    + destruct (map_matches_complete matches Hall) as (mapped & Hmap & Hlen).
      rewrite Hmap. simpl.
      destruct matches as [|m rest]; [contradiction|]. simpl.
      eexists. split; [reflexivity|]. split.
      * intros _. exists mapped. split; [reflexivity|exact Hlen].
      * intros Hex. exfalso. apply Exists_exists in Hex as (x & Hin & Hx).
        rewrite Forall_forall in Hall. destruct (Hall x Hin) as [a Ha]. congruence.
    + destruct (map_matches_broken matches Hex) as [e Hthrow].
      rewrite Hthrow. simpl. eexists. split; [reflexivity|]. split.
      * intros Hall. exfalso. apply Exists_exists in Hex as (x & Hin & Hx).
        rewrite Forall_forall in Hall. destruct (Hall x Hin) as [a Ha]. congruence.
      * intros _. eauto.
Qed.

(** X25.  In the LEI lookup a 404 is a finding and any other error status
    is not: a 404 completes the check as invalid and adds "Provided LEI not
    found in GLEIF database"; another error status puts the check in error,
    with the status in its message, and adds nothing. *)
Theorem lookup_finding (leiCode : string) (results : Tools.Results) (w : World)
    (r : Response) :
  leiCode <> "" ->
  fst (env (history w) (Tools.leiRequest leiCode)) = Resolved r ->
  ok r = false ->
  let after := fst (run env (Tools.leiVerification (Some leiCode) results) w) in
  (http_status r = 404 ->
   after = Returned (Tools.push "Provided LEI not found in GLEIF database"
             (Tools.set_check "leiVerification" Tools.LeiNotFound results))) /\
  (http_status r <> 404 ->
   after = Returned (Tools.set_check "leiVerification"
             (Tools.Errored ("HTTP " +:+ Js.showZ (http_status r))) results)).
Proof.
  intros Hne Hr Hok after. subst after. unfold Tools.leiVerification.
  rewrite (truthy_filled _ Hne). cbn [Js.show].
  rewrite run_try_catch, run_bind, run_fetch, Hr, Hok. split.
  - intros ->. reflexivity.
  - intros Hother. apply Z.eqb_neq in Hother. now rewrite Hother.
Qed.

End Findings.

Lemma search_finding_witness :
  fst (run (always (JLeiSearch (DataArray []))) (Tools.gleifSearch "Acme Ltd"
         {| Tools.companyName := "Acme Ltd"; Tools.timestamp := 0; Tools.checks := [];
            Tools.overallRisk := "LOW"; Tools.riskFactors := [] |}) fresh_world)
  = Returned {| Tools.companyName := "Acme Ltd"; Tools.timestamp := 0;
                Tools.checks := [("gleifSearch", Tools.SearchCompleted 0 [])];
                Tools.overallRisk := "LOW";
                Tools.riskFactors := ["Company not found in GLEIF registry"] |}.
Proof.
  exact (proj1 (search_finding (always (JLeiSearch (DataArray []))) "Acme Ltd"
                  {| Tools.companyName := "Acme Ltd"; Tools.timestamp := 0;
                     Tools.checks := []; Tools.overallRisk := "LOW";
                     Tools.riskFactors := [] |} fresh_world
                  {| http_status := 200; resp_headers := ∅; body_text := "";
                     body_json := Some (JLeiSearch (DataArray [])) |}
                  (DataArray []) eq_refl eq_refl eq_refl) (or_intror eq_refl)).
Defined.

Lemma lookup_finding_witness :
  fst (run (fun _ _ => (respond 503 "" None, 0%nat))
         (Tools.leiVerification (Some "5493001KJTIIGC8Y1R12")
            {| Tools.companyName := "Acme Ltd"; Tools.timestamp := 0; Tools.checks := [];
               Tools.overallRisk := "LOW"; Tools.riskFactors := [] |}) fresh_world)
  = Returned {| Tools.companyName := "Acme Ltd"; Tools.timestamp := 0;
                Tools.checks := [("leiVerification", Tools.Errored "HTTP 503")];
                Tools.overallRisk := "LOW"; Tools.riskFactors := [] |}.
Proof.
  exact (proj2 (lookup_finding (fun _ _ => (respond 503 "" None, 0%nat))
                  "5493001KJTIIGC8Y1R12"
                  {| Tools.companyName := "Acme Ltd"; Tools.timestamp := 0;
                     Tools.checks := []; Tools.overallRisk := "LOW";
                     Tools.riskFactors := [] |} fresh_world
                  {| http_status := 503; resp_headers := ∅; body_text := "";
                     body_json := None |}
                  ltac:(discriminate) eq_refl eq_refl) ltac:(discriminate)).
Defined.
